(* ===== verification/_CoqProject ===== *)
-Q . S2P
Prelude.v
JsValue.v
Runtime.v
Upstream.v
Policy.v
CacheStore.v
DuplicateDetector.v
Coordinator.v
EventLoop.v
Stats.v
WsRelay.v
Logging.v
Bootstrap.v
Server.v
HandlerLog.v
Scenarios.v
