(* ===== verification/Prelude.v ===== *)
(** * A verification development of augmented-rpc

    augmented-rpc is a Node.js HTTP proxy in front of a rate-limited
    Ethereum JSON-RPC endpoint.  The repository holds two versions of the
    program: [src/app.js] (in-memory cache only) and
    [src/unnamed/part_000] (the later version, which adds an optional
    sqlite backing selected by the environment variable [DB_FILE]).  Both
    are modelled, side by side, so that their differences become theorems.

    ** The program's parts and how they interact

    An inbound POST is handled by one async callback (the request
    coordinator, [app.post("/", ...)]).  It
    - computes a cache key from [req.body.method] and
      [JSON.stringify(req.body.params)] ([getCacheKey]);
    - consults the duplicate detector (a [Map] from key to the time of
      the last call) and, when the same key was seen less than 1000 ms
      before, sleeps 500 + floor(Math.random() * 1000) ms; then records
      the current time for the key;
    - picks the maximum age of a cached answer from the method name
      (Infinity for the immutable methods, [CACHE_MAX_AGE] * 1000 ms
      otherwise) and asks the cache store ([getResponseFromCache]);
    - on a hit sends a fresh envelope [{jsonrpc, id, result}] and counts
      a cached response; on a miss calls the upstream client
      ([upstreamHttpRequest], retry with exponential back-off), sends the
      upstream body verbatim, counts an upstream response and, when the
      method is cacheable, stores [data.result]
      ([writeResponseToCache]); a permanent upstream failure is answered
      with status 500;
    - counts the request.
    The statistics printer ([printStats], on [SIGINT] and on
    [GET /printstats]) prints the three counters and the per-entry
    read/write counts of the cache, or in database mode asks sqlite for
    the number of rows.  When [RPC] has a [ws:] or [wss:] scheme none of
    this runs: a websocket relay ([handleWsConnection]) passes frames
    between its clients and one upstream socket.  Every part writes its
    progress to the console ([console.log], [console.debug],
    [console.error]); nothing reads those lines back.

    ** Files

    - [Prelude]: this header; a state-and-exception monad [ST] with its
      notation (scope [st_scope]), its laws, a setoid equivalence with
      [Proper] instances, the hint database [rpc] and shared lemmas.
    - [JsValue]: JavaScript values as the program sees them ([jsval]),
      the exceptions it can raise ([exn]), the operators it uses
      ([typeof], [in], property access, [Array.prototype.includes] and
      [some], template-literal [String()] conversion, [JSON.stringify])
      and ToNumber on strings ([string_to_number], the StringToNumber
      grammar: white space, [Infinity], decimals with fraction and
      exponent, [0x]/[0o]/[0b] integers, NaN otherwise).
    - [Runtime]: the services of Node.js the program calls, as explicit
      state [Env]: [Date.now], [setTimeout] (with Node's clamping of
      delays outside [1, 2^31 - 1]), [Math.random] and [axios.post]
      (an oracle of outcomes and latencies, and a log of posted bodies).
    - [Policy]: the configuration record, the maximum age as the number
      [CACHE_MAX_AGE*1000] (finite, infinite or NaN), and the method
      classification of each version (maximum age, cache-write
      predicate, including the [eth_call]/[blockHash] test).
    - [Upstream]: [upstreamHttpRequest] (both versions are identical),
      its retry recursion, the back-off schedule, the exhaustion path and
      the [catch] block's diagnostic ([forwardedErr]), which throws on an
      HTTP error answer: axios's [err.response] holds the Node request,
      a circular structure, and [JSON.stringify] of it throws a
      [TypeError].
    - [CacheStore]: the cache entry record, [getCacheKey],
      [getResponseFromCache] and [writeResponseToCache] of each version
      (Module [InMemory] for app.js, Module [WithDb] for part_000, which
      also models [getFromDb] and the sqlite table); the abstract TTL
      cache contract ([TtlCache]) and its refinement by the in-memory
      store.
    - [DuplicateDetector]: the duplicate test, the randomized delay and
      the record update.
    - [Coordinator]: the whole request handler of each version as one
      [ST] computation over the program's globals, the Node environment
      and the replies sent; the counters; the end-to-end theorems; the
      reply contract [AnswersOnce] that both handlers implement (as
      [Instance]s) and the driver [serve] relies on; the counter
      contract [CountsReplies] (a 200 reply for every hit or upstream
      response counted, [httpReqCnt++] exactly when the handler
      completes) that the server's theorems rely on.
    - [EventLoop]: the part_000 handler cut at the [await]s that give the
      event loop back (the duplicate delay, the sqlite read, each post and
      each back-off sleep) into segments over the same world, threads
      suspended at those [await]s, and a scheduler that resumes the
      earliest one; whether an unhandled promise rejection ends the
      process (Node 15 and later) is a parameter.
    - [Stats]: [printStats] / [printStatsAndExit] of each version over
      the console, the process status and the pending sqlite query.
    - [WsRelay]: the choice of mode and the websocket relay as a step
      function over its events, with the reachable states as an
      inductive relation.
    - [Logging]: the console as a list of (stream, line) pairs, the
      erasure relation [erases] between a computation with console calls
      and one without (with its compositional lemmas and the tactic
      [erase_tac]), and app.js's copies of [upstreamHttpRequest]
      ([UpstreamLog]) and of the relay's handlers ([RelayLog]) with
      their console calls; part_000's copies, the same text, are the
      plain models of [Upstream] and [WsRelay].
    - [HandlerLog]: the POST handler of each version with its console
      calls ([HandlerLog.handlePost] for app.js, [HandlerLog000.handlePost]
      for part_000: the request line with [Date.now()/1000], the
      throttling, cache and database debug and error lines, the upstream
      lines, the response and permanent-failure lines) and the printing
      of times, maximum ages, errors and cache entries they use.
    - [Bootstrap]: what evaluating each module does before any request:
      the check of [RPC] and its throw, [PORT], [CACHE_MAX_AGE] (an
      environment string or 10), [DB_FILE], and the async IIFE that
      parses [RPC] with [new URL] (a [Section] variable: Node's parser)
      and selects the relay or the HTTP server, with the lines start-up
      writes ([startup_log]).
    - [Server]: the process of each version as a step function over its
      events: requests through [bodyParser.json()] and the routes
      [GET /printstats] and [POST /], [SIGINT], part_000's sqlite
      callbacks (open, [CREATE TABLE], [COUNT( * )]); it composes
      [Coordinator], [Stats] and [Bootstrap].
    - [Scenarios]: the spec's scenarios run on the handlers with [serve].

    ** Theorems, by group

    - Upstream: the errors of the retry loop for every oracle: either all
      nrRetries + 1 attempts (11 with the defaults) were rejected without
      a response and the error is a [ReferenceError] (the identifier
      [forwardErr] is misspelled), or an attempt got an HTTP error status
      (a 429 rate limit included) and the [TypeError] of
      [JSON.stringify] on the circular response ends the loop at once,
      with no retry; the exact runs up to the first success and up to
      the first HTTP error; the back-off timers armed, 2000 * 2^i ms up
      to the 21st and 1 ms from the 22nd on (Node's clamp); the defaults'
      10 sleeps and 2 046 000 ms of back-off.
    - Cache store: lookup after write within the maximum age (round trip),
      expiry, the infinite maximum age, read/write count bookkeeping,
      refinement of the TTL contract, null/undefined handling of each
      version, and that with a database the store never answers.
    - Duplicate detector: the delay lies in [500, 1500), the record holds
      the time after the delay.
    - Coordinator: hit path (envelope with the request's own id, no
      upstream call), miss path (forward, count, conditional write), error
      path (status 500 with an empty error object, after 11 posts when
      the upstream never answers and after one post when it answers an
      HTTP error status), the escape of
      [ERR_HTTP_HEADERS_SENT], database mode never hitting, and that
      [serve] gives every request exactly one reply, in order (proved
      once against [AnswersOnce]).
    - Event loop: the scheduler terminates (a budget of 24 resumptions
      per request); a lone request leaves the world exactly as the
      sequential handler does (the two models agree); interleaved
      requests are each answered exactly once; with scenarios, duplicate
      suppression fails when the upstream is slower than the delay, and
      one malformed request ends the process on Node 15 and later.
      Every thread the event loop holds is well typed (its retry count
      and timeout are those the code gives them), in any run.
    - Stats: what each trigger prints; the database count is lost on [SIGINT] and crashes the process on a
      query error; with a scenario, the counters can report more
      upstream responses than requests.
    - Relay: by rule induction on [reachable], one handler per connection
      ever accepted (never released), client frames reach the upstream
      verbatim, upstream frames reach every open client, a client frame
      before the upstream is open crashes the relay, and so does any
      error of the upstream socket, which has no ['error'] listener.
    - Start-up: both versions throw exactly when [RPC] is unset or
      empty; [CACHE_MAX_AGE] set to the decimal text of an integer gives
      that many seconds (ToNumber inverts the printing of integers), and
      a non-numeric value gives NaN, so part_000 never serves a volatile
      method from the cache.
    - Logging: the plain upstream client, relay and both handlers are
      the logged ones with the console erased (refinement, so every
      theorem above holds of the logged code); the exact lines of the
      retry loop (two per attempt rejected without a response, the last
      announcing a timeout that is never armed, and the retry line alone
      for an HTTP error answer, whose error line throws); upstream frames logged as forwarded to
      closed connections; and a [null] upstream body logged as a
      permanent failure after a 200 reply.
    - Server: over any run of either process from start-up, the counters
      agree with the replies (hits plus upstream responses are the 200
      replies; processed requests plus rejected handlers are the 200 and
      500 replies), and a request to [/printstats] never gets a
      response; in app.js it prints the statistics and ends the process,
      which handles no later request.

    ** Bounds and fuel

    Only the scheduler [sched_run] takes fuel; [sched_terminates] shows
    that 24 steps per request are enough (one for the arrival, the
    duplicate delay and the sqlite read each, and at most 11 posts and
    10 back-off sleeps), and every theorem about a run gives at least
    that much.  Otherwise no definition needs fuel: the runs of the
    server and of the relay are structural on their list of events, and
    the retry recursion is structural on the
    remaining retry count (a [nat], as every caller passes the default 10
    and the recursion decrements it by one while it is positive).  Times
    are [Z] milliseconds; latencies are [nat] so the clock never goes
    back.  [Math.random()] is modelled by the integer u with
    0 <= u < 2^53 of which it returns u / 2^53, the form of V8's result.

    ** Not modelled

    The stack trace Node prints for an uncaught exception, and the
    description of the cycle V8 appends to the first line of the
    circular-structure [TypeError] (every
    console line of the program is modelled; the callback of a failed
    [INSERT] writes its line at the write, as the insert is modelled
    synchronously).  The listening socket and [PORT]
    beyond its value (a string or 3000), Node's WHATWG URL parser (the
    variable [url_protocol]), the HTML pages of Express's final handler
    (the 404 and 400 answers are modelled with an empty body), the
    rounding of numbers to binary64 (ToNumber gives an exact decimal, so
    e.g. [CACHE_MAX_AGE=4.35] gives 4350 ms where V8 computes
    4349.999...), the sqlite schema (a flag saying the table exists),
    the interleaving of
    app.js's requests (its handler has part_000's [await]s but for the
    sqlite read; only part_000's is modelled on the event loop), Node's
    finer ordering of timer and I/O callbacks that fall due at the same
    millisecond (the scheduler takes them in the order they were
    queued), the insertion order of JavaScript [Map] iteration (the
    maps are [gmap]s), JSON numbers that are not integers and strings
    outside ASCII.  Three behaviours of the [ws] library (a send while
    connecting throws, a send when closed is dropped, a closed
    connection emits nothing) are modelled from the library, not from
    the repository, as is the argument [ws] passes to the callback of
    [send] (none on success, an [Error] on a closed socket), and that it
    sets the upstream socket to [CLOSING] before it emits ['error'].
    Websocket frames are the text [data.toString()] gives; binary frames
    that are not valid UTF-8 are not modelled.  Numbers
    are printed as the integers they are ([Z_to_dec]), and
    [Date.now()/1000] as the exact decimal, which is what JavaScript
    prints for times below 10^15 ms. *)

From stdpp Require Import base gmap strings list.
From Stdlib Require Import ZArith String.

Declare Scope st_scope.
Delimit Scope st_scope with st.

Create HintDb rpc.
Create Rewrite HintDb rpc_rw.

(** ** Results and the state-and-exception monad *)

(** Outcome of a computation that may throw: JavaScript [throw] keeps the
    state changes made before it, so the state is returned either way. *)
Inductive res (E A : Type) : Type :=
| ROk (a : A)
| RErr (e : E).
Arguments ROk {E A} a.
Arguments RErr {E A} e.

Definition ST (S E A : Type) : Type := S -> res E A * S.

Section Monad.
Context {S E : Type}.

Definition st_ret {A} (a : A) : ST S E A := fun s => (ROk a, s).

Definition st_bind {A B} (m : ST S E A) (k : A -> ST S E B) : ST S E B :=
  fun s =>
    match m s with
    | (ROk a, s') => k a s'
    | (RErr e, s') => (RErr e, s')
    end.

Definition st_throw {A} (e : E) : ST S E A := fun s => (RErr e, s).

(** [try { m } catch (e) { h(e) }] *)
Definition st_catch {A} (m : ST S E A) (h : E -> ST S E A) : ST S E A :=
  fun s =>
    match m s with
    | (RErr e, s') => h e s'
    | r => r
    end.

Definition st_gets {A} (f : S -> A) : ST S E A := fun s => (ROk (f s), s).
Definition st_modify (f : S -> S) : ST S E unit := fun s => (ROk tt, f s).

(** Two computations are equivalent when they agree on every state. *)
Definition st_eq {A} (m1 m2 : ST S E A) : Prop := forall s, m1 s = m2 s.
End Monad.

(** Run a computation on a part of the state. *)
Definition st_zoom {S T E A} (get : S -> T) (set : T -> S -> S) (m : ST T E A) : ST S E A :=
  fun s => let (r, t') := m (get s) in (r, set t' s).

Notation "x <- m ;; k" := (st_bind m (fun x => k))
  (at level 100, m at next level, right associativity) : st_scope.
Notation "m ;; k" := (st_bind m (fun _ => k))
  (at level 100, right associativity) : st_scope.

(** ** Monad laws and the setoid structure *)

Section Laws.
Context {S E : Type}.

#[export] Instance st_eq_equiv {A} : Equivalence (@st_eq S E A).
Proof. split; repeat intro; congruence. Qed.

#[export] Instance st_bind_proper {A B} :
  Proper (st_eq ==> pointwise_relation A st_eq ==> st_eq) (@st_bind S E A B).
Proof.
  intros m1 m2 Hm k1 k2 Hk s. unfold st_bind. rewrite Hm.
  destruct (m2 s) as [[a|e] s']; [apply Hk|reflexivity].
Qed.

#[export] Instance st_catch_proper {A} :
  Proper (st_eq ==> pointwise_relation E st_eq ==> st_eq) (@st_catch S E A).
Proof.
  intros m1 m2 Hm h1 h2 Hh s. unfold st_catch. rewrite Hm.
  destruct (m2 s) as [[a|e] s']; [reflexivity|apply Hh].
Qed.

Lemma st_bind_ret_l {A B} (a : A) (k : A -> ST S E B) :
  st_eq (st_bind (st_ret a) k) (k a).
Proof. intros s. reflexivity. Qed.

Lemma st_bind_ret_r {A} (m : ST S E A) : st_eq (st_bind m st_ret) m.
Proof. intros s. unfold st_bind. by destruct (m s) as [[a|e] s']. Qed.

Lemma st_bind_assoc {A B C} (m : ST S E A) (k : A -> ST S E B) (k' : B -> ST S E C) :
  st_eq (st_bind (st_bind m k) k') (st_bind m (fun a => st_bind (k a) k')).
Proof. intros s. unfold st_bind. by destruct (m s) as [[a|e] s']. Qed.

Lemma st_bind_throw {A B} (e : E) (k : A -> ST S E B) :
  st_eq (st_bind (st_throw e) k) (st_throw e).
Proof. intros s. reflexivity. Qed.

Lemma st_catch_ret {A} (a : A) (h : E -> ST S E A) : st_eq (st_catch (st_ret a) h) (st_ret a).
Proof. intros s. reflexivity. Qed.

Lemma st_catch_throw {A} (e : E) (h : E -> ST S E A) : st_eq (st_catch (st_throw e) h) (h e).
Proof. intros s. reflexivity. Qed.

(** The two rules used to run a sequence of statements one at a time. *)
Lemma st_bind_ok {A B} (m : ST S E A) (k : A -> ST S E B) s a s' :
  m s = (ROk a, s') -> st_bind m k s = k a s'.
Proof. intros H. unfold st_bind. by rewrite H. Qed.

Lemma st_bind_err {A B} (m : ST S E A) (k : A -> ST S E B) s e s' :
  m s = (RErr e, s') -> st_bind m k s = (RErr e, s').
Proof. intros H. unfold st_bind. by rewrite H. Qed.

Lemma st_catch_ok {A} (m : ST S E A) (h : E -> ST S E A) s a s' :
  m s = (ROk a, s') -> st_catch m h s = (ROk a, s').
Proof. intros H. unfold st_catch. by rewrite H. Qed.

Lemma st_catch_err {A} (m : ST S E A) (h : E -> ST S E A) s e s' :
  m s = (RErr e, s') -> st_catch m h s = h e s'.
Proof. intros H. unfold st_catch. by rewrite H. Qed.
End Laws.

(** Step over the first statement of a sequence, given a proof [t] (with
    holes) of its run. *)
Tactic Notation "st_run" open_constr(t) := erewrite (st_bind_ok _ _ _ _ _ t).
Tactic Notation "st_run_err" open_constr(t) := erewrite (st_bind_err _ _ _ _ _ t).
Tactic Notation "st_try_ok" open_constr(t) := erewrite (st_catch_ok _ _ _ _ _ t).
Tactic Notation "st_try_err" open_constr(t) := erewrite (st_catch_err _ _ _ _ _ t).

(** Unfold the monad's plumbing and compute. *)
Ltac st_simpl :=
  cbn [st_bind st_ret st_throw st_catch st_gets st_modify st_zoom] in *.

(** ** Hoare triples for [ST]

    [hoare P m Q]: from a state satisfying [P], [m] ends with a result
    and a state satisfying [Q].  Used for invariants of the handlers that
    depend on intermediate results. *)

Definition hoare {S E A} (P : S -> Prop) (m : ST S E A) (Q : res E A -> S -> Prop) : Prop :=
  forall s, P s -> Q (fst (m s)) (snd (m s)).

Section Hoare.
Context {S E : Type}.

Lemma hoare_ret {A} (P : S -> Prop) (a : A) (Q : res E A -> S -> Prop) :
  (forall s, P s -> Q (ROk a) s) -> hoare P (st_ret a) Q.
Proof. intros H s Hs. by apply H. Qed.

Lemma hoare_bind {A B} (P : S -> Prop) (m : ST S E A) (k : A -> ST S E B) Q R :
  hoare P m Q ->
  (forall a, hoare (Q (ROk a)) (k a) R) ->
  (forall e s, Q (RErr e) s -> R (RErr e) s) ->
  hoare P (st_bind m k) R.
Proof.
  intros Hm Hk He s Hs. specialize (Hm s Hs). unfold st_bind.
  destruct (m s) as [[a|e] s']; simpl in *; [by apply Hk | by apply He].
Qed.

Lemma hoare_catch {A} (P : S -> Prop) (m : ST S E A) (h : E -> ST S E A) Q R :
  hoare P m Q ->
  (forall a s, Q (ROk a) s -> R (ROk a) s) ->
  (forall e, hoare (Q (RErr e)) (h e) R) ->
  hoare P (st_catch m h) R.
Proof.
  intros Hm Ha Hh s Hs. specialize (Hm s Hs). unfold st_catch.
  destruct (m s) as [[a|e] s']; simpl in *; [by apply Ha | by apply Hh].
Qed.

Lemma hoare_consequence {A} (P P' : S -> Prop) (m : ST S E A) (Q Q' : res E A -> S -> Prop) :
  hoare P' m Q' -> (forall s, P s -> P' s) -> (forall r s, Q' r s -> Q r s) -> hoare P m Q.
Proof. intros H HP HQ s Hs. by apply HQ, H, HP. Qed.
End Hoare.

(** ** Shared lemmas on integers *)

Lemma Z_pow2_pos (n : nat) : (0 < 2 ^ Z.of_nat n)%Z.
Proof. apply Z.pow_pos_nonneg; lia. Qed.

Lemma Z_pow2_succ (n : nat) : (2 ^ Z.of_nat (S n) = 2 * 2 ^ Z.of_nat n)%Z.
Proof. rewrite Nat2Z.inj_succ, Z.pow_succ_r; lia. Qed.

Lemma Z_pow2_mono (m n : nat) : m <= n -> (2 ^ Z.of_nat m <= 2 ^ Z.of_nat n)%Z.
Proof. intros H. apply Z.pow_le_mono_r; lia. Qed.

#[export] Hint Resolve Z_pow2_pos Z_pow2_mono : rpc.

(** ** Shared lemmas on lists *)

Lemma existsb_app_false {A} (f : A -> bool) (l1 l2 : list A) :
  existsb f (l1 ++ l2) = false <-> existsb f l1 = false /\ existsb f l2 = false.
Proof. rewrite existsb_app, orb_false_iff. done. Qed.

(** [existsb] with a decidable equality is list membership. *)
Lemma existsb_eqb_elem (x : nat) (l : list nat) : existsb (Nat.eqb x) l = true <-> x ∈ l.
Proof.
  rewrite existsb_exists, list_elem_of_In. split.
  - intros (y & Hy & Heq). apply Nat.eqb_eq in Heq. by subst.
  - intros Hx. exists x. by rewrite Nat.eqb_refl.
Qed.

(** Two filters agree on a list when their predicates agree on its
    elements. *)
Lemma list_filter_iff_in {A} (P1 P2 : A -> Prop) `{!forall x, Decision (P1 x), !forall x, Decision (P2 x)}
    (l : list A) :
  (forall x, x ∈ l -> P1 x <-> P2 x) -> filter P1 l = filter P2 l.
Proof.
  induction l as [|a l IH]; intros Hiff; [done|]. rewrite !filter_cons.
  rewrite IH by (intros x Hx; apply Hiff; by right).
  destruct (decide (P1 a)) as [H1|H1], (decide (P2 a)) as [H2|H2]; try done;
    exfalso; [apply H2 | apply H1]; apply (Hiff a); first [by left | done].
Qed.
