(* ===== verification/JsValue.v ===== *)
(** * JavaScript values and the operators the proxy applies to them

    [jsval] is the value of a parsed JSON body as the handler sees it
    ([req.body], [rpcRes.data], the cached [val]); [undefined] is included
    because a missing property reads as [undefined].  Numbers are
    integers (every number in a JSON-RPC envelope the proxy inspects is
    an id or a count); strings are ASCII.  Objects keep their keys in
    insertion order, as [JSON.stringify] prints them.

    The operators are those the two versions of the handler use:
    property access ([req.body.method], [rpcRes.data.result]),
    [typeof], the [in] operator, [Array.prototype.includes] and [some],
    template-literal conversion to a string and [JSON.stringify], and
    ToNumber, which [CACHE_MAX_AGE*1000] applies to the environment
    string.  A number produced by ToNumber is an exact decimal [m * 10^e]:
    the rounding to a binary64 double is not modelled. *)

From stdpp Require Import base strings list.
From Stdlib Require Import ZArith String Ascii Decimal DecimalString DecimalZ DecimalPos.
From S2P Require Import Prelude.

Local Open Scope string_scope.
Local Set Warnings "-register-all".

Inductive jsval : Type :=
| JUndef
| JNull
| JBool (b : bool)
| JNum (z : Z)
| JStr (s : string)
| JArr (l : list jsval)
| JObj (fs : list (string * jsval)).

(** Exceptions the program can raise or receive. [AxiosError response
    request] is a rejection of [axios.post]: [response] is [err.response]
    ([JUndef] when no answer came), [request] is [Some err.request.data]
    when a request object is attached. *)
Inductive exn : Type :=
| TypeError (msg : string)
| ReferenceError (name : string)
| AxiosError (response : jsval) (request : option jsval)
| DbError (msg : string)
| HeadersSentError
| JsError (msg : string).  (** [Error(msg)], thrown by the program itself *)

(** ** Primitive operations *)

(** ToBoolean. *)
Definition js_truthy (v : jsval) : bool :=
  match v with
  | JUndef | JNull => false
  | JBool b => b
  | JNum z => negb (Z.eqb z 0)
  | JStr s => negb (String.eqb s EmptyString)
  | JArr _ | JObj _ => true
  end.

Definition js_typeof (v : jsval) : string :=
  match v with
  | JUndef => "undefined"
  | JNull => "object"
  | JBool _ => "boolean"
  | JNum _ => "number"
  | JStr _ => "string"
  | JArr _ | JObj _ => "object"
  end.

Fixpoint assoc_lookup (k : string) (fs : list (string * jsval)) : option jsval :=
  match fs with
  | [] => None
  | (k', v) :: fs' => if String.eqb k k' then Some v else assoc_lookup k fs'
  end.

(** [v[k]] for a property name [k] that no prototype defines (the
    program reads [method], [params], [id], [result]): an own property of
    an object, otherwise [undefined]. *)
Definition js_prop (v : jsval) (k : string) : jsval :=
  match v with
  | JObj fs => match assoc_lookup k fs with Some x => x | None => JUndef end
  | _ => JUndef
  end.

(** [v.k] throws a [TypeError] on [null] and [undefined]. *)
Definition js_get (v : jsval) (k : string) : res exn jsval :=
  match v with
  | JUndef | JNull =>
      RErr (TypeError ("Cannot read properties of " ++ (if v is JNull then "null" else "undefined") ++
                       " (reading '" ++ k ++ "')"))
  | _ => ROk (js_prop v k)
  end.

(** [k in v]: a [TypeError] unless [v] is an object; an array has only
    index keys and [length]. *)
Definition js_in (k : string) (v : jsval) : res exn bool :=
  match v with
  | JObj fs => ROk (if assoc_lookup k fs is Some _ then true else false)
  | JArr _ => ROk false
  | _ => RErr (TypeError "Cannot use 'in' operator")
  end.

(** [[s1, ..., sn].includes(v)] (SameValueZero against strings). *)
Definition js_includes (l : list string) (v : jsval) : bool :=
  match v with
  | JStr s => existsb (String.eqb s) l
  | _ => false
  end.

(** [arr.some(f)] for a callback that may throw: stops at the first
    [true]; a throw of the callback propagates. *)
Fixpoint js_some (f : jsval -> res exn bool) (l : list jsval) : res exn bool :=
  match l with
  | [] => ROk false
  | x :: l' =>
      match f x with
      | ROk true => ROk true
      | ROk false => js_some f l'
      | RErr e => RErr e
      end
  end.

(** [v.some(f)]: a [TypeError] unless [v] is an array (reading [some]
    of [null]/[undefined], or calling a non-function). *)
Definition js_call_some (v : jsval) (f : jsval -> res exn bool) : res exn bool :=
  match v with
  | JArr l => js_some f l
  | JUndef | JNull => RErr (TypeError "Cannot read properties of undefined or null (reading 'some')")
  | _ => RErr (TypeError "some is not a function")
  end.

(** [v === null || v === undefined] *)
Definition js_nullish (v : jsval) : bool :=
  match v with JUndef | JNull => true | _ => false end.

(** ** Conversion to strings *)

(** [Number.prototype.toString] on integers. *)
Definition Z_to_dec (z : Z) : string := NilZero.string_of_int (Z.to_int z).

Fixpoint str_join (sep : string) (l : list string) : string :=
  match l with
  | [] => EmptyString
  | [s] => s
  | s :: l' => s ++ sep ++ str_join sep l'
  end.

(** ToString, as used by a template literal [`${v}`]; an array is joined
    with commas, its [null]/[undefined] elements print as empty. *)
Fixpoint js_to_string (v : jsval) : string :=
  match v with
  | JUndef => "undefined"
  | JNull => "null"
  | JBool b => if b then "true" else "false"
  | JNum z => Z_to_dec z
  | JStr s => s
  | JArr l =>
      str_join ","
        ((fix elems (l : list jsval) : list string :=
            match l with
            | [] => []
            | (JUndef | JNull) :: l' => EmptyString :: elems l'
            | x :: l' => js_to_string x :: elems l'
            end) l)
  | JObj _ => "[object Object]"
  end.

(** ** JSON.stringify *)

Definition hex_digit (n : nat) : ascii :=
  if Nat.ltb n 10 then ascii_of_nat (48 + n) else ascii_of_nat (87 + n).

(** One character of a quoted string: quote and backslash are escaped,
    control characters use the short escapes or [\u00XX]. *)
Definition json_escape_char (c : ascii) : string :=
  let n := nat_of_ascii c in
  if Nat.eqb n 34 then "\" ++ String c EmptyString
  else if Nat.eqb n 92 then "\\"
  else if Nat.eqb n 8 then "\b"
  else if Nat.eqb n 12 then "\f"
  else if Nat.eqb n 10 then "\n"
  else if Nat.eqb n 13 then "\r"
  else if Nat.eqb n 9 then "\t"
  else if Nat.ltb n 32 then
    "\u00" ++ String (hex_digit (n / 16)) (String (hex_digit (n mod 16)) EmptyString)
  else String c EmptyString.

Fixpoint json_escape (s : string) : string :=
  match s with
  | EmptyString => EmptyString
  | String c s' => json_escape_char c ++ json_escape s'
  end.

Definition dquote : string := String "034"%char EmptyString.

Definition json_quote (s : string) : string := dquote ++ json_escape s ++ dquote.

(** [JSON.stringify(v)]: [None] is the [undefined] it returns for
    [undefined]; inside an array [undefined] prints as [null], inside an
    object the property is left out. *)
Fixpoint json_stringify (v : jsval) : option string :=
  match v with
  | JUndef => None
  | JNull => Some "null"
  | JBool b => Some (if b then "true" else "false")
  | JNum z => Some (Z_to_dec z)
  | JStr s => Some (json_quote s)
  | JArr l =>
      Some ("[" ++ str_join ","
        ((fix elems (l : list jsval) : list string :=
            match l with
            | [] => []
            | x :: l' => (if json_stringify x is Some t then t else "null") :: elems l'
            end) l) ++ "]")
  | JObj fs =>
      Some ("{" ++ str_join ","
        ((fix props (fs : list (string * jsval)) : list string :=
            match fs with
            | [] => []
            | (k, x) :: fs' =>
                match json_stringify x with
                | Some t => (json_quote k ++ ":" ++ t) :: props fs'
                | None => props fs'
                end
            end) fs) ++ "}")
  end.

(** [`${JSON.stringify(v)}`]. *)
Definition json_stringify_tmpl (v : jsval) : string :=
  if json_stringify v is Some s then s else "undefined".

(** The body Express sends for [res.send(err)] with an [Error] object:
    its [message] and [stack] are not enumerable, so [JSON.stringify]
    gives [{}]; an [AxiosError] serializes through its [toJSON], of which
    only the [name] is kept here. *)
Definition exn_body (e : exn) : jsval :=
  match e with
  | AxiosError _ _ => JObj [("name", JStr "AxiosError")]
  | _ => JObj []
  end.

(** ** ToNumber *)

(** A number as ToNumber produces it: the exact decimal [m * 10^e], the
    infinities, or NaN.  [-0] is [NumDec 0 0]. *)
Inductive jsnum : Type :=
| NumDec (m : Z) (e : Z)
| NumInf
| NumNegInf
| NumNaN.

(** The StrWhiteSpaceChar of ECMA-262 on ASCII: tab, line feed, vertical
    tab, form feed, carriage return and space. *)
Definition is_str_ws (c : ascii) : bool :=
  let n := nat_of_ascii c in
  Nat.eqb n 9 || Nat.eqb n 10 || Nat.eqb n 11 || Nat.eqb n 12 || Nat.eqb n 13 || Nat.eqb n 32.

Fixpoint ltrim (s : string) : string :=
  match s with
  | EmptyString => EmptyString
  | String c s' => if is_str_ws c then ltrim s' else s
  end.

Fixpoint rtrim (s : string) : string :=
  match s with
  | EmptyString => EmptyString
  | String c s' =>
      let r := rtrim s' in
      if is_str_ws c && String.eqb r EmptyString then EmptyString else String c r
  end.

(** The value of [c] as a digit in radix [r] (2, 8, 10 or 16; the hex
    letters in either case). *)
Definition digit_value (r : Z) (c : ascii) : option Z :=
  let n := Z.of_nat (nat_of_ascii c) in
  let v := if (48 <=? n)%Z && (n <=? 57)%Z then (n - 48)%Z
           else if (97 <=? n)%Z && (n <=? 102)%Z then (n - 87)%Z
           else if (65 <=? n)%Z && (n <=? 70)%Z then (n - 55)%Z
           else r in
  if (v <? r)%Z then Some v else None.

(** The longest run of radix-[r] digits at the start of [s]: the value
    [acc] extended by them, their number, and what follows. *)
Fixpoint take_digits (r : Z) (s : string) (acc : Z) (k : nat) : Z * nat * string :=
  match s with
  | EmptyString => (acc, k, EmptyString)
  | String c s' =>
      match digit_value r c with
      | Some v => take_digits r s' (acc * r + v)%Z (S k)
      | None => (acc, k, s)
      end
  end.

(** NonDecimalIntegerLiteral after its [0x], [0o] or [0b]. *)
Definition radix_literal (r : Z) (s : string) : jsnum :=
  let '(v, k, rest) := take_digits r s 0 0 in
  if Nat.eqb k 0 || negb (String.eqb rest EmptyString) then NumNaN else NumDec v 0.

Definition is_char (n : nat) (c : ascii) : bool := Nat.eqb (nat_of_ascii c) n.

(** ExponentPart, if any: its value and what follows; [None] for an
    [e] or [E] without digits. *)
Definition exponent_part (s : string) : option (Z * string) :=
  match s with
  | String c s' =>
      if is_char 101 c || is_char 69 c then
        let '(neg, t) := match s' with
                         | String d t => if is_char 45 d then (true, t)
                                         else if is_char 43 d then (false, t) else (false, s')
                         | EmptyString => (false, s')
                         end in
        let '(x, k, rest) := take_digits 10 t 0 0 in
        if Nat.eqb k 0 then None else Some ((if neg then - x else x)%Z, rest)
      else Some (0%Z, s)
  | EmptyString => Some (0%Z, s)
  end.

(** StrUnsignedDecimalLiteral other than [Infinity]: digits, an optional
    fraction, an optional exponent, as [m * 10^e]. *)
Definition unsigned_decimal (s : string) : option (Z * Z * string) :=
  let '(i, ki, s1) := take_digits 10 s 0 0 in
  let '(m, kf, s2) :=
    match s1 with
    | String c s1' => if is_char 46 c then take_digits 10 s1' i 0 else (i, 0%nat, s1)
    | EmptyString => (i, 0%nat, s1)
    end in
  if Nat.eqb (ki + kf) 0 then None
  else match exponent_part s2 with
       | Some (x, rest) => Some (m, (x - Z.of_nat kf)%Z, rest)
       | None => None
       end.

(** StrDecimalLiteral: an optional sign, then [Infinity] or an unsigned
    decimal, with nothing after it. *)
Definition signed_decimal (s : string) : jsnum :=
  let '(neg, t) := match s with
                   | String c t => if is_char 45 c then (true, t)
                                   else if is_char 43 c then (false, t) else (false, s)
                   | EmptyString => (false, s)
                   end in
  if String.eqb t "Infinity" then (if neg then NumNegInf else NumInf)
  else match unsigned_decimal t with
       | Some (m, e, EmptyString) => NumDec (if neg then - m else m)%Z e
       | _ => NumNaN
       end.

(** StringToNumber: surrounding white space is ignored, an empty string
    is [0], [0x]/[0o]/[0b] introduce an unsigned integer in radix 16, 8
    or 2, anything else must be a StrDecimalLiteral or gives NaN. *)
Definition string_to_number (s : string) : jsnum :=
  let t := rtrim (ltrim s) in
  match t with
  | EmptyString => NumDec 0 0
  | String z (String c u) =>
      if is_char 48 z then
        if is_char 120 c || is_char 88 c then radix_literal 16 u
        else if is_char 111 c || is_char 79 c then radix_literal 8 u
        else if is_char 98 c || is_char 66 c then radix_literal 2 u
        else signed_decimal t
      else signed_decimal t
  | _ => signed_decimal t
  end.

(** ToNumber; an array or object goes through its string form. *)
Definition js_to_number (v : jsval) : jsnum :=
  match v with
  | JUndef => NumNaN
  | JNull => NumDec 0 0
  | JBool b => NumDec (if b then 1 else 0) 0
  | JNum z => NumDec z 0
  | JStr s => string_to_number s
  | JArr _ | JObj _ => string_to_number (js_to_string v)
  end.

(** ** Lemmas *)

Lemma js_get_defined v k :
  v <> JUndef -> v <> JNull -> js_get v k = ROk (js_prop v k).
Proof. destruct v; naive_solver. Qed.

Lemma js_includes_str l s : js_includes l (JStr s) = true <-> s ∈ l.
Proof.
  simpl. rewrite existsb_exists. split.
  - intros (x & Hx & E). apply String.eqb_eq in E. subst. by apply list_elem_of_In.
  - intros H. exists s. split; [by apply list_elem_of_In | apply String.eqb_refl].
Qed.

Lemma js_some_true_iff f l :
  (forall x, x ∈ l -> exists b, f x = ROk b) ->
  js_some f l = ROk true <-> exists x, x ∈ l /\ f x = ROk true.
Proof.
  induction l as [|x l IH]; intros Hdef; simpl.
  - split; [discriminate|]. intros (y & Hy & _). by apply not_elem_of_nil in Hy.
  - destruct (Hdef x) as [[] Hx]; [by left | |]; rewrite Hx.
    + split; [intros _; exists x; split; [left|]; done | done].
    + rewrite IH by (intros y Hy; apply Hdef; by right). split.
      * intros (y & Hy & Hfy). exists y. split; [by right|done].
      * intros (y & Hy & Hfy). apply elem_of_cons in Hy as [->|Hy]; [congruence|eauto].
Qed.

Lemma take_digits_uint_pos u p k :
  take_digits 10 (NilEmpty.string_of_uint u) (Z.pos p) k
  = (Z.pos (Pos.of_uint_acc u p), (k + String.length (NilEmpty.string_of_uint u))%nat, EmptyString).
Proof.
  revert p k. induction u as [|u IH|u IH|u IH|u IH|u IH|u IH|u IH|u IH|u IH|u IH]; intros p k;
    [simpl; f_equal; f_equal; lia|..];
    cbn [NilEmpty.string_of_uint take_digits Pos.of_uint_acc String.length];
    (match goal with |- context [digit_value 10 ?c] =>
       let v := eval vm_compute in (digit_value 10 c) in change (digit_value 10 c) with v end);
    cbv iota beta;
    match goal with |- take_digits _ _ ?a _ = (Z.pos (Pos.of_uint_acc _ ?q), _, _) =>
      replace a with (Z.pos q) by lia end;
    rewrite IH; f_equal; f_equal; lia.
Qed.

Lemma take_digits_uint_zero u k :
  take_digits 10 (NilEmpty.string_of_uint u) 0 k
  = (Z.of_uint u, (k + String.length (NilEmpty.string_of_uint u))%nat, EmptyString).
Proof.
  revert k. induction u as [|u IH|u IH|u IH|u IH|u IH|u IH|u IH|u IH|u IH|u IH]; intros k;
    [simpl; f_equal; f_equal; lia|..];
    cbn [NilEmpty.string_of_uint take_digits String.length];
    (match goal with |- context [digit_value 10 ?c] =>
       let v := eval vm_compute in (digit_value 10 c) in change (digit_value 10 c) with v end);
    cbv iota beta;
    (match goal with |- take_digits _ _ ?a _ = _ => let a' := eval vm_compute in a in change a with a' end);
    first [rewrite take_digits_uint_pos | rewrite IH]; f_equal; f_equal; first [reflexivity | lia].
Qed.

(** ToNumber inverts the decimal printing of integers (a template
    literal or [JSON.stringify] of a number). *)

Lemma ltrim_uint u : ltrim (NilEmpty.string_of_uint u) = NilEmpty.string_of_uint u.
Proof. by destruct u. Qed.

Lemma rtrim_uint u : rtrim (NilEmpty.string_of_uint u) = NilEmpty.string_of_uint u.
Proof. induction u; cbn [NilEmpty.string_of_uint rtrim]; rewrite ?IHu; try reflexivity. Qed.

Lemma uint_not_infinity u : String.eqb (NilEmpty.string_of_uint u) "Infinity" = false.
Proof. by destruct u. Qed.

Lemma unsigned_decimal_uint u : u <> Decimal.Nil ->
  unsigned_decimal (NilEmpty.string_of_uint u) = Some (Z.of_uint u, 0%Z, EmptyString).
Proof.
  intros Hu. unfold unsigned_decimal. rewrite take_digits_uint_zero. by destruct u.
Qed.

Lemma string_to_number_uint u : u <> Decimal.Nil ->
  string_to_number (NilEmpty.string_of_uint u) = NumDec (Z.of_uint u) 0.
Proof.
  intros Hu. transitivity (signed_decimal (NilEmpty.string_of_uint u)).
  - unfold string_to_number. rewrite ltrim_uint, rtrim_uint.
    destruct u as [|u|u|u|u|u|u|u|u|u|u]; [done|..]; destruct u; reflexivity.
  - unfold signed_decimal.
    replace (match NilEmpty.string_of_uint u with String c t => _ | EmptyString => _ end)
      with (false, NilEmpty.string_of_uint u) by (destruct u; [done|..]; reflexivity).
    rewrite uint_not_infinity, unsigned_decimal_uint by done. reflexivity.
Qed.

Lemma string_to_number_neg_uint u : u <> Decimal.Nil ->
  string_to_number (String "-"%char (NilEmpty.string_of_uint u)) = NumDec (- Z.of_uint u) 0.
Proof.
  intros Hu. transitivity (signed_decimal (String "-"%char (NilEmpty.string_of_uint u))).
  - assert (Hm : is_str_ws "-"%char = false) by reflexivity.
    assert (Ht : rtrim (ltrim (String "-"%char (NilEmpty.string_of_uint u)))
                 = String "-"%char (NilEmpty.string_of_uint u))
      by (cbn [ltrim]; rewrite Hm; cbv iota; cbn [rtrim]; rewrite Hm; cbn [andb]; by rewrite rtrim_uint).
    unfold string_to_number. rewrite Ht.
    destruct u as [|u|u|u|u|u|u|u|u|u|u]; [done|..]; reflexivity.
  - unfold signed_decimal. replace (is_char 45 "-"%char) with true by reflexivity.
    cbv iota beta zeta. rewrite uint_not_infinity, unsigned_decimal_uint by done. reflexivity.
Qed.

Lemma nilzero_uint u : u <> Decimal.Nil -> NilZero.string_of_uint u = NilEmpty.string_of_uint u.
Proof. by destruct u. Qed.

Lemma string_to_number_Z_to_dec z : string_to_number (Z_to_dec z) = NumDec z 0.
Proof.
  unfold Z_to_dec. rewrite <- (DecimalZ.of_to z) at 2.
  assert (Hn : match Z.to_int z with Decimal.Pos u | Decimal.Neg u => u <> Decimal.Nil end).
  { destruct z as [|p|p]; [done| |]; apply DecimalPos.Unsigned.to_uint_nonnil. }
  destruct (Z.to_int z) as [u|u]; cbn [NilZero.string_of_int Z.of_int]; rewrite nilzero_uint by done.
  - by apply string_to_number_uint.
  - by apply string_to_number_neg_uint.
Qed.

#[export] Hint Resolve js_get_defined : rpc.
