(* ===== verification/Runtime.v ===== *)
(** * The Node.js services the proxy calls, as explicit state

    [Env] is the part of the world outside the program that its handlers
    observe or affect: the clock read by [Date.now()], the timers armed
    by [setTimeout] (every [await new Promise(r => setTimeout(r, d))]
    of the code), the successive results of [Math.random()], and the
    upstream server reached through [axios.post].  The upstream is an
    oracle: the i-th post of the run takes [fst (env_net i)] ms and
    resolves with the response data or rejects with an [AxiosError].
    The log [env_posts] records every body posted, so that the number of
    calls reaching the upstream is an observable of the model. *)

From stdpp Require Import base list.
From Stdlib Require Import ZArith.
From S2P Require Import Prelude JsValue.

Record Env : Type := mkEnv {
  env_now : Z;
  env_timers : list Z;
  env_random : nat -> Z;
  env_draws : nat;
  env_net : nat -> nat * res exn jsval;
  env_posts : list jsval
}.

(** Node clamps a timer delay outside [1, 2^31 - 1] to 1 ms. *)
Definition TIMEOUT_MAX : Z := 2147483647.

Definition timer_delay (d : Z) : Z :=
  if orb (Z.ltb d 1) (Z.ltb TIMEOUT_MAX d) then 1 else d.

Definition env_sleep (d : Z) (e : Env) : Env :=
  {| env_now := env_now e + timer_delay d; env_timers := env_timers e ++ [timer_delay d];
     env_random := env_random e; env_draws := env_draws e;
     env_net := env_net e; env_posts := env_posts e |}.

Definition env_draw (e : Env) : Env :=
  {| env_now := env_now e; env_timers := env_timers e;
     env_random := env_random e; env_draws := S (env_draws e);
     env_net := env_net e; env_posts := env_posts e |}.

Definition env_post (body : jsval) (e : Env) : Env :=
  {| env_now := env_now e + Z.of_nat (fst (env_net e (length (env_posts e))));
     env_timers := env_timers e;
     env_random := env_random e; env_draws := env_draws e;
     env_net := env_net e; env_posts := env_posts e ++ [body] |}.

Local Open Scope st_scope.
Local Open Scope Z_scope.

(** [Date.now()] *)
Definition date_now : ST Env exn Z := st_gets env_now.

(** [await new Promise(resolve => setTimeout(resolve, d))] *)
Definition sleep (d : Z) : ST Env exn unit := st_modify (env_sleep d).

(** [Math.random()], returned as the integer u of its value u / 2^53. *)
Definition math_random : ST Env exn Z :=
  fun e => (ROk (env_random e (env_draws e)), env_draw e).

(** [Math.floor(r * k)] for [r = u / 2^53]. *)
Definition random_floor (u k : Z) : Z := (u * k) / 2 ^ 53.

(** [await axios.post(url, body)]: the data of the response, or the
    rejection. The URL is the configured upstream and plays no part. *)
Definition axios_post (url : String.string) (body : jsval) : ST Env exn jsval :=
  fun e =>
    let out := snd (env_net e (length (env_posts e))) in
    (out, env_post body e).

(** ** Lemmas *)

Lemma timer_delay_in_range d : 1 <= d <= TIMEOUT_MAX -> timer_delay d = d.
Proof.
  intros Hd. unfold timer_delay.
  destruct (Z.ltb_spec d 1), (Z.ltb_spec TIMEOUT_MAX d); simpl; lia.
Qed.

Lemma timer_delay_pos d : 1 <= timer_delay d.
Proof.
  unfold timer_delay.
  destruct (Z.ltb_spec d 1), (Z.ltb_spec TIMEOUT_MAX d); simpl; lia.
Qed.

Lemma random_floor_range u k :
  0 <= u < 2 ^ 53 -> 0 < k -> 0 <= random_floor u k < k.
Proof.
  intros Hu Hk. unfold random_floor. split.
  - apply Z.div_pos; lia.
  - apply Z.div_lt_upper_bound; nia.
Qed.

Lemma env_post_posts body e : env_posts (env_post body e) = env_posts e ++ [body].
Proof. reflexivity. Qed.

Lemma env_sleep_posts d e : env_posts (env_sleep d e) = env_posts e.
Proof. reflexivity. Qed.

Lemma env_post_net body e : env_net (env_post body e) = env_net e.
Proof. reflexivity. Qed.

Lemma env_sleep_net d e : env_net (env_sleep d e) = env_net e.
Proof. reflexivity. Qed.

#[export] Hint Rewrite env_post_posts env_sleep_posts env_post_net env_sleep_net : rpc_rw.
#[export] Hint Resolve timer_delay_pos : rpc.
