(* ===== verification/Upstream.v ===== *)
(** * The upstream client: [upstreamHttpRequest]

    Both versions of the program define the same function
    ([src/app.js] lines 182-206, [src/unnamed/part_000] lines 226-250):
    post the body; on a rejection evaluate the diagnostic [forwardedErr],
    then, while retries are left, sleep [initialTimeoutMs] and recurse
    with one retry less and the delay doubled; when none is left, throw.

    The diagnostic throws when the rejection carries an HTTP response
    (any status outside 2xx): axios's [err.response] holds the Node
    [ClientRequest], whose socket points back to it, so
    [JSON.stringify(err.response)] (line 233) throws a [TypeError] and
    the request is not retried.  The final throw is
    [throw Error(forwardErr)]: the identifier is misspelled
    ([forwardedErr] is the variable), so evaluating it raises a
    [ReferenceError].  Either way the caller never sees the upstream's
    failure.  An attempt rejected without a response (unreachable
    upstream, timeout) is [attempt_unanswered]; one answered with an
    error status is [attempt_http_error].

    Theorems: the errors of a run for every oracle (the
    [ReferenceError] after nrRetries + 1 unanswered attempts, or the
    [TypeError] right after the first HTTP error answer); the exact run
    when the first attempts go unanswered and the next one succeeds or
    gets an HTTP error (posts, timers, clock); the back-off timers
    against Node's timer limit; the defaults' 11 attempts and 2 046 000
    ms of back-off. *)

From Stdlib Require Import ZArith String.
From stdpp Require Import base list.
From S2P Require Import Prelude JsValue Runtime.

Local Open Scope st_scope.
Local Open Scope Z_scope.

(** [err.response] is set by axios exactly when the upstream answered
    with a status outside 2xx; a network failure or a timeout leaves it
    [undefined], as does a rejection that is not an axios error. *)
Definition has_response (err : exn) : bool :=
  match err with
  | AxiosError resp _ => js_truthy resp
  | _ => false
  end.

(** What [JSON.stringify(err.response)] throws: axios's response object
    holds the Node [ClientRequest] ([response.request]), whose [socket]
    points back to it, so the structure is circular.  V8 appends a
    description of the cycle to this first line of the message. *)
Definition circular_json_error : exn :=
  TypeError "Converting circular structure to JSON"%string.

(** The diagnostic evaluated in the [catch] block (lines 231-239): the
    template of the [console.error] of line 233 evaluates
    [JSON.stringify(err.response)] first, so a rejection that carries a
    response throws there; otherwise the value is logged, then unused. *)
Definition forwardedErr (err : exn) : res exn jsval :=
  let ofs v := if json_stringify v is Some s then JStr s else JUndef in
  match err with
  | AxiosError resp req =>
      if js_truthy resp then RErr circular_json_error
      else if req is Some data then ROk (ofs data)
      else ROk (JStr "unspecified"%string)
  | _ => ROk (JStr "unspecified"%string)
  end.

Definition DEFAULT_RETRIES : nat := 10.
Definition DEFAULT_INITIAL_TIMEOUT_MS : Z := 2000.

Fixpoint upstreamHttpRequest (rpc : String.string) (reqBody : jsval)
    (nrRetries : nat) (initialTimeoutMs : Z) : ST Env exn jsval :=
  st_catch (axios_post rpc reqBody)
    (fun err =>
       match forwardedErr err with
       | RErr thrown => st_throw thrown
       | ROk _ =>
           match nrRetries with
           | S nrRetries' =>
               sleep initialTimeoutMs ;;
               upstreamHttpRequest rpc reqBody nrRetries' (initialTimeoutMs * 2)
           | O => st_throw (ReferenceError "forwardErr"%string)
           end
       end).

(** ** Observations of a run *)

(** The delays slept before the retries of a run with k retries. *)
Fixpoint backoff_schedule (t : Z) (k : nat) : list Z :=
  match k with
  | O => []
  | S k' => timer_delay t :: backoff_schedule (t * 2) k'
  end.

(** Time spent in the k attempts numbered [base], [base + 1], ... *)
Fixpoint latency_sum (net : nat -> nat * res exn jsval) (base k : nat) : Z :=
  match k with
  | O => 0
  | S k' => Z.of_nat (fst (net base)) + latency_sum net (S base) k'
  end.

Definition sum_Z (l : list Z) : Z := fold_right Z.add 0 l.

(** The environment after k posts of [body] and the sleeps [sched]. *)
Definition env_after (e : Env) (body : jsval) (k : nat) (sched : list Z) : Env :=
  {| env_now := env_now e + latency_sum (env_net e) (length (env_posts e)) k + sum_Z sched;
     env_timers := env_timers e ++ sched;
     env_random := env_random e; env_draws := env_draws e;
     env_net := env_net e; env_posts := env_posts e ++ repeat body k |}.

(** Attempt [i] is rejected without an HTTP response (the upstream is
    unreachable or times out): the retry path. *)
Definition attempt_unanswered (net : nat -> nat * res exn jsval) (i : nat) : Prop :=
  exists err, snd (net i) = RErr err /\ has_response err = false.

(** Attempt [i] is answered with an HTTP error status. *)
Definition attempt_http_error (net : nat -> nat * res exn jsval) (i : nat) : Prop :=
  exists err, snd (net i) = RErr err /\ has_response err = true.

(** ** The diagnostic *)

Lemma forwardedErr_unanswered err :
  has_response err = false -> exists v, forwardedErr err = ROk v.
Proof.
  intros H. destruct err as [| |resp req| | |]; cbn in *; try by eexists.
  rewrite H. destruct req; by eexists.
Qed.

Lemma forwardedErr_response err :
  has_response err = true -> forwardedErr err = RErr circular_json_error.
Proof. destruct err; cbn; try discriminate. by intros ->. Qed.

(** ** One attempt *)

Lemma upstream_fail_step rpc body n t e err v :
  snd (env_net e (length (env_posts e))) = RErr err -> forwardedErr err = ROk v ->
  upstreamHttpRequest rpc body (S n) t e =
  upstreamHttpRequest rpc body n (t * 2) (env_sleep t (env_post body e)).
Proof. intros H Hf. simpl. unfold st_catch, axios_post. by rewrite H, Hf. Qed.

Lemma upstream_fail_last rpc body t e err v :
  snd (env_net e (length (env_posts e))) = RErr err -> forwardedErr err = ROk v ->
  upstreamHttpRequest rpc body O t e = (RErr (ReferenceError "forwardErr"%string), env_post body e).
Proof. intros H Hf. simpl. unfold st_catch, axios_post. by rewrite H, Hf. Qed.

(** The diagnostic throws: the exception leaves the retry loop at once. *)
Lemma upstream_catch_throws rpc body n t e err thrown :
  snd (env_net e (length (env_posts e))) = RErr err -> forwardedErr err = RErr thrown ->
  upstreamHttpRequest rpc body n t e = (RErr thrown, env_post body e).
Proof. intros H Hf. destruct n; simpl; unfold st_catch, axios_post; by rewrite H, Hf. Qed.

Lemma upstream_ok_step rpc body n t e d :
  snd (env_net e (length (env_posts e))) = ROk d ->
  upstreamHttpRequest rpc body n t e = (ROk d, env_post body e).
Proof. intros H. destruct n; simpl; unfold st_catch, axios_post; by rewrite H. Qed.

(** ** Environments after a prefix of the run *)

Lemma latency_sum_snoc net base k :
  latency_sum net base (S k) = latency_sum net base k + Z.of_nat (fst (net (base + k)%nat)).
Proof.
  revert base. induction k as [|k IH]; intros base; cbn [latency_sum].
  - rewrite Nat.add_0_r. lia.
  - cbn [latency_sum] in IH. rewrite IH, Nat.add_succ_r. cbn [Nat.add]. lia.
Qed.

Lemma env_after_0 e body : env_after e body 0 [] = e.
Proof. destruct e. unfold env_after; cbn. f_equal; [lia|by rewrite app_nil_r..]. Qed.

Lemma env_after_posts_length e body k sched :
  length (env_posts (env_after e body k sched)) = (length (env_posts e) + k)%nat.
Proof. cbn. by rewrite length_app, repeat_length. Qed.

(** One more post after a prefix of the run. *)
Lemma env_post_after e body k sched :
  env_post body (env_after e body k sched) = env_after e body (S k) sched.
Proof.
  unfold env_post. rewrite env_after_posts_length. unfold env_after.
  cbn [env_posts env_now env_net env_timers env_random env_draws]. f_equal.
  - rewrite latency_sum_snoc. lia.
  - rewrite <- app_assoc. f_equal. replace (S k) with (k + 1)%nat by lia. by rewrite repeat_app.
Qed.

(** The environment after one failed attempt and its sleep, seen from
    the start of the run. *)
Lemma env_after_shift e body t k sched :
  env_after (env_sleep t (env_post body e)) body k sched =
  env_after e body (S k) (timer_delay t :: sched).
Proof.
  unfold env_after, env_sleep, env_post; simpl. f_equal.
  - rewrite length_app, Nat.add_1_r. lia.
  - by rewrite <- app_assoc.
  - by rewrite <- app_assoc.
Qed.

Lemma env_after_post e body : env_post body e = env_after e body 1 [].
Proof. by rewrite <- env_post_after, env_after_0. Qed.

Lemma post_sleep_index e body t j :
  (length (env_posts (env_sleep t (env_post body e))) + j = length (env_posts e) + S j)%nat.
Proof. cbn [env_sleep env_post env_posts]. rewrite length_app. simpl. lia. Qed.

(** A property of the attempt [j] of the rest of the run, after one failed
    attempt and its sleep, is one of the attempt [S j] of the run. *)
Lemma net_shift (P : (nat -> nat * res exn jsval) -> nat -> Prop) e body t (j : nat) :
  P (env_net (env_sleep t (env_post body e))) (length (env_posts (env_sleep t (env_post body e))) + j)%nat
  <-> P (env_net e) (length (env_posts e) + S j)%nat.
Proof. by rewrite post_sleep_index. Qed.

Lemma backoff_schedule_succ t k :
  backoff_schedule t (S k) = timer_delay t :: backoff_schedule (t * 2) k.
Proof. reflexivity. Qed.

(** ** The runs of the retry loop *)

(** The first k attempts rejected without a response: the run goes on as
    a run with k retries less, k posts and k back-off sleeps later. *)
Lemma upstream_retry_prefix rpc body n t e k :
  (k <= n)%nat ->
  (forall j, (j < k)%nat -> attempt_unanswered (env_net e) (length (env_posts e) + j)) ->
  upstreamHttpRequest rpc body n t e =
  upstreamHttpRequest rpc body (n - k) (t * 2 ^ Z.of_nat k) (env_after e body k (backoff_schedule t k)).
Proof.
  revert n t e. induction k as [|k IH]; intros n t e Hk Hfail.
  - rewrite Nat.sub_0_r, Z.mul_1_r. cbn [backoff_schedule]. by rewrite env_after_0.
  - destruct n as [|n]; [lia|].
    destruct (Hfail O ltac:(lia)) as (err & Herr & Hr). rewrite Nat.add_0_r in Herr.
    destruct (forwardedErr_unanswered err Hr) as [v Hv].
    rewrite (upstream_fail_step _ _ _ _ _ _ _ Herr Hv), IH by
      (lia || (intros j Hj; apply (net_shift attempt_unanswered); apply Hfail; lia)).
    rewrite env_after_shift, Z_pow2_succ, Z.mul_assoc. done.
Qed.

(** C27. If the attempts before the k-th are rejected without a response
    and the k-th succeeds, the data of the k-th attempt is returned after
    k back-off sleeps. *)
Lemma upstream_first_success_run rpc body n t e k d :
  (k <= n)%nat ->
  (forall j, (j < k)%nat -> attempt_unanswered (env_net e) (length (env_posts e) + j)) ->
  snd (env_net e (length (env_posts e) + k)) = ROk d ->
  upstreamHttpRequest rpc body n t e = (ROk d, env_after e body (S k) (backoff_schedule t k)).
Proof.
  intros Hk Hfail Hok. rewrite (upstream_retry_prefix _ _ _ _ _ k Hk Hfail).
  rewrite upstream_ok_step with (d := d); [by rewrite env_post_after|].
  by rewrite env_after_posts_length.
Qed.

(** If all nrRetries + 1 attempts are rejected without a response, the
    [ReferenceError] is thrown after nrRetries back-off sleeps. *)
Lemma upstream_exhausted_run rpc body n t e :
  (forall j, (j <= n)%nat -> attempt_unanswered (env_net e) (length (env_posts e) + j)) ->
  upstreamHttpRequest rpc body n t e =
  (RErr (ReferenceError "forwardErr"%string), env_after e body (S n) (backoff_schedule t n)).
Proof.
  intros Hfail. rewrite (upstream_retry_prefix _ _ _ _ _ n) by (lia || (intros; apply Hfail; lia)).
  rewrite Nat.sub_diag. destruct (Hfail n ltac:(lia)) as (err & Herr & Hr).
  destruct (forwardedErr_unanswered err Hr) as [v Hv].
  rewrite upstream_fail_last with (err := err) (v := v); [by rewrite env_post_after|..|exact Hv].
  by rewrite env_after_posts_length.
Qed.

(** The first attempt answered with an HTTP error status ends the
    run: after k attempts rejected without a response, an attempt that
    gets a 4xx or 5xx answer is not retried, whatever the retries left;
    the [TypeError] of [JSON.stringify] on the circular response is
    thrown after k + 1 posts and k back-off sleeps. *)
Lemma upstream_http_error_run rpc body n t e k :
  (k <= n)%nat ->
  (forall j, (j < k)%nat -> attempt_unanswered (env_net e) (length (env_posts e) + j)) ->
  attempt_http_error (env_net e) (length (env_posts e) + k) ->
  upstreamHttpRequest rpc body n t e =
  (RErr circular_json_error, env_after e body (S k) (backoff_schedule t k)).
Proof.
  intros Hk Hfail (err & Herr & Hr). rewrite (upstream_retry_prefix _ _ _ _ _ k Hk Hfail).
  rewrite upstream_catch_throws with (err := err) (thrown := circular_json_error);
    [by rewrite env_post_after| |by apply forwardedErr_response].
  by rewrite env_after_posts_length.
Qed.

(** The retry loop only moves the clock forward, and leaves the oracles
    and the random draws alone. *)
Lemma upstream_env_mono rpc body n t e :
  let e' := snd (upstreamHttpRequest rpc body n t e) in
  env_now e <= env_now e' /\ env_net e' = env_net e /\ env_random e' = env_random e /\
  env_draws e' = env_draws e.
Proof.
  revert t e. induction n as [|n IH]; intros t e;
    destruct (snd (env_net e (length (env_posts e)))) as [d|err] eqn:Hout;
    try (rewrite (upstream_ok_step _ _ _ _ _ _ Hout); simpl; split_and!; [lia|done..]);
    (destruct (forwardedErr err) as [v|thrown] eqn:Hf;
     [|rewrite (upstream_catch_throws _ _ _ _ _ _ _ Hout Hf); simpl; split_and!; [lia|done..]]).
  - rewrite (upstream_fail_last _ _ _ _ _ _ Hout Hf). simpl. split_and!; [lia|done..].
  - rewrite (upstream_fail_step _ _ _ _ _ _ _ Hout Hf).
    destruct (IH (t * 2) (env_sleep t (env_post body e))) as (H1 & H2 & H3 & H4).
    pose proof (timer_delay_pos t). simpl in *. split_and!; [lia|done..].
Qed.

(** Between 1 and nrRetries + 1 posts of the same body are made, for
    every oracle. *)
Lemma upstream_run_shape rpc body n t e :
  exists k, (1 <= k <= S n)%nat /\
    env_posts (snd (upstreamHttpRequest rpc body n t e)) = env_posts e ++ repeat body k.
Proof.
  revert t e. induction n as [|n IH]; intros t e;
    destruct (snd (env_net e (length (env_posts e)))) as [d|err] eqn:Hout;
    try (rewrite (upstream_ok_step _ _ _ _ _ _ Hout); exists 1%nat; split; [lia|done]);
    (destruct (forwardedErr err) as [v|thrown] eqn:Hf;
     [|rewrite (upstream_catch_throws _ _ _ _ _ _ _ Hout Hf); exists 1%nat; split; [lia|done]]).
  - rewrite (upstream_fail_last _ _ _ _ _ _ Hout Hf). exists 1%nat. split; [lia|done].
  - rewrite (upstream_fail_step _ _ _ _ _ _ _ Hout Hf).
    destruct (IH (t * 2) (env_sleep t (env_post body e))) as (k & Hk & Hposts).
    exists (S k). split; [lia|]. rewrite Hposts. cbn [env_sleep env_post env_posts].
    by rewrite <- app_assoc.
Qed.

(** ** Theorems *)

(** C4. The errors of the retry loop, for every oracle: the upstream's
    own failure never surfaces.  Either all nrRetries + 1 attempts were
    rejected without a response and the error is the [ReferenceError] of
    the misspelled [forwardErr], or some attempt k <= nrRetries, after k
    unanswered ones, got an HTTP error status and the error is the
    [TypeError] of [JSON.stringify] on the circular response, after
    k + 1 posts. *)
Lemma upstream_error_cases rpc body n t e err :
  fst (upstreamHttpRequest rpc body n t e) = RErr err ->
  (err = ReferenceError "forwardErr" /\
   env_posts (snd (upstreamHttpRequest rpc body n t e)) = env_posts e ++ repeat body (S n) /\
   forall j, (j <= n)%nat -> attempt_unanswered (env_net e) (length (env_posts e) + j)) \/
  (err = circular_json_error /\
   exists k, (k <= n)%nat /\
   env_posts (snd (upstreamHttpRequest rpc body n t e)) = env_posts e ++ repeat body (S k) /\
   (forall j, (j < k)%nat -> attempt_unanswered (env_net e) (length (env_posts e) + j)) /\
   attempt_http_error (env_net e) (length (env_posts e) + k)).
Proof.
  revert t e. induction n as [|n IH]; intros t e;
    destruct (snd (env_net e (length (env_posts e)))) as [d|err0] eqn:Hout;
    try (rewrite (upstream_ok_step _ _ _ _ _ _ Hout); discriminate);
    destruct (has_response err0) eqn:Hr;
    try (rewrite (upstream_catch_throws _ _ _ _ _ _ _ Hout (forwardedErr_response _ Hr));
         intros [= <-]; right; split; [done|]; exists O;
         split_and!; [lia|done|lia|exists err0; by rewrite Nat.add_0_r]);
    destruct (forwardedErr_unanswered _ Hr) as [v Hv].
  - rewrite (upstream_fail_last _ _ _ _ _ _ Hout Hv). intros [= <-]. left. split_and!; [done..|].
    intros j Hj. assert (j = O) as -> by lia. exists err0. by rewrite Nat.add_0_r.
  - rewrite (upstream_fail_step _ _ _ _ _ _ _ Hout Hv). intros Herr.
    assert (Hnow : attempt_unanswered (env_net e) (length (env_posts e) + 0)).
    { exists err0. by rewrite Nat.add_0_r. }
    assert (Happ : forall l, env_posts (env_sleep t (env_post body e)) ++ l = env_posts e ++ body :: l).
    { intros l. cbn. by rewrite <- app_assoc. }
    destruct (IH _ _ Herr) as [(-> & Hp & Hall)|(-> & k & Hk & Hp & Hpre & Hhttp)]; [left|right].
    + rewrite Hp, Happ. split_and!; [done..|].
      intros [|j] Hj; [exact Hnow|]. apply (net_shift attempt_unanswered e body t). apply Hall. lia.
    + split; [done|]. exists (S k). rewrite Hp, Happ. split_and!; [lia|done| |].
      * intros [|j] Hj; [exact Hnow|]. apply (net_shift attempt_unanswered e body t). apply Hpre. lia.
      * apply (net_shift attempt_http_error e body t). exact Hhttp.
Qed.

(** The back-off schedule in closed form: the i-th retry waits
    t * 2^i ms as clamped by Node's timer. *)
Lemma backoff_schedule_map t k :
  backoff_schedule t k = map (fun i => timer_delay (t * 2 ^ Z.of_nat i)) (seq 0 k).
Proof.
  revert t. induction k as [|k IH]; intros t; [done|].
  rewrite backoff_schedule_succ, IH. cbn [seq map]. f_equal; [f_equal; lia|].
  rewrite <- seq_shift, map_map. apply map_ext. intros i. f_equal. rewrite Z_pow2_succ. ring.
Qed.

(** The default back-off 2000 * 2^i ms is below Node's limit up to i = 20
    and above it from i = 21 on, where Node waits 1 ms instead. *)
Lemma default_backoff_delay i :
  timer_delay (DEFAULT_INITIAL_TIMEOUT_MS * 2 ^ Z.of_nat i)
  = if (i <=? 20)%nat then 2000 * 2 ^ Z.of_nat i else 1.
Proof.
  unfold DEFAULT_INITIAL_TIMEOUT_MS. pose proof (Z_pow2_pos i).
  destruct (Nat.leb_spec i 20) as [Hi|Hi].
  - apply timer_delay_in_range. unfold TIMEOUT_MAX.
    pose proof (Z_pow2_mono i 20 Hi). change (2 ^ Z.of_nat 20) with 1048576 in *. lia.
  - unfold timer_delay, TIMEOUT_MAX. pose proof (Z_pow2_mono 21 i ltac:(lia)).
    change (2 ^ Z.of_nat 21) with 2097152 in *.
    destruct (Z.ltb_spec (2000 * 2 ^ Z.of_nat i) 1), (Z.ltb_spec 2147483647 (2000 * 2 ^ Z.of_nat i));
      simpl; lia.
Qed.

(** C28. The timers the retry loop arms with the default first delay,
    for an upstream that never answers and any number n of retries: the
    i-th back-off is 2000 * 2^i ms for i <= 20; from the 22nd back-off on
    (2000 * 2^21 ms exceeds 2^31 - 1) Node clamps it to 1 ms, so the
    retries then follow each other almost at once. *)
Lemma upstream_default_timers rpc body n e :
  (forall j, (j <= n)%nat -> attempt_unanswered (env_net e) (length (env_posts e) + j)) ->
  env_timers (snd (upstreamHttpRequest rpc body n DEFAULT_INITIAL_TIMEOUT_MS e))
  = env_timers e ++ map (fun i => if (i <=? 20)%nat then 2000 * 2 ^ Z.of_nat i else 1) (seq 0 n).
Proof.
  intros Hfail. rewrite upstream_exhausted_run by exact Hfail. cbn [snd env_after env_timers].
  rewrite backoff_schedule_map. f_equal. apply map_ext. apply default_backoff_delay.
Qed.

(** C5. With the defaults and an upstream that never answers: 11 posts
    (not the 10 attempts of the spec), 10 sleeps of 2000, 4000, ...,
    1 024 000 ms, 2 046 000 ms of back-off in all, then the
    [ReferenceError]. *)
Lemma upstream_default_exhausted rpc body e :
  (forall j, (j <= DEFAULT_RETRIES)%nat -> attempt_unanswered (env_net e) (length (env_posts e) + j)) ->
  let '(r, e') := upstreamHttpRequest rpc body DEFAULT_RETRIES DEFAULT_INITIAL_TIMEOUT_MS e in
  r = RErr (ReferenceError "forwardErr") /\
  env_posts e' = env_posts e ++ repeat body 11 /\
  env_timers e' = env_timers e ++ [2000; 4000; 8000; 16000; 32000; 64000; 128000; 256000; 512000; 1024000] /\
  env_now e' = env_now e + latency_sum (env_net e) (length (env_posts e)) 11 + 2046000.
Proof.
  intros Hfail. rewrite upstream_exhausted_run by exact Hfail.
  cbn [env_after env_posts env_timers env_now]. by vm_compute (backoff_schedule _ _); vm_compute (sum_Z _).
Qed.

(** ** Witnesses *)

(** A run whose upstream is unreachable: every post rejected after 5 ms
    without a response. *)
Definition env_upstream_down : Env :=
  {| env_now := 0; env_timers := []; env_random := fun _ => 0; env_draws := 0;
     env_net := fun _ => (5%nat, RErr (AxiosError JUndef (Some JUndef))); env_posts := [] |}.

Lemma upstream_down_unanswered n :
  forall j, (j <= n)%nat ->
    attempt_unanswered (env_net env_upstream_down) (length (env_posts env_upstream_down) + j).
Proof. intros j _. eexists. split; reflexivity. Qed.

Lemma upstream_default_exhausted_witness :
  (forall j, (j <= DEFAULT_RETRIES)%nat ->
     attempt_unanswered (env_net env_upstream_down) (length (env_posts env_upstream_down) + j)) /\
  let '(r, e') := upstreamHttpRequest "http://upstream" (JObj []) DEFAULT_RETRIES
                    DEFAULT_INITIAL_TIMEOUT_MS env_upstream_down in
  r = RErr (ReferenceError "forwardErr") /\
  env_posts e' = env_posts env_upstream_down ++ repeat (JObj []) 11 /\
  env_timers e' = env_timers env_upstream_down
                  ++ [2000; 4000; 8000; 16000; 32000; 64000; 128000; 256000; 512000; 1024000] /\
  env_now e' = env_now env_upstream_down
               + latency_sum (env_net env_upstream_down) (length (env_posts env_upstream_down)) 11
               + 2046000.
Proof.
  split; [exact (upstream_down_unanswered DEFAULT_RETRIES)|].
  exact (upstream_default_exhausted "http://upstream" (JObj []) _ (upstream_down_unanswered _)).
Defined.

Lemma upstream_default_timers_witness :
  (forall j, (j <= 22)%nat ->
     attempt_unanswered (env_net env_upstream_down) (length (env_posts env_upstream_down) + j)) /\
  env_timers (snd (upstreamHttpRequest "http://upstream" (JObj []) 22 DEFAULT_INITIAL_TIMEOUT_MS
                     env_upstream_down))
  = env_timers env_upstream_down
    ++ map (fun i => if (i <=? 20)%nat then 2000 * 2 ^ Z.of_nat i else 1) (seq 0 22).
Proof.
  split; [exact (upstream_down_unanswered 22)|].
  exact (upstream_default_timers "http://upstream" (JObj []) 22 _ (upstream_down_unanswered _)).
Defined.

Lemma upstream_first_success_witness :
  let e := {| env_now := 0; env_timers := []; env_random := fun _ => 0; env_draws := 0;
              env_net := fun i => (3%nat, if Nat.ltb i 2 then RErr (AxiosError JUndef None)
                                          else ROk (JStr "0x1"));
              env_posts := [] |} in
  ((2 <= 10)%nat /\
   (forall j, (j < 2)%nat -> attempt_unanswered (env_net e) (length (env_posts e) + j)) /\
   snd (env_net e (length (env_posts e) + 2)) = ROk (JStr "0x1")) /\
  upstreamHttpRequest "http://upstream" (JObj []) 10 2000 e
  = (ROk (JStr "0x1"), env_after e (JObj []) 3 (backoff_schedule 2000 2)).
Proof.
  intros e.
  assert (H : (2 <= 10)%nat /\
     (forall j, (j < 2)%nat -> attempt_unanswered (env_net e) (length (env_posts e) + j)) /\
     snd (env_net e (length (env_posts e) + 2)) = ROk (JStr "0x1")).
  { split; [lia|]. split; [|reflexivity].
    intros j Hj. destruct j as [|[|j]]; [eexists; split; reflexivity..|lia]. }
  split; [exact H|]. destruct H as (H1 & H2 & H3).
  exact (upstream_first_success_run _ _ _ _ _ _ _ H1 H2 H3).
Defined.

Lemma upstream_error_cases_witness :
  fst (upstreamHttpRequest "http://upstream" (JObj []) 2 2000 env_upstream_down)
    = RErr (ReferenceError "forwardErr") /\
  ((ReferenceError "forwardErr" = ReferenceError "forwardErr" /\
    env_posts (snd (upstreamHttpRequest "http://upstream" (JObj []) 2 2000 env_upstream_down))
    = env_posts env_upstream_down ++ repeat (JObj []) 3 /\
    forall j, (j <= 2)%nat ->
      attempt_unanswered (env_net env_upstream_down) (length (env_posts env_upstream_down) + j)) \/
   (ReferenceError "forwardErr" = circular_json_error /\
    exists k, (k <= 2)%nat /\
    env_posts (snd (upstreamHttpRequest "http://upstream" (JObj []) 2 2000 env_upstream_down))
    = env_posts env_upstream_down ++ repeat (JObj []) (S k) /\
    (forall j, (j < k)%nat ->
       attempt_unanswered (env_net env_upstream_down) (length (env_posts env_upstream_down) + j)) /\
    attempt_http_error (env_net env_upstream_down) (length (env_posts env_upstream_down) + k))).
Proof.
  assert (H : fst (upstreamHttpRequest "http://upstream" (JObj []) 2 2000 env_upstream_down)
              = RErr (ReferenceError "forwardErr")) by reflexivity.
  split; [exact H|]. exact (upstream_error_cases _ _ _ _ _ _ H).
Defined.
