(* ===== verification/Policy.v ===== *)
(** * Method classification of each version

    Two decisions of the handler depend on the JSON-RPC method: the
    maximum age of a cached answer ([cacheMaxAgeMs], Infinity for the
    methods treated as immutable) and whether an upstream answer is
    written to the cache.  The two versions differ:
    - [src/app.js]: immutable [eth_chainId], [net_version]; cached
      [eth_chainId], [eth_blockNumber], [net_version],
      [eth_getTransactionReceipt];
    - [src/unnamed/part_000]: immutable adds [eth_getTransactionReceipt];
      cached [eth_chainId], [eth_blockNumber], [net_version], and
      [eth_call] when one of its parameters is an object with a
      [blockHash] key.  That test runs user input through [.some] and
      [in], so it can throw.

    The finite maximum age is [CACHE_MAX_AGE*1000], computed at each
    request from the configured value with ToNumber ([js_times_1000]):
    the environment string may give a fraction, an infinity or NaN. *)

From Stdlib Require Import ZArith String.
From stdpp Require Import base list.
From S2P Require Import Prelude JsValue.

Local Open Scope Z_scope.

(** The configuration read at start-up (see [Bootstrap]): the upstream
    URL [RPC], the value of [CACHE_MAX_AGE] (the environment string, or
    the number 10 when it is unset or empty) and [DB_FILE] (part_000
    only). *)
Record Config : Type := mkConfig {
  RPC : String.string;
  CACHE_MAX_AGE : jsval;
  DB_FILE : option String.string
}.

(** A maximum age in ms as [Date.now() - ts <= maxAgeMs] uses it: [Finite
    ms] is a finite number whose floor is [ms] (on integers, [d <= x] is
    [d <= floor x]); NaN fails every comparison. *)
Inductive maxage : Type :=
| Finite (ms : Z)
| Infinity
| NegInfinity
| NaN.

(** [Date.now() - ts <= maxAgeMs] *)
Definition is_fresh (now ts : Z) (ma : maxage) : bool :=
  match ma with
  | Infinity => true
  | Finite m => Z.leb (now - ts) m
  | NegInfinity | NaN => false
  end.

(** [v*1000]: ToNumber of [v], scaled to ms. *)
Definition js_times_1000 (v : jsval) : maxage :=
  match js_to_number v with
  | NumDec m e => Finite (if 0 <=? e + 3 then m * 10 ^ (e + 3) else m / 10 ^ (- (e + 3)))
  | NumInf => Infinity
  | NumNegInf => NegInfinity
  | NumNaN => NaN
  end.

Module AppJs.
Definition IMMUTABLE_METHODS : list String.string := ["eth_chainId"; "net_version"]%string.
Definition CACHED_METHODS : list String.string :=
  ["eth_chainId"; "eth_blockNumber"; "net_version"; "eth_getTransactionReceipt"]%string.

Definition cacheMaxAgeMs (cfg : Config) (method : jsval) : maxage :=
  if js_includes IMMUTABLE_METHODS method then Infinity else js_times_1000 (CACHE_MAX_AGE cfg).

(** The cache-write condition; it cannot throw in this version. *)
Definition shouldCache (body : jsval) : res exn bool :=
  ROk (js_includes CACHED_METHODS (js_prop body "method")).
End AppJs.

Module Part000.
Definition IMMUTABLE_METHODS : list String.string :=
  ["eth_chainId"; "net_version"; "eth_getTransactionReceipt"]%string.
Definition CACHED_METHODS : list String.string :=
  ["eth_chainId"; "eth_blockNumber"; "net_version"]%string.

Definition cacheMaxAgeMs (cfg : Config) (method : jsval) : maxage :=
  if js_includes IMMUTABLE_METHODS method then Infinity else js_times_1000 (CACHE_MAX_AGE cfg).

(** [param => typeof param === 'object' && 'blockHash' in param] *)
Definition hasBlockHash (param : jsval) : res exn bool :=
  if String.eqb (js_typeof param) "object" then js_in "blockHash" param else ROk false.

Definition shouldCache (body : jsval) : res exn bool :=
  let method := js_prop body "method" in
  if js_includes CACHED_METHODS method then ROk true
  else if js_includes ["eth_call"%string] method
  then js_call_some (js_prop body "params") hasBlockHash
  else ROk false.
End Part000.

(** ** Lemmas *)

Lemma is_fresh_infinity now ts : is_fresh now ts Infinity = true.
Proof. reflexivity. Qed.

Lemma js_times_1000_num z : js_times_1000 (JNum z) = Finite (z * 1000).
Proof. reflexivity. Qed.

Lemma is_fresh_finite now ts m : is_fresh now ts (Finite m) = true <-> now - ts <= m.
Proof. simpl. apply Z.leb_le. Qed.

#[export] Hint Rewrite is_fresh_infinity : rpc_rw.
