(* ===== verification/CacheStore.v ===== *)
(** * The cache store

    The in-memory cache is a [Map] from cache key to an entry
    [{ ts, val, readCnt, writeCnt }] ([cache] of both versions).  The
    later version adds a sqlite table [data(key, val, ts)] used in place
    of the map when [DB_FILE] is set.

    - [getCacheKey]: [`${method}${JSON.stringify(params)}`].
    - Module [InMemory] ([src/app.js] lines 79-105): a fresh entry is
      answered with an envelope and its [readCnt] is bumped, whatever its
      value; a write replaces the entry, keeping [readCnt] and bumping
      [writeCnt].
    - Module [WithDb] ([src/unnamed/part_000] lines 75-146): as above,
      but a [null] or [undefined] value is never answered; when the key
      is not in the map and a database is configured, the row is read
      and then [cache.get(key).ts] is evaluated on the missing map entry,
      which throws; the [catch] turns it into a miss.  Writes go to the
      database only, so the map stays empty.  [JSON.parse] (a library
      function) is a parameter of the Section.
    - Module [TtlCache]: the contract of spec section 4.2 (a map from key
      to value and write time, fresh iff age <= maximum age) and the
      refinement lemmas relating each store to it. *)

From Stdlib Require Import ZArith String.
From stdpp Require Import base gmap strings list.
From S2P Require Import Prelude JsValue Policy.

Local Open Scope Z_scope.

Record CacheEntry : Type := mkEntry {
  ts : Z;
  val : jsval;
  readCnt : nat;
  writeCnt : nat
}.

Abbreviation Cache := (gmap string CacheEntry).

Definition getCacheKey (body : jsval) : string :=
  (js_to_string (js_prop body "method") ++ json_stringify_tmpl (js_prop body "params"))%string.

(** The answer built on a hit: [{ jsonrpc: "2.0", id: reqId, result: val }]. *)
Definition cacheResponse (reqId v : jsval) : jsval :=
  JObj [("jsonrpc", JStr "2.0"); ("id", reqId); ("result", v)]%string.

(** [{ ...cache.get(key), readCnt: cache.get(key).readCnt + 1 }] *)
Definition bumpRead (e : CacheEntry) : CacheEntry :=
  mkEntry (ts e) (val e) (S (readCnt e)) (writeCnt e).

(** The entry [writeResponseToCache] builds (both versions). *)
Definition newEntry (now : Z) (key : string) (v : jsval) (cache : Cache) : CacheEntry :=
  mkEntry now v
    (if cache !! key is Some e then readCnt e else 0%nat)
    (if cache !! key is Some e then S (writeCnt e) else 1%nat).

Module InMemory.
(** Returns the response to send, or [None] for [undefined]. *)
Definition getResponseFromCache (now : Z) (key : string) (maxAgeMs : maxage) (reqId : jsval)
    (cache : Cache) : option jsval * Cache :=
  match cache !! key with
  | Some e =>
      if is_fresh now (ts e) maxAgeMs
      then (Some (cacheResponse reqId (val e)), <[key := bumpRead e]> cache)
      else (None, cache)
  | None => (None, cache)
  end.

Definition writeResponseToCache (now : Z) (key : string) (v : jsval) (cache : Cache) : Cache :=
  <[key := newEntry now key v cache]> cache.
End InMemory.

(** The sqlite table [data(key TEXT PRIMARY KEY, val TEXT, ts INTEGER)];
    [db_table] says whether [CREATE TABLE] has run (it runs in the
    asynchronous open callback, so early queries may find no table). *)
Record DbRow : Type := mkRow { row_val : option string; row_ts : Z }.
Record Db : Type := mkDb { db_table : bool; db_rows : gmap string DbRow }.

(** The state of the store in part_000: the map and the optional db. *)
Record Store : Type := mkStore { st_cache : Cache; st_db : option Db }.

Module WithDb.
Section WithParse.
(** [JSON.parse] *)
Variable json_parse : string -> res exn jsval.

(** [SELECT val FROM data WHERE key = ?]: the [val] of the row, if any. *)
Definition getFromDb (key : string) (db : Db) : res exn (option (option string)) :=
  if db_table db then ROk (row_val <$> db_rows db !! key)
  else RErr (DbError "SQLITE_ERROR: no such table: data").

(** The [try] block of the database branch, run when the map has no
    entry for [key]. *)
Definition readFromDb (now : Z) (key : string) (maxAgeMs : maxage) (cache : Cache) (db : Db)
    : res exn jsval :=
  match getFromDb key db with
  | RErr e => RErr e
  | ROk None => ROk JUndef
  | ROk (Some rowval) =>
      match cache !! key with
      | None => RErr (TypeError "Cannot read properties of undefined (reading 'ts')")
      | Some e =>
          if is_fresh now (ts e) maxAgeMs
          then json_parse (if rowval is Some s then s else "null")
          else ROk JUndef
      end
  end.

Definition getResponseFromCache (now : Z) (key : string) (maxAgeMs : maxage) (reqId : jsval)
    (s : Store) : option jsval * Store :=
  let '(v, cache') :=
    match st_cache s !! key with
    | Some e =>
        if is_fresh now (ts e) maxAgeMs
        then (val e, <[key := bumpRead e]> (st_cache s))
        else (JUndef, st_cache s)
    | None =>
        match st_db s with
        | Some db =>
            (match readFromDb now key maxAgeMs (st_cache s) db with
             | ROk v => v
             | RErr _ => JUndef
             end, st_cache s)
        | None => (JUndef, st_cache s)
        end
    end in
  (if js_nullish v then None else Some (cacheResponse reqId v), mkStore cache' (st_db s)).
End WithParse.

(** [INSERT OR REPLACE INTO data(key, val, ts) VALUES(?, ?, ?)]; an
    error (no table) is logged and the write is lost. *)
Definition dbInsertOrReplace (key : string) (v : option string) (now : Z) (db : Db) : Db :=
  if db_table db then mkDb true (<[key := mkRow v now]> (db_rows db)) else db.

Definition writeResponseToCache (now : Z) (key : string) (v : jsval) (s : Store) : Store :=
  let newValue := newEntry now key v (st_cache s) in
  match st_db s with
  | Some db => mkStore (st_cache s) (Some (dbInsertOrReplace key (json_stringify (val newValue)) (ts newValue) db))
  | None => mkStore (<[key := newValue]> (st_cache s)) None
  end.
End WithDb.

(** ** The contract of the cache (spec section 4.2) *)

Module TtlCache.
Abbreviation t := (gmap string (jsval * Z)).

Definition get (now : Z) (key : string) (ma : maxage) (m : t) : option jsval :=
  match m !! key with
  | Some (v, w) => if is_fresh now w ma then Some v else None
  | None => None
  end.

Definition put (now : Z) (key : string) (v : jsval) (m : t) : t := <[key := (v, now)]> m.
End TtlCache.

(** What an in-memory store means for the contract: forget the counters. *)
Definition abs_cache (c : Cache) : TtlCache.t := (fun e => (val e, ts e)) <$> c.

(** Two caches are equivalent when they hold the same values written at
    the same times (their counters may differ). *)
Definition cache_equiv (c1 c2 : Cache) : Prop := abs_cache c1 = abs_cache c2.

(** Well-formedness at time [now]: every entry was written at least once,
    not in the future. *)
Definition cache_wf (now : Z) (c : Cache) : Prop :=
  map_Forall (fun _ e => (1 <= writeCnt e)%nat /\ ts e <= now) c.

(** ** Helper lemmas *)

Lemma abs_cache_lookup c k : abs_cache c !! k = (fun e => (val e, ts e)) <$> c !! k.
Proof. unfold abs_cache. by rewrite lookup_fmap. Qed.

Lemma abs_cache_bumpRead c k e :
  c !! k = Some e -> abs_cache (<[k := bumpRead e]> c) = abs_cache c.
Proof.
  intros H. unfold abs_cache. rewrite fmap_insert. apply insert_id.
  rewrite lookup_fmap, H. done.
Qed.

Lemma newEntry_fields now k v c :
  ts (newEntry now k v c) = now /\ val (newEntry now k v c) = v /\ (1 <= writeCnt (newEntry now k v c))%nat.
Proof. unfold newEntry. destruct (c !! k); simpl; (split; [done|split; [done|lia]]). Qed.

#[export] Instance cache_equiv_equiv : Equivalence cache_equiv.
Proof. unfold cache_equiv. split; repeat intro; congruence. Qed.

#[export] Hint Resolve abs_cache_bumpRead : rpc.

(** ** Refinement of the contract by the in-memory store *)

(** A read answers what the contract's [get] returns, wrapped in the
    envelope with the caller's id, and changes nothing but counters. *)
Lemma inmemory_get_abs now k ma reqId c :
  fst (InMemory.getResponseFromCache now k ma reqId c) = cacheResponse reqId <$> TtlCache.get now k ma (abs_cache c) /\
  cache_equiv (snd (InMemory.getResponseFromCache now k ma reqId c)) c.
Proof.
  unfold InMemory.getResponseFromCache, TtlCache.get, cache_equiv. rewrite abs_cache_lookup.
  destruct (c !! k) as [e|] eqn:Hk; simpl; [|done].
  destruct (is_fresh now (ts e) ma); simpl; [|done]. split; [done|]. auto with rpc.
Qed.

(** A write is the contract's [put]. *)
Lemma inmemory_put_abs now k v c :
  abs_cache (InMemory.writeResponseToCache now k v c) = TtlCache.put now k v (abs_cache c).
Proof.
  unfold InMemory.writeResponseToCache, TtlCache.put, abs_cache. rewrite fmap_insert.
  destruct (newEntry_fields now k v c) as (-> & -> & _). done.
Qed.

(** Reads and writes only depend on the contract's view of the cache. *)
#[export] Instance inmemory_get_proper now k ma reqId :
  Proper (cache_equiv ==> eq) (fun c => fst (InMemory.getResponseFromCache now k ma reqId c)).
Proof.
  intros c1 c2 Heq. rewrite !(proj1 (inmemory_get_abs _ _ _ _ _)). by rewrite Heq.
Qed.

#[export] Instance inmemory_put_proper now k v :
  Proper (cache_equiv ==> cache_equiv) (InMemory.writeResponseToCache now k v).
Proof. intros c1 c2 Heq. unfold cache_equiv. by rewrite !inmemory_put_abs, Heq. Qed.

Lemma ttl_get_put now now' k v ma m :
  is_fresh now' now ma = true -> TtlCache.get now' k ma (TtlCache.put now k v m) = Some v.
Proof. intros H. unfold TtlCache.get, TtlCache.put. by rewrite lookup_insert_eq, H. Qed.

Lemma store_eta s : mkStore (st_cache s) (st_db s) = s.
Proof. by destruct s. Qed.

#[export] Hint Rewrite store_eta : rpc_rw.

(** ** Theorems *)

(** C21. Round trip, app.js: a value written and read back while fresh is
    answered, whatever it is ([null] and [undefined] included). *)
Lemma inmemory_roundtrip now now' k v ma reqId c :
  is_fresh now' now ma = true ->
  fst (InMemory.getResponseFromCache now' k ma reqId (InMemory.writeResponseToCache now k v c))
  = Some (cacheResponse reqId v).
Proof.
  intros H. rewrite (proj1 (inmemory_get_abs _ _ _ _ _)), inmemory_put_abs.
  by rewrite ttl_get_put.
Qed.

(** Round trip, part_000 without a database: a value written and read
    back while fresh is answered unless it is [null] or [undefined]. *)
Lemma withdb_memory_roundtrip parse now now' k v ma reqId s :
  st_db s = None -> is_fresh now' now ma = true ->
  fst (WithDb.getResponseFromCache parse now' k ma reqId (WithDb.writeResponseToCache now k v s))
  = if js_nullish v then None else Some (cacheResponse reqId v).
Proof.
  intros Hdb Hfresh. unfold WithDb.writeResponseToCache, WithDb.getResponseFromCache.
  rewrite Hdb. simpl. rewrite lookup_insert_eq.
  destruct (newEntry_fields now k v (st_cache s)) as (-> & -> & _). by rewrite Hfresh.
Qed.

Lemma withdb_db_get_none parse now k ma reqId s db :
  st_db s = Some db -> st_cache s = ∅ -> WithDb.getResponseFromCache parse now k ma reqId s = (None, s).
Proof.
  intros Hdb Hc. unfold WithDb.getResponseFromCache. rewrite Hdb, Hc, lookup_empty.
  unfold WithDb.readFromDb, WithDb.getFromDb. rewrite lookup_empty.
  destruct (db_table db); [destruct (db_rows db !! k)|]; simpl; by rewrite <- Hc, <- Hdb, store_eta.
Qed.

Lemma withdb_db_write_map now k v s db :
  st_db s = Some db ->
  st_cache (WithDb.writeResponseToCache now k v s) = st_cache s /\
  st_db (WithDb.writeResponseToCache now k v s) <> None.
Proof. intros Hdb. unfold WithDb.writeResponseToCache. by rewrite Hdb. Qed.

(** C22. part_000 with a database: the map stays empty (writes go to the
    table), and a read on an empty map never answers, whatever the table
    holds: the database branch reads [cache.get(key).ts] of the missing
    entry, throws, and the [catch] makes it a miss. *)
Lemma withdb_db_never_answers parse now k v ma reqId s db :
  st_db s = Some db -> st_cache s = ∅ ->
  WithDb.getResponseFromCache parse now k ma reqId s = (None, s) /\
  st_cache (WithDb.writeResponseToCache now k v s) = ∅ /\
  st_db (WithDb.writeResponseToCache now k v s) <> None.
Proof.
  intros Hdb Hc. destruct (withdb_db_write_map now k v s db Hdb) as [H1 H2].
  split; [by apply (withdb_db_get_none _ _ _ _ _ _ db)|]. by rewrite H1.
Qed.

(** C24. The well-formedness of the map (written at least once, never in the
    future) holds at every later time and is kept by reads and writes. *)
Lemma inmemory_wf_preserved now now' k v ma reqId c :
  cache_wf now c -> now <= now' ->
  cache_wf now' (snd (InMemory.getResponseFromCache now' k ma reqId c)) /\
  cache_wf now' (InMemory.writeResponseToCache now' k v c).
Proof.
  intros Hwf Hle.
  assert (Hwf' : cache_wf now' c) by (eapply map_Forall_impl; [exact Hwf|]; simpl; intros ?? []; lia).
  split.
  - unfold InMemory.getResponseFromCache. destruct (c !! k) as [e|] eqn:He; [|done].
    destruct (is_fresh _ _ _); [|done]. apply map_Forall_insert_2; [|done].
    apply (Hwf' k e He).
  - apply map_Forall_insert_2; [|done]. destruct (newEntry_fields now' k v c) as (-> & _ & ?). lia.
Qed.

(** ** Counters over a history of operations on one key *)

Inductive cache_op : Type :=
| OpRead (now : Z) (ma : maxage)
| OpWrite (now : Z) (v : jsval).

(** One operation on key [k]; the flag says whether a read was served. *)
Definition cache_step (k : string) (c : Cache) (op : cache_op) : Cache * bool :=
  match op with
  | OpRead now ma =>
      let '(r, c') := InMemory.getResponseFromCache now k ma JNull c in
      (c', if r is Some _ then true else false)
  | OpWrite now v => (InMemory.writeResponseToCache now k v c, false)
  end.

(** The map after a history, and the number of reads served. *)
Fixpoint cache_run (k : string) (c : Cache) (ops : list cache_op) : Cache * nat :=
  match ops with
  | [] => (c, 0%nat)
  | op :: ops' =>
      let '(c1, hit) := cache_step k c op in
      let '(c2, n) := cache_run k c1 ops' in
      (c2, ((if hit then 1 else 0) + n)%nat)
  end.

Definition count_writes (ops : list cache_op) : nat :=
  length (List.filter (fun op => if op is OpWrite _ _ then true else false) ops).

Definition wcnt (o : option CacheEntry) : nat := if o is Some e then writeCnt e else 0.
Definition rcnt (o : option CacheEntry) : nat := if o is Some e then readCnt e else 0.

Lemma cache_step_counts k c op :
  wcnt (fst (cache_step k c op) !! k) = (wcnt (c !! k) + if op is OpWrite _ _ then 1 else 0)%nat /\
  rcnt (fst (cache_step k c op) !! k) = (rcnt (c !! k) + if snd (cache_step k c op) then 1 else 0)%nat.
Proof.
  destruct op as [now ma|now v]; simpl.
  - unfold InMemory.getResponseFromCache. destruct (c !! k) as [e|] eqn:He.
    + destruct (is_fresh _ _ _); simpl; rewrite ?lookup_insert_eq, ?He; simpl; split; lia.
    + simpl. rewrite He. simpl. split; lia.
  - unfold InMemory.writeResponseToCache. rewrite lookup_insert_eq. unfold newEntry.
    destruct (c !! k); simpl; split; lia.
Qed.

(** C23. The counters of an entry count exactly the writes of the history
    and the reads that were served from it. *)
Lemma cache_counters_track_history k c ops :
  wcnt (fst (cache_run k c ops) !! k) = (wcnt (c !! k) + count_writes ops)%nat /\
  rcnt (fst (cache_run k c ops) !! k) = (rcnt (c !! k) + snd (cache_run k c ops))%nat.
Proof.
  unfold count_writes. revert c. induction ops as [|op ops IH]; intros c; simpl; [split; lia|].
  pose proof (cache_step_counts k c op) as [Hw Hr].
  destruct (cache_step k c op) as [c1 hit]. specialize (IH c1).
  destruct (cache_run k c1 ops) as [c2 n]. simpl in *.
  destruct op; simpl in *; split; lia.
Qed.

(** ** Runs of part_000's read used by the handler's proofs *)

Lemma withdb_get_hit parse now k ma reqId s e :
  st_cache s !! k = Some e -> is_fresh now (ts e) ma = true -> js_nullish (val e) = false ->
  WithDb.getResponseFromCache parse now k ma reqId s
  = (Some (cacheResponse reqId (val e)), mkStore (<[k := bumpRead e]> (st_cache s)) (st_db s)).
Proof. intros He Hf Hn. unfold WithDb.getResponseFromCache. rewrite He, Hf. cbn -[js_nullish]. by rewrite Hn. Qed.

Lemma withdb_get_memory_miss parse now k ma reqId s :
  st_db s = None -> st_cache s !! k = None ->
  WithDb.getResponseFromCache parse now k ma reqId s = (None, s).
Proof. intros Hdb He. unfold WithDb.getResponseFromCache. rewrite He, Hdb. simpl. destruct s; simpl in *; by subst. Qed.

Lemma withdb_get_stale parse now k ma reqId s e :
  st_cache s !! k = Some e -> is_fresh now (ts e) ma = false ->
  WithDb.getResponseFromCache parse now k ma reqId s = (None, s).
Proof. intros He Hf. unfold WithDb.getResponseFromCache. rewrite He, Hf. simpl. by destruct s. Qed.

(** A maximum age that no entry meets (NaN, -Infinity) makes every
    read a miss that changes nothing, in memory and in database mode. *)
Lemma withdb_get_never_fresh parse now k ma reqId s :
  (forall now ts, is_fresh now ts ma = false) -> WithDb.getResponseFromCache parse now k ma reqId s = (None, s).
Proof.
  intros Hma. destruct (st_cache s !! k) as [e|] eqn:He; [by apply (withdb_get_stale _ _ _ _ _ _ e)|].
  destruct (st_db s) as [db|] eqn:Hdb; [|by apply withdb_get_memory_miss].
  unfold WithDb.getResponseFromCache. rewrite He, Hdb. unfold WithDb.readFromDb, WithDb.getFromDb. rewrite He.
  destruct (db_table db); [destruct (db_rows db !! k)|]; simpl; by rewrite <- Hdb, store_eta.
Qed.

(** ** Refinement over histories *)

(** The contract's run over a history of operations on key [k], with the
    answers of the reads. *)
Definition ttl_step (k : string) (m : TtlCache.t) (op : cache_op) : TtlCache.t * option jsval :=
  match op with
  | OpRead now ma => (m, TtlCache.get now k ma m)
  | OpWrite now v => (TtlCache.put now k v m, None)
  end.

Fixpoint ttl_run (k : string) (m : TtlCache.t) (ops : list cache_op) : TtlCache.t * list (option jsval) :=
  match ops with
  | [] => (m, [])
  | op :: ops' =>
      let '(m1, a) := ttl_step k m op in
      let '(m2, l) := ttl_run k m1 ops' in (m2, a :: l)
  end.

(** The same history on app.js's store, reads made for request id [reqId]. *)
Definition inmemory_step (k : string) (reqId : jsval) (c : Cache) (op : cache_op) : Cache * option jsval :=
  match op with
  | OpRead now ma => let '(r, c') := InMemory.getResponseFromCache now k ma reqId c in (c', r)
  | OpWrite now v => (InMemory.writeResponseToCache now k v c, None)
  end.

Fixpoint inmemory_run (k : string) (reqId : jsval) (c : Cache) (ops : list cache_op)
    : Cache * list (option jsval) :=
  match ops with
  | [] => (c, [])
  | op :: ops' =>
      let '(c1, a) := inmemory_step k reqId c op in
      let '(c2, l) := inmemory_run k reqId c1 ops' in (c2, a :: l)
  end.

Lemma inmemory_step_abs k reqId c op :
  abs_cache (fst (inmemory_step k reqId c op)) = fst (ttl_step k (abs_cache c) op) /\
  snd (inmemory_step k reqId c op) = cacheResponse reqId <$> snd (ttl_step k (abs_cache c) op).
Proof.
  destruct op as [now ma|now v]; simpl.
  - pose proof (inmemory_get_abs now k ma reqId c) as [H1 H2].
    destruct (InMemory.getResponseFromCache now k ma reqId c) as [r c']. simpl in *. done.
  - by rewrite inmemory_put_abs.
Qed.

(** C19. Simulation: along any history of reads and writes, app.js's store and
    the TTL contract hold the same values and answer the same reads. *)
Lemma inmemory_refines_ttl_history k reqId c ops :
  abs_cache (fst (inmemory_run k reqId c ops)) = fst (ttl_run k (abs_cache c) ops) /\
  snd (inmemory_run k reqId c ops) = List.map (fun a => cacheResponse reqId <$> a) (snd (ttl_run k (abs_cache c) ops)).
Proof.
  revert c. induction ops as [|op ops IH]; intros c; simpl; [done|].
  pose proof (inmemory_step_abs k reqId c op) as [H1 H2].
  destruct (inmemory_step k reqId c op) as [c1 a]. destruct (ttl_step k (abs_cache c) op) as [m1 a'].
  simpl in *. subst. specialize (IH c1).
  destruct (inmemory_run k reqId c1 ops), (ttl_run k (abs_cache c1) ops). simpl in *. destruct IH. by subst.
Qed.

(** ** The two versions without a database *)

(** C20. part_000 without a database is app.js's store, except that an answer
    whose value is [null] or [undefined] is dropped. *)
Lemma withdb_memory_refines_inmemory parse now k ma reqId v s :
  st_db s = None ->
  fst (WithDb.getResponseFromCache parse now k ma reqId s)
  = (fst (InMemory.getResponseFromCache now k ma reqId (st_cache s))
       ≫= fun r => if js_nullish (js_prop r "result") then None else Some r) /\
  snd (WithDb.getResponseFromCache parse now k ma reqId s)
  = mkStore (snd (InMemory.getResponseFromCache now k ma reqId (st_cache s))) None /\
  WithDb.writeResponseToCache now k v s = mkStore (InMemory.writeResponseToCache now k v (st_cache s)) None.
Proof.
  intros Hdb. unfold WithDb.getResponseFromCache, InMemory.getResponseFromCache,
    WithDb.writeResponseToCache, InMemory.writeResponseToCache.
  rewrite Hdb. destruct (st_cache s !! k) as [e|]; [|done].
  destruct (is_fresh now (ts e) ma); simpl; [|done].
  by destruct (js_nullish (val e)).
Qed.

(** ** Witnesses *)

Definition sampleStore : Store := mkStore {["k" := mkEntry 5 (JStr "0x1") 0 1]} None.

Lemma withdb_memory_refines_inmemory_witness :
  st_db sampleStore = None /\
  fst (WithDb.getResponseFromCache (fun _ => ROk JNull) 6 "k" (Finite 10) (JNum 1) sampleStore)
  = (fst (InMemory.getResponseFromCache 6 "k" (Finite 10) (JNum 1) (st_cache sampleStore))
       ≫= fun r => if js_nullish (js_prop r "result") then None else Some r) /\
  snd (WithDb.getResponseFromCache (fun _ => ROk JNull) 6 "k" (Finite 10) (JNum 1) sampleStore)
  = mkStore (snd (InMemory.getResponseFromCache 6 "k" (Finite 10) (JNum 1) (st_cache sampleStore))) None /\
  WithDb.writeResponseToCache 6 "k" JNull sampleStore
  = mkStore (InMemory.writeResponseToCache 6 "k" JNull (st_cache sampleStore)) None.
Proof.
  assert (H : st_db sampleStore = None) by reflexivity.
  split; [exact H|]. exact (withdb_memory_refines_inmemory (fun _ => ROk JNull) 6 "k" (Finite 10) (JNum 1) JNull _ H).
Defined.

Lemma withdb_memory_roundtrip_witness :
  (st_db sampleStore = None /\ is_fresh 9 6 (Finite 10) = true) /\
  fst (WithDb.getResponseFromCache (fun _ => ROk JNull) 9 "k" (Finite 10) (JNum 1)
         (WithDb.writeResponseToCache 6 "k" JNull sampleStore))
  = if js_nullish JNull then None else Some (cacheResponse (JNum 1) JNull).
Proof.
  assert (H1 : st_db sampleStore = None) by reflexivity.
  assert (H2 : is_fresh 9 6 (Finite 10) = true) by reflexivity.
  split; [split; assumption|].
  exact (withdb_memory_roundtrip (fun _ => ROk JNull) 6 9 "k" JNull (Finite 10) (JNum 1) _ H1 H2).
Defined.

Lemma inmemory_roundtrip_witness :
  is_fresh 1000000 6 Infinity = true /\
  fst (InMemory.getResponseFromCache 1000000 "k" Infinity (JNum 1)
         (InMemory.writeResponseToCache 6 "k" JNull (st_cache sampleStore)))
  = Some (cacheResponse (JNum 1) JNull).
Proof.
  assert (H : is_fresh 1000000 6 Infinity = true) by reflexivity.
  split; [exact H|]. exact (inmemory_roundtrip 6 1000000 "k" JNull Infinity (JNum 1) _ H).
Defined.

Lemma withdb_db_never_answers_witness :
  let s := mkStore ∅ (Some (mkDb true {["k" := mkRow (Some "1") 5]})) in
  (st_db s = Some (mkDb true {["k" := mkRow (Some "1") 5]}) /\ st_cache s = ∅) /\
  WithDb.getResponseFromCache (fun _ => ROk JNull) 6 "k" Infinity (JNum 1) s = (None, s) /\
  st_cache (WithDb.writeResponseToCache 6 "k" (JNum 2) s) = ∅ /\
  st_db (WithDb.writeResponseToCache 6 "k" (JNum 2) s) <> None.
Proof.
  intros s.
  assert (H1 : st_db s = Some (mkDb true {["k" := mkRow (Some "1") 5]})) by reflexivity.
  assert (H2 : st_cache s = ∅) by reflexivity.
  split; [split; assumption|].
  exact (withdb_db_never_answers (fun _ => ROk JNull) 6 "k" (JNum 2) Infinity (JNum 1) s _ H1 H2).
Defined.

Lemma inmemory_wf_preserved_witness :
  (cache_wf 5 (st_cache sampleStore) /\ 5 <= 8) /\
  cache_wf 8 (snd (InMemory.getResponseFromCache 8 "k" (Finite 10) (JNum 1) (st_cache sampleStore))) /\
  cache_wf 8 (InMemory.writeResponseToCache 8 "k" JNull (st_cache sampleStore)).
Proof.
  assert (H1 : cache_wf 5 (st_cache sampleStore)).
  { unfold cache_wf. apply map_Forall_singleton. simpl. lia. }
  assert (H2 : 5 <= 8) by lia.
  split; [split; assumption|].
  exact (inmemory_wf_preserved 5 8 "k" JNull (Finite 10) (JNum 1) _ H1 H2).
Defined.
