(* ===== verification/DuplicateDetector.v ===== *)
(** * The duplicate detector

    A [Map] from cache key to the time of the last request with that key
    ([duplicateDetector], [src/app.js] lines 114-118 and 136-145,
    [src/unnamed/part_000] lines 155-159 and 177-186).  A request whose
    key was seen less than 1000 ms before sleeps
    500 + floor(Math.random() * 1000) ms; then, whether it slept or not,
    the time is recorded for the key.  The time recorded is read after
    the sleep, so a delayed request records the end of its delay.

    [throttle] is the statement sequence of the handler, over the map and
    the Node environment; the coordinator runs it on its globals. *)

From Stdlib Require Import ZArith String.
From stdpp Require Import base gmap strings list.
From S2P Require Import Prelude JsValue Runtime.

Local Open Scope Z_scope.
Local Open Scope st_scope.

Abbreviation DupMap := (gmap string Z).

Definition DUPLICATE_DELAY_TRIGGER_THRESHOLD_MS : Z := 1000.
Definition DUPLICATE_MIN_DELAY_MS : Z := 500.
Definition DUPLICATE_RANDOM_MAX_EXTRA_DELAY_MS : Z := 1000.

(** [duplicateDetector.has(key) && Date.now() - prevCallTs < THRESHOLD] *)
Definition isDuplicate (now : Z) (key : string) (dd : DupMap) : bool :=
  match dd !! key with
  | Some prevCallTs => Z.ltb (now - prevCallTs) DUPLICATE_DELAY_TRIGGER_THRESHOLD_MS
  | None => false
  end.

(** [DUPLICATE_MIN_DELAY_MS + Math.floor(Math.random() * MAX_EXTRA)],
    for the draw u / 2^53 of [Math.random()]. *)
Definition duplicateDelay (u : Z) : Z :=
  DUPLICATE_MIN_DELAY_MS + random_floor u DUPLICATE_RANDOM_MAX_EXTRA_DELAY_MS.

(** Lines 177-186 of part_000 (136-145 of app.js). *)
Definition throttle (key : string) : ST (DupMap * Env) exn unit :=
  now <- st_gets (fun s => env_now (snd s)) ;;
  dd <- st_gets fst ;;
  (if isDuplicate now key dd
   then u <- st_zoom snd (fun e s => (fst s, e)) math_random ;;
        st_zoom snd (fun e s => (fst s, e)) (sleep (duplicateDelay u))
   else st_ret tt) ;;
  now' <- st_gets (fun s => env_now (snd s)) ;;
  st_modify (fun s => (<[key := now']> (fst s), snd s)).

(** The values of [Math.random()] are in [0, 1). *)
Definition random_ok (e : Env) : Prop := forall i, 0 <= env_random e i < 2 ^ 53.

(** The environment after [throttle]: slept if the request is a duplicate. *)
Definition throttle_env (key : string) (dd : DupMap) (e : Env) : Env :=
  if isDuplicate (env_now e) key dd
  then env_sleep (duplicateDelay (env_random e (env_draws e))) (env_draw e)
  else e.

Lemma throttle_exec key dd e :
  throttle key (dd, e) = (ROk tt, (<[key := env_now (throttle_env key dd e)]> dd, throttle_env key dd e)).
Proof.
  unfold throttle, throttle_env. st_simpl. cbn [fst snd].
  destruct (isDuplicate (env_now e) key dd); reflexivity.
Qed.

Lemma throttle_env_frame key dd e :
  env_posts (throttle_env key dd e) = env_posts e /\ env_net (throttle_env key dd e) = env_net e /\
  env_random (throttle_env key dd e) = env_random e /\ env_now e <= env_now (throttle_env key dd e).
Proof.
  unfold throttle_env. destruct (isDuplicate _ _ _); [|split_and!; done || lia].
  pose proof (timer_delay_pos (duplicateDelay (env_random e (env_draws e)))).
  unfold env_sleep, env_draw; simpl. split_and!; done || lia.
Qed.

(** ** Theorems *)

(** The delay is in [500, 1500) ms, well inside Node's timer range. *)
Lemma duplicateDelay_range u :
  0 <= u < 2 ^ 53 -> DUPLICATE_MIN_DELAY_MS <= duplicateDelay u < DUPLICATE_MIN_DELAY_MS + DUPLICATE_RANDOM_MAX_EXTRA_DELAY_MS.
Proof.
  intros Hu. pose proof (random_floor_range u 1000 Hu ltac:(lia)).
  unfold duplicateDelay, DUPLICATE_MIN_DELAY_MS, DUPLICATE_RANDOM_MAX_EXTRA_DELAY_MS. lia.
Qed.

Lemma duplicateDelay_not_clamped u :
  0 <= u < 2 ^ 53 -> timer_delay (duplicateDelay u) = duplicateDelay u.
Proof.
  intros Hu. apply timer_delay_in_range. pose proof (duplicateDelay_range u Hu).
  unfold DUPLICATE_MIN_DELAY_MS, DUPLICATE_RANDOM_MAX_EXTRA_DELAY_MS, TIMEOUT_MAX in *. lia.
Qed.

(** C25. The run of [throttle]: a duplicate sleeps a delay in [500, 1500) and
    records the time at the end of its delay (not the arrival time the
    spec describes); any other request records its arrival time without
    sleeping. *)
Lemma throttle_run key dd e :
  random_ok e ->
  exists d, throttle key (dd, e) = (ROk tt, (<[key := env_now e + d]> dd,
     if isDuplicate (env_now e) key dd then env_sleep d (env_draw e) else e)) /\
   (if isDuplicate (env_now e) key dd
    then 500 <= d < 1500 /\ d = duplicateDelay (env_random e (env_draws e))
    else d = 0).
Proof.
  intros Hr. unfold throttle. st_simpl. cbn [fst snd].
  destruct (isDuplicate (env_now e) key dd) eqn:Hdup; st_simpl.
  - exists (duplicateDelay (env_random e (env_draws e))).
    pose proof (duplicateDelay_range _ (Hr (env_draws e))) as Hd.
    unfold math_random, sleep. st_simpl. cbn [fst snd].
    unfold DUPLICATE_MIN_DELAY_MS, DUPLICATE_RANDOM_MAX_EXTRA_DELAY_MS in Hd. split; [|split; [lia|done]].
    unfold env_sleep at 1; cbn [env_now env_draw].
    rewrite duplicateDelay_not_clamped by apply Hr. done.
  - exists 0. rewrite Z.add_0_r. split; done.
Qed.

(** ** Witnesses *)

Definition sampleEnvDD : Env :=
  {| env_now := 1200; env_timers := []; env_random := fun _ => 2 ^ 52; env_draws := 0;
     env_net := fun _ => (0%nat, RErr (TypeError "offline")); env_posts := [] |}.

Lemma throttle_run_witness :
  random_ok sampleEnvDD /\
  exists d, throttle "k" ({["k" := 1000]}, sampleEnvDD)
            = (ROk tt, (<["k" := env_now sampleEnvDD + d]> {["k" := 1000]},
                 if isDuplicate (env_now sampleEnvDD) "k" {["k" := 1000]}
                 then env_sleep d (env_draw sampleEnvDD) else sampleEnvDD)) /\
   (if isDuplicate (env_now sampleEnvDD) "k" {["k" := 1000]}
    then 500 <= d < 1500 /\ d = duplicateDelay (env_random sampleEnvDD (env_draws sampleEnvDD))
    else d = 0).
Proof.
  assert (H : random_ok sampleEnvDD) by (intros i; simpl; lia).
  split; [exact H|]. exact (throttle_run "k" {["k" := 1000]} sampleEnvDD H).
Defined.

