(* ===== verification/Coordinator.v ===== *)
(** * The request coordinator: the [app.post("/", ...)] handler

    The handler of each version is one [ST] computation over a [World]:
    the program's globals (the cache store, the duplicate detector's map
    and the three counters [httpReqCnt], [httpUpstreamResCnt],
    [httpCacheResCnt]), the Node environment of [Runtime] (clock, timers,
    random draws, upstream oracle and log) and the replies sent so far,
    each tagged with the request it answers.  A request is handled to
    completion before the next one starts (the interleaving of requests
    at their [await]s is modelled in [EventLoop], which agrees with this
    file on a request served alone).

    [res.send] on a request already answered throws, as Express does
    ([ERR_HTTP_HEADERS_SENT]); in the handler this happens when the
    cache-write code throws after the upstream body was sent and the
    [catch] block tries to send the 500.

    Both handlers implement two contracts, stated as classes: one reply
    per request ([AnswersOnce], used by [serve]) and counters that match
    the replies ([CountsReplies], used by [Server]).

    - Module [HandlerAppJs]: [src/app.js] lines 130-174.
    - Module [HandlerPart000]: [src/unnamed/part_000] lines 171-218,
      parameterized by [JSON.parse]. *)

From Stdlib Require Import ZArith String.
From stdpp Require Import base gmap strings list.
From S2P Require Import Prelude JsValue Runtime Policy Upstream CacheStore DuplicateDetector.

Local Open Scope Z_scope.
Local Open Scope st_scope.

Record Reply : Type := mkReply { reply_status : Z; reply_body : jsval }.

Record Globals : Type := mkGlobals {
  g_store : Store;
  g_dd : DupMap;
  httpReqCnt : nat;
  httpUpstreamResCnt : nat;
  httpCacheResCnt : nat
}.

Record World : Type := mkWorld {
  w_glob : Globals;
  w_env : Env;
  w_out : list (nat * Reply)
}.

(** The globals at start-up ([db] is the opened database, if any). *)
Definition initGlobals (db : option Db) : Globals := mkGlobals (mkStore ∅ db) ∅ 0 0 0.

(** ** Access to the parts of the world *)

Definition set_env (e : Env) (w : World) : World := mkWorld (w_glob w) e (w_out w).

Definition on_env {A} (m : ST Env exn A) : ST World exn A := st_zoom w_env set_env m.

Definition on_dd {A} (m : ST (DupMap * Env) exn A) : ST World exn A :=
  st_zoom (fun w => (g_dd (w_glob w), w_env w))
    (fun p w => let g := w_glob w in
       mkWorld (mkGlobals (g_store g) (fst p) (httpReqCnt g) (httpUpstreamResCnt g) (httpCacheResCnt g))
               (snd p) (w_out w)) m.

(** A synchronous operation on the store. *)
Definition with_store {A} (f : Store -> A * Store) : ST World exn A :=
  fun w => let g := w_glob w in
    let '(a, s') := f (g_store g) in
    (ROk a, mkWorld (mkGlobals s' (g_dd g) (httpReqCnt g) (httpUpstreamResCnt g) (httpCacheResCnt g))
                    (w_env w) (w_out w)).

(** The same on the in-memory map only (app.js has no database). *)
Definition with_cache {A} (f : Cache -> A * Cache) : ST World exn A :=
  with_store (fun s => let '(a, c) := f (st_cache s) in (a, mkStore c (st_db s))).

Definition incr_req : ST World exn unit :=
  st_modify (fun w => let g := w_glob w in
    mkWorld (mkGlobals (g_store g) (g_dd g) (S (httpReqCnt g)) (httpUpstreamResCnt g) (httpCacheResCnt g))
            (w_env w) (w_out w)).

Definition incr_upstream : ST World exn unit :=
  st_modify (fun w => let g := w_glob w in
    mkWorld (mkGlobals (g_store g) (g_dd g) (httpReqCnt g) (S (httpUpstreamResCnt g)) (httpCacheResCnt g))
            (w_env w) (w_out w)).

Definition incr_cached : ST World exn unit :=
  st_modify (fun w => let g := w_glob w in
    mkWorld (mkGlobals (g_store g) (g_dd g) (httpReqCnt g) (httpUpstreamResCnt g) (S (httpCacheResCnt g)))
            (w_env w) (w_out w)).

Definition lift_res {A} (r : res exn A) : ST World exn A := fun w => (r, w).

(** [res.status(status).send(body)] for request [rid]. *)
Definition res_send (rid : nat) (status : Z) (body : jsval) : ST World exn unit :=
  fun w =>
    if existsb (fun p => Nat.eqb (fst p) rid) (w_out w)
    then (RErr HeadersSentError, w)
    else (ROk tt, mkWorld (w_glob w) (w_env w) (w_out w ++ [(rid, mkReply status body)])).

(** ** The handlers *)

Module HandlerAppJs.
(** The [else] block: forward, answer, and cache some methods. *)
Definition forwardToUpstream (cfg : Config) (rid : nat) (body : jsval) (cacheKey : string)
    : ST World exn unit :=
  st_catch
    (rpcRes <- on_env (upstreamHttpRequest (RPC cfg) body DEFAULT_RETRIES DEFAULT_INITIAL_TIMEOUT_MS) ;;
     incr_upstream ;;
     res_send rid 200 rpcRes ;;
     cache <- lift_res (Policy.AppJs.shouldCache body) ;;
     if cache
     then result <- lift_res (js_get rpcRes "result") ;;
          now' <- on_env date_now ;;
          with_cache (fun c => (tt, InMemory.writeResponseToCache now' cacheKey result c))
     else st_ret tt)
    (fun err => res_send rid 500 (exn_body err)).

Definition handlePost (cfg : Config) (rid : nat) (body : jsval) : ST World exn unit :=
  let cacheKey := getCacheKey body in
  on_dd (throttle cacheKey) ;;
  let cacheMaxAgeMs := Policy.AppJs.cacheMaxAgeMs cfg (js_prop body "method") in
  now <- on_env date_now ;;
  cachedResponse <- with_cache
    (InMemory.getResponseFromCache now cacheKey cacheMaxAgeMs (js_prop body "id")) ;;
  (match cachedResponse with
   | Some r => res_send rid 200 r ;; incr_cached
   | None => forwardToUpstream cfg rid body cacheKey
   end) ;;
  incr_req.
End HandlerAppJs.

Module HandlerPart000.
(** The [else] block: forward, answer, and cache some calls. *)
Definition forwardToUpstream (cfg : Config) (rid : nat) (body : jsval) (cacheKey : string)
    : ST World exn unit :=
  st_catch
    (rpcRes <- on_env (upstreamHttpRequest (RPC cfg) body DEFAULT_RETRIES DEFAULT_INITIAL_TIMEOUT_MS) ;;
     incr_upstream ;;
     res_send rid 200 rpcRes ;;
     cache <- lift_res (Policy.Part000.shouldCache body) ;;
     if cache
     then result <- lift_res (js_get rpcRes "result") ;;
          now' <- on_env date_now ;;
          with_store (fun s => (tt, WithDb.writeResponseToCache now' cacheKey result s))
     else st_ret tt)
    (fun err => res_send rid 500 (exn_body err)).

Section WithParse.
Variable json_parse : string -> res exn jsval.

Definition handlePost (cfg : Config) (rid : nat) (body : jsval) : ST World exn unit :=
  let cacheKey := getCacheKey body in
  on_dd (throttle cacheKey) ;;
  let cacheMaxAgeMs := Policy.Part000.cacheMaxAgeMs cfg (js_prop body "method") in
  now <- on_env date_now ;;
  cachedResponse <- with_store
    (WithDb.getResponseFromCache json_parse now cacheKey cacheMaxAgeMs (js_prop body "id")) ;;
  (match cachedResponse with
   | Some r => res_send rid 200 r ;; incr_cached
   | None => forwardToUpstream cfg rid body cacheKey
   end) ;;
  incr_req.
End WithParse.
End HandlerPart000.

(** ** Serving a sequence of requests *)

(** Requests [(t, rid, body)] arrive at time [t] and are handled one
    after the other; an uncaught throw ends that request only (as on
    Node before 15; [EventLoop] also models the process ending). *)
Definition arrive (t : Z) (w : World) : World :=
  let e := w_env w in
  set_env {| env_now := Z.max (env_now e) t; env_timers := env_timers e;
             env_random := env_random e; env_draws := env_draws e;
             env_net := env_net e; env_posts := env_posts e |} w.

Fixpoint serve (handler : nat -> jsval -> ST World exn unit) (w : World)
    (reqs : list (Z * nat * jsval)) : World :=
  match reqs with
  | [] => w
  | (t, rid, body) :: reqs' => serve handler (snd (handler rid body (arrive t w))) reqs'
  end.

(** ** Running the stages of a handler *)

(** Request [rid] has not been answered yet. *)
Definition fresh_rid (rid : nat) (w : World) : bool :=
  negb (existsb (fun p => Nat.eqb (fst p) rid) (w_out w)).

(** The world after the duplicate-detector stage. *)
Definition throttled (key : string) (w : World) : World :=
  let g := w_glob w in
  let e1 := throttle_env key (g_dd g) (w_env w) in
  mkWorld (mkGlobals (g_store g) (<[key := env_now e1]> (g_dd g)) (httpReqCnt g) (httpUpstreamResCnt g)
             (httpCacheResCnt g)) e1 (w_out w).

Lemma throttled_frame key w :
  g_store (w_glob (throttled key w)) = g_store (w_glob w) /\ w_out (throttled key w) = w_out w /\
  httpReqCnt (w_glob (throttled key w)) = httpReqCnt (w_glob w) /\
  httpUpstreamResCnt (w_glob (throttled key w)) = httpUpstreamResCnt (w_glob w) /\
  httpCacheResCnt (w_glob (throttled key w)) = httpCacheResCnt (w_glob w).
Proof. done. Qed.

Lemma on_dd_throttle key w : on_dd (throttle key) w = (ROk tt, throttled key w).
Proof. unfold on_dd, st_zoom. simpl. by rewrite throttle_exec. Qed.

Lemma res_send_fresh rid status body w :
  fresh_rid rid w = true ->
  res_send rid status body w = (ROk tt, mkWorld (w_glob w) (w_env w) (w_out w ++ [(rid, mkReply status body)])).
Proof. unfold fresh_rid, res_send. by destruct (existsb _ _). Qed.

Lemma res_send_answered rid status body w :
  fresh_rid rid w = false -> res_send rid status body w = (RErr HeadersSentError, w).
Proof. unfold fresh_rid, res_send. by destruct (existsb _ _). Qed.

(** After a reply to [rid], [rid] is no longer fresh. *)
Lemma fresh_rid_after_send rid r w g e :
  fresh_rid rid (mkWorld g e (w_out w ++ [(rid, r)])) = false.
Proof.
  unfold fresh_rid. simpl. rewrite existsb_app. simpl. rewrite Nat.eqb_refl.
  by rewrite orb_true_r.
Qed.

Definition set_store (s' : Store) (w : World) : World :=
  let g := w_glob w in
  mkWorld (mkGlobals s' (g_dd g) (httpReqCnt g) (httpUpstreamResCnt g) (httpCacheResCnt g)) (w_env w) (w_out w).

Lemma on_env_run {A} (m : ST Env exn A) w a e' :
  m (w_env w) = (ROk a, e') -> on_env m w = (ROk a, set_env e' w).
Proof. intros H. unfold on_env, st_zoom. by rewrite H. Qed.

Lemma on_env_err {A} (m : ST Env exn A) w err e' :
  m (w_env w) = (RErr err, e') -> on_env m w = (RErr err, set_env e' w).
Proof. intros H. unfold on_env, st_zoom. by rewrite H. Qed.

Lemma date_now_run w : on_env date_now w = (ROk (env_now (w_env w)), w).
Proof. by destruct w. Qed.

Lemma with_store_run {A} (f : Store -> A * Store) w a s' :
  f (g_store (w_glob w)) = (a, s') -> with_store f w = (ROk a, set_store s' w).
Proof. intros H. unfold with_store. by rewrite H. Qed.

Lemma with_cache_run {A} (f : Cache -> A * Cache) w a c' :
  f (st_cache (g_store (w_glob w))) = (a, c') ->
  with_cache f w = (ROk a, set_store (mkStore c' (st_db (g_store (w_glob w)))) w).
Proof. intros H. unfold with_cache, with_store. by rewrite H. Qed.

#[export] Hint Rewrite on_dd_throttle : rpc_rw.

(** ** Theorems *)

(** C1. part_000, hit path: for a method treated as immutable, a cached value
    that is neither [null] nor [undefined] is answered whatever its age,
    in an envelope carrying the request's own id; nothing is posted
    upstream; the hit and request counters grow by one. *)
Lemma part000_immutable_hit parse cfg rid body w e :
  js_includes Part000.IMMUTABLE_METHODS (js_prop body "method") = true ->
  st_cache (g_store (w_glob w)) !! getCacheKey body = Some e ->
  js_nullish (val e) = false ->
  fresh_rid rid w = true ->
  let '(r, w') := HandlerPart000.handlePost parse cfg rid body w in
  r = ROk tt /\
  w_out w' = w_out w ++ [(rid, mkReply 200 (cacheResponse (js_prop body "id") (val e)))] /\
  env_posts (w_env w') = env_posts (w_env w) /\
  httpCacheResCnt (w_glob w') = S (httpCacheResCnt (w_glob w)) /\
  httpReqCnt (w_glob w') = S (httpReqCnt (w_glob w)) /\
  httpUpstreamResCnt (w_glob w') = httpUpstreamResCnt (w_glob w).
Proof.
  intros Himm He Hval Hfresh. unfold HandlerPart000.handlePost, Policy.Part000.cacheMaxAgeMs.
  rewrite Himm. unfold st_bind.
  rewrite on_dd_throttle. cbv beta iota. rewrite date_now_run. cbv beta iota.
  erewrite with_store_run; [|apply withdb_get_hit; [exact He|apply is_fresh_infinity|exact Hval]].
  cbv beta iota. rewrite res_send_fresh; [|exact Hfresh]. cbn.
  pose proof (throttle_env_frame (getCacheKey body) (g_dd (w_glob w)) (w_env w)) as (Hp & _).
  by split_and!.
Qed.

Lemma throttled_env_frame key w :
  env_posts (w_env (throttled key w)) = env_posts (w_env w) /\
  env_net (w_env (throttled key w)) = env_net (w_env w) /\
  env_now (w_env w) <= env_now (w_env (throttled key w)).
Proof.
  unfold throttled. simpl. pose proof (throttle_env_frame key (g_dd (w_glob w)) (w_env w)) as (? & ? & ? & ?).
  by split_and!.
Qed.

(** C2. part_000, miss path without a database, when the first post
    succeeds with the data [d]: [d] is sent verbatim (with the upstream's
    own [id]), one post is made, the upstream and request counters grow
    by one, and the key is cached with [d.result] exactly when the
    method's write condition holds. *)
Lemma part000_miss_forward parse cfg rid body w d b :
  st_db (g_store (w_glob w)) = None ->
  st_cache (g_store (w_glob w)) !! getCacheKey body = None ->
  fresh_rid rid w = true ->
  snd (env_net (w_env w) (length (env_posts (w_env w)))) = ROk d ->
  d <> JUndef -> d <> JNull ->
  Part000.shouldCache body = ROk b ->
  let '(r, w') := HandlerPart000.handlePost parse cfg rid body w in
  r = ROk tt /\
  w_out w' = w_out w ++ [(rid, mkReply 200 d)] /\
  env_posts (w_env w') = env_posts (w_env w) ++ [body] /\
  httpUpstreamResCnt (w_glob w') = S (httpUpstreamResCnt (w_glob w)) /\
  httpReqCnt (w_glob w') = S (httpReqCnt (w_glob w)) /\
  httpCacheResCnt (w_glob w') = httpCacheResCnt (w_glob w) /\
  st_cache (g_store (w_glob w')) !! getCacheKey body
  = if b then Some (mkEntry (env_now (w_env w')) (js_prop d "result") 0 1) else None.
Proof.
  intros Hdb He Hfresh Hnet Hu Hn Hsc.
  destruct (throttled_env_frame (getCacheKey body) w) as (Hp & Hnt & _).
  destruct (throttle_env_frame (getCacheKey body) (g_dd (w_glob w)) (w_env w)) as (Hp' & _).
  unfold HandlerPart000.handlePost, HandlerPart000.forwardToUpstream. unfold st_bind, st_catch.
  rewrite on_dd_throttle. cbv beta iota. rewrite date_now_run. cbv beta iota.
  erewrite with_store_run; [|apply withdb_get_memory_miss; [exact Hdb|exact He]].
  cbv beta iota.
  erewrite on_env_run; [|apply upstream_ok_step; cbn [set_store w_env]; rewrite Hp, Hnt; exact Hnet].
  cbv beta iota. cbn [incr_upstream st_modify]. cbv beta iota.
  rewrite res_send_fresh; [|exact Hfresh]. cbv beta iota.
  unfold lift_res. rewrite Hsc. cbv beta iota.
  destruct b.
  - rewrite js_get_defined by done. cbv beta iota. rewrite date_now_run. cbv beta iota.
    erewrite with_store_run; [|reflexivity]. cbn.
    unfold WithDb.writeResponseToCache. rewrite Hdb. cbn [st_cache].
    rewrite lookup_insert_eq. unfold newEntry. rewrite He. rewrite Hp'. by split_and!.
  - cbn. rewrite Hp'. by split_and!.
Qed.

(** The first stages of the handler up to the cache read, for a store
    without a database and a key not in the map. *)
Ltac part000_to_forward Hdb He :=
  unfold HandlerPart000.handlePost, HandlerPart000.forwardToUpstream; unfold st_bind, st_catch;
  rewrite on_dd_throttle; cbv beta iota; rewrite date_now_run; cbv beta iota;
  erewrite with_store_run; [|apply withdb_get_memory_miss; [exact Hdb|exact He]];
  cbv beta iota.

(** C6. part_000, an upstream that never answers (every post rejected
    without an HTTP response): after 11 posts the client gets status 500
    with the body [{}] (the [ReferenceError] serialized, not the
    upstream's failure); only the request counter moves and the store is
    unchanged. *)
Lemma part000_upstream_failure parse cfg rid body w :
  st_db (g_store (w_glob w)) = None ->
  st_cache (g_store (w_glob w)) !! getCacheKey body = None ->
  fresh_rid rid w = true ->
  (forall j, (j <= DEFAULT_RETRIES)%nat ->
     attempt_unanswered (env_net (w_env w)) (length (env_posts (w_env w)) + j)) ->
  let '(r, w') := HandlerPart000.handlePost parse cfg rid body w in
  r = ROk tt /\
  w_out w' = w_out w ++ [(rid, mkReply 500 (JObj []))] /\
  env_posts (w_env w') = env_posts (w_env w) ++ repeat body 11 /\
  httpUpstreamResCnt (w_glob w') = httpUpstreamResCnt (w_glob w) /\
  httpReqCnt (w_glob w') = S (httpReqCnt (w_glob w)) /\
  httpCacheResCnt (w_glob w') = httpCacheResCnt (w_glob w) /\
  g_store (w_glob w') = g_store (w_glob w).
Proof.
  intros Hdb He Hfresh Hfail.
  destruct (throttled_env_frame (getCacheKey body) w) as (Hp & Hnt & _).
  destruct (throttle_env_frame (getCacheKey body) (g_dd (w_glob w)) (w_env w)) as (Hp' & _).
  part000_to_forward Hdb He.
  erewrite on_env_err; [|apply upstream_exhausted_run; cbn [set_store w_env]; rewrite Hp, Hnt; exact Hfail].
  cbv beta iota. rewrite res_send_fresh; [|exact Hfresh]. cbn.
  rewrite Hp'. destruct (g_store (w_glob w)). by split_and!.
Qed.

(** C26. part_000, an upstream that answers with an HTTP error status
    (a 429 rate limit, a 5xx): the request is not retried.  The
    [TypeError] thrown by [JSON.stringify] on axios's circular response
    object reaches the handler's [catch], and the client gets status 500
    with the body [{}] after a single post; only the request counter
    moves and the store is unchanged. *)
Lemma part000_upstream_http_error parse cfg rid body w :
  st_db (g_store (w_glob w)) = None ->
  st_cache (g_store (w_glob w)) !! getCacheKey body = None ->
  fresh_rid rid w = true ->
  attempt_http_error (env_net (w_env w)) (length (env_posts (w_env w))) ->
  let '(r, w') := HandlerPart000.handlePost parse cfg rid body w in
  r = ROk tt /\
  w_out w' = w_out w ++ [(rid, mkReply 500 (JObj []))] /\
  env_posts (w_env w') = env_posts (w_env w) ++ [body] /\
  httpUpstreamResCnt (w_glob w') = httpUpstreamResCnt (w_glob w) /\
  httpReqCnt (w_glob w') = S (httpReqCnt (w_glob w)) /\
  httpCacheResCnt (w_glob w') = httpCacheResCnt (w_glob w) /\
  g_store (w_glob w') = g_store (w_glob w).
Proof.
  intros Hdb He Hfresh (err & Herr & Hr).
  destruct (throttled_env_frame (getCacheKey body) w) as (Hp & Hnt & _).
  destruct (throttle_env_frame (getCacheKey body) (g_dd (w_glob w)) (w_env w)) as (Hp' & _).
  part000_to_forward Hdb He.
  erewrite on_env_err; [|apply upstream_catch_throws with (err := err);
    [cbn [set_store w_env]; rewrite Hp, Hnt; exact Herr|exact (forwardedErr_response _ Hr)]].
  cbv beta iota. rewrite res_send_fresh; [|exact Hfresh]. cbn.
  rewrite Hp'. destruct (g_store (w_glob w)). by split_and!.
Qed.

(** C7. part_000, the cache-write condition throwing after the upstream body
    was sent (an [eth_call] whose parameters hold [null] before any
    [blockHash] object, or are not an array): the [catch] block's second
    [res.send] throws [ERR_HTTP_HEADERS_SENT], which escapes the handler;
    the request is never counted although the upstream response is. *)
Lemma part000_write_check_throws parse cfg rid body w d err :
  st_db (g_store (w_glob w)) = None ->
  st_cache (g_store (w_glob w)) !! getCacheKey body = None ->
  fresh_rid rid w = true ->
  snd (env_net (w_env w) (length (env_posts (w_env w)))) = ROk d ->
  Part000.shouldCache body = RErr err ->
  let '(r, w') := HandlerPart000.handlePost parse cfg rid body w in
  r = RErr HeadersSentError /\
  w_out w' = w_out w ++ [(rid, mkReply 200 d)] /\
  httpUpstreamResCnt (w_glob w') = S (httpUpstreamResCnt (w_glob w)) /\
  httpReqCnt (w_glob w') = httpReqCnt (w_glob w).
Proof.
  intros Hdb He Hfresh Hnet Hsc.
  destruct (throttled_env_frame (getCacheKey body) w) as (Hp & Hnt & _).
  part000_to_forward Hdb He.
  erewrite on_env_run; [|apply upstream_ok_step; cbn [set_store w_env]; rewrite Hp, Hnt; exact Hnet].
  cbv beta iota. cbn [incr_upstream st_modify]. cbv beta iota.
  rewrite res_send_fresh; [|exact Hfresh]. cbv beta iota.
  unfold lift_res. rewrite Hsc. cbv beta iota.
  rewrite res_send_answered; [|apply fresh_rid_after_send]. cbn. by split_and!.
Qed.

(** ** What the forwarding block changes *)

(** The forwarding block of part_000, for every upstream behaviour and
    every branch: it posts the body between 1 and 11 times, moves the
    clock forward, leaves the duplicate map and the hit and request
    counters alone, and either leaves the store as it was or performs
    one [writeResponseToCache] at the final time. *)
Lemma part000_forward_frame cfg rid body key w :
  let '(_, w') := HandlerPart000.forwardToUpstream cfg rid body key w in
  (exists k, (1 <= k <= 11)%nat /\ env_posts (w_env w') = env_posts (w_env w) ++ repeat body k) /\
  env_now (w_env w) <= env_now (w_env w') /\
  env_random (w_env w') = env_random (w_env w) /\ env_draws (w_env w') = env_draws (w_env w) /\
  env_net (w_env w') = env_net (w_env w) /\
  g_dd (w_glob w') = g_dd (w_glob w) /\
  httpCacheResCnt (w_glob w') = httpCacheResCnt (w_glob w) /\
  httpReqCnt (w_glob w') = httpReqCnt (w_glob w) /\
  (g_store (w_glob w') = g_store (w_glob w) \/
   exists v, g_store (w_glob w') = WithDb.writeResponseToCache (env_now (w_env w')) key v (g_store (w_glob w))).
Proof.
  unfold HandlerPart000.forwardToUpstream, st_catch, st_bind.
  pose proof (upstream_run_shape (RPC cfg) body DEFAULT_RETRIES DEFAULT_INITIAL_TIMEOUT_MS (w_env w)) as Hshape.
  pose proof (upstream_env_mono (RPC cfg) body DEFAULT_RETRIES DEFAULT_INITIAL_TIMEOUT_MS (w_env w)) as Hmono.
  unfold on_env, st_zoom.
  destruct (upstreamHttpRequest _ _ _ _ (w_env w)) as [r e'] eqn:Hup.
  destruct Hshape as (k & Hk & Hposts). simpl in Hposts. simpl in Hmono. destruct Hmono as (Hnow & Hnet & Hrand & Hdraws).
  unfold DEFAULT_RETRIES in Hk.
  destruct r as [d|err]; cbv beta iota; cbn [incr_upstream st_modify]; cbv beta iota;
    unfold res_send, lift_res; cbn [w_out set_env];
    repeat (cbn; match goal with
            | |- context [if ?b then _ else _] => destruct b
            | |- context [match ?x with ROk _ => _ | RErr _ => _ end] => destruct x
            end);
    cbn; (split; [by exists k|]); split_and!; try done; try lia;
    first [by left | right; eexists; reflexivity].
Qed.

(** ** Database mode *)

(** The store has a database and an empty map, as at start-up with
    [DB_FILE] set. *)
Definition db_mode (w : World) : Prop :=
  st_cache (g_store (w_glob w)) = ∅ /\ st_db (g_store (w_glob w)) <> None.

(** C3. part_000 with a database: every request reaches the upstream and is
    never answered from the cache, whatever the table holds and whatever
    the upstream does; the store stays in database mode. *)
Lemma part000_db_mode_forwards parse cfg rid body w :
  db_mode w ->
  let '(_, w') := HandlerPart000.handlePost parse cfg rid body w in
  db_mode w' /\ httpCacheResCnt (w_glob w') = httpCacheResCnt (w_glob w) /\
  (length (env_posts (w_env w)) < length (env_posts (w_env w')))%nat.
Proof.
  intros [Hc Hdb]. destruct (st_db (g_store (w_glob w))) as [db|] eqn:Hdb'; [|done].
  destruct (throttled_env_frame (getCacheKey body) w) as (Hp & _).
  unfold HandlerPart000.handlePost. unfold st_bind at 1 2 3.
  rewrite on_dd_throttle. cbv beta iota. rewrite date_now_run. cbv beta iota.
  erewrite with_store_run; [|apply (withdb_db_get_none _ _ _ _ _ _ db); [exact Hdb'|exact Hc]].
  cbv beta iota.
  set (w1 := set_store _ _).
  pose proof (part000_forward_frame cfg rid body (getCacheKey body) w1) as Hf.
  unfold st_bind. destruct (HandlerPart000.forwardToUpstream _ _ _ _ w1) as [r w2].
  destruct Hf as ((k & Hk & Hposts) & _ & _ & _ & _ & _ & Hhits & _ & Hstore).
  assert (Hlen : (length (env_posts (w_env w)) < length (env_posts (w_env w2)))%nat).
  { rewrite Hposts. cbn [w1 set_store w_env]. rewrite Hp, length_app, repeat_length. lia. }
  assert (Hdb2 : db_mode w2).
  { unfold db_mode. destruct Hstore as [-> | [v ->]]; cbn [w1 set_store throttled w_glob g_store].
    - rewrite Hc, Hdb'. done.
    - destruct (withdb_db_write_map (env_now (w_env w2)) (getCacheKey body) v (g_store (w_glob w)) db Hdb')
        as [H1 H2]. by rewrite H1. }
  destruct r; cbn; split_and!; try done.
Qed.

(** ** The reply contract

    What a handler promises the driver [serve]: a request not answered
    yet gets exactly one reply, and the handler either completes or
    fails with [ERR_HTTP_HEADERS_SENT] after that reply.  Both handlers
    implement it; [serve_answers_each] is proved against the class. *)

(** [m] leaves the part [proj] of the world as it was. *)
Definition frame {A B} (proj : World -> B) (m : ST World exn A) : Prop := forall w, proj (snd (m w)) = proj w.

(** [m] sends no reply. *)
Definition out_frame {A} (m : ST World exn A) : Prop := frame w_out m.

(** The three counters [httpReqCnt], [httpUpstreamResCnt], [httpCacheResCnt]. *)
Definition counters (w : World) : nat * nat * nat :=
  (httpReqCnt (w_glob w), httpUpstreamResCnt (w_glob w), httpCacheResCnt (w_glob w)).

(** [m] moves no counter. *)
Definition ctr_frame {A} (m : ST World exn A) : Prop := frame counters m.

(** After [m], request [rid] has been answered exactly once since [w]. *)
Definition replies_once (rid : nat) (m : ST World exn unit) (w : World) : Prop :=
  let '(r, w') := m w in
  (exists rep, w_out w' = w_out w ++ [(rid, rep)]) /\ (r = ROk tt \/ r = RErr HeadersSentError).

Class AnswersOnce (h : nat -> jsval -> ST World exn unit) : Prop :=
  answers_once : forall rid body w, fresh_rid rid w = true -> replies_once rid (h rid body) w.

(** The forwarding block of both versions: obtain the upstream answer
    with [up], count, answer, then a tail [k] that sends nothing; a
    throw anywhere is answered with 500. *)
Definition forward_block (up : ST World exn jsval) (rid : nat) (k : jsval -> ST World exn unit)
    : ST World exn unit :=
  st_catch (rpcRes <- up ;; incr_upstream ;; res_send rid 200 rpcRes ;; k rpcRes)
    (fun err => res_send rid 500 (exn_body err)).

Definition req_ids (reqs : list (Z * nat * jsval)) : list nat := (fun '(_, rid, _) => rid) <$> reqs.

Section Frame.
Context {B : Type} (proj : World -> B).

Lemma frame_ret {A} (a : A) : frame proj (st_ret a).
Proof. done. Qed.

Lemma frame_bind {A A'} (m : ST World exn A) (k : A -> ST World exn A') :
  frame proj m -> (forall a, frame proj (k a)) -> frame proj (st_bind m k).
Proof.
  intros Hm Hk w. unfold st_bind. specialize (Hm w).
  destruct (m w) as [[a|e] w']; simpl in *; [by rewrite Hk|done].
Qed.

Lemma frame_if {A} (b : bool) (m1 m2 : ST World exn A) :
  frame proj m1 -> frame proj m2 -> frame proj (if b then m1 else m2).
Proof. by destruct b. Qed.

Lemma frame_lift_res {A} (r : res exn A) : frame proj (lift_res r).
Proof. done. Qed.

Lemma frame_on_env {A} (m : ST Env exn A) :
  (forall e w, proj (set_env e w) = proj w) -> frame proj (on_env m).
Proof. intros Hp w. unfold on_env, st_zoom. destruct (m (w_env w)). apply Hp. Qed.

Lemma frame_with_store {A} (f : Store -> A * Store) :
  (forall s w, proj (set_store s w) = proj w) -> frame proj (with_store f).
Proof. intros Hp w. unfold with_store. destruct (f _). apply Hp. Qed.

Lemma frame_with_cache {A} (f : Cache -> A * Cache) :
  (forall s w, proj (set_store s w) = proj w) -> frame proj (with_cache f).
Proof. apply frame_with_store. Qed.
End Frame.

#[export] Hint Resolve frame_ret frame_bind frame_if frame_lift_res frame_on_env frame_with_store
  frame_with_cache : rpc.
#[export] Hint Unfold out_frame ctr_frame : rpc.
#[export] Hint Extern 1 (forall _ _, _ = _) => reflexivity : rpc.

Lemma fresh_rid_out rid w w' : w_out w' = w_out w -> fresh_rid rid w' = fresh_rid rid w.
Proof. unfold fresh_rid. by intros ->. Qed.

Lemma fresh_rid_replied rid rep w o : w_out w = o ++ [(rid, rep)] -> fresh_rid rid w = false.
Proof.
  unfold fresh_rid. intros ->. rewrite existsb_app. simpl. by rewrite Nat.eqb_refl, orb_true_r.
Qed.

Lemma fresh_rid_other rid rid' rep w o :
  rid' <> rid -> w_out w = o ++ [(rid, rep)] -> fresh_rid rid' w = fresh_rid rid' (mkWorld (w_glob w) (w_env w) o).
Proof.
  unfold fresh_rid. intros Hne ->. rewrite existsb_app. simpl.
  apply Nat.eqb_neq in Hne. by rewrite Nat.eqb_sym, Hne, orb_false_r.
Qed.

Lemma forward_block_reply up rid k w :
  out_frame up -> (forall d, out_frame (k d)) -> fresh_rid rid w = true ->
  replies_once rid (forward_block up rid k) w.
Proof.
  intros Hup Hk Hf. unfold replies_once, forward_block, st_catch. unfold st_bind at 1.
  pose proof (Hup w) as Ho.
  destruct (up w) as [[d|err] w1]; simpl in Ho; cbv beta iota.
  - unfold st_bind. cbn [incr_upstream st_modify]. cbv beta iota.
    rewrite res_send_fresh by (rewrite <- Hf; by apply fresh_rid_out). cbv beta iota.
    set (w2 := mkWorld _ _ _). pose proof (Hk d w2) as Hk2.
    destruct (k d w2) as [[[]|e] w3]; simpl in Hk2; cbv beta iota.
    + split; [exists (mkReply 200 d); by rewrite Hk2, Ho | by left].
    + rewrite res_send_answered by (eapply fresh_rid_replied; rewrite Hk2; reflexivity).
      split; [exists (mkReply 200 d); by rewrite Hk2, Ho | by right].
  - rewrite res_send_fresh by (rewrite <- Hf; by apply fresh_rid_out).
    split; [exists (mkReply 500 (exn_body err)); by rewrite Ho | by left].
Qed.

Lemma appjs_forward_reply cfg rid body key w :
  fresh_rid rid w = true -> replies_once rid (HandlerAppJs.forwardToUpstream cfg rid body key) w.
Proof. apply forward_block_reply; [auto with rpc|]. intros d. auto 10 with rpc. Qed.

Lemma part000_forward_reply cfg rid body key w :
  fresh_rid rid w = true -> replies_once rid (HandlerPart000.forwardToUpstream cfg rid body key) w.
Proof. apply forward_block_reply; [auto with rpc|]. intros d. auto 10 with rpc. Qed.

(** The stages before the answer (throttle, clock, cache read) send
    nothing and never throw; then the hit branch answers, or the
    forwarding block does. *)
Ltac answers_once_tac fwd_reply :=
  intros rid body w Hf; unfold replies_once, HandlerAppJs.handlePost, HandlerPart000.handlePost; unfold st_bind;
  rewrite on_dd_throttle; cbv beta iota; rewrite date_now_run; cbv beta iota;
  first [erewrite with_store_run | erewrite with_cache_run]; [|apply surjective_pairing];
  cbv beta iota;
  lazymatch goal with |- context [match fst ?p with Some _ => _ | None => _ end] => destruct (fst p) as [r|] end;
  [ rewrite res_send_fresh by exact Hf; cbn; split; [eexists; reflexivity | by left]
  | lazymatch goal with
    | |- context [match ?m ?w1 with pair _ _ => _ end] =>
        assert (Hfw : replies_once rid m w1) by (apply fwd_reply; exact Hf); unfold replies_once in Hfw;
        destruct (m w1) as [[[]|e] w2]; destruct Hfw as [[rep Hrep] Hr]; cbn;
        [split; [exists rep; exact Hrep | by left]
         | destruct Hr as [Hr|Hr]; [discriminate|]; split; [exists rep; exact Hrep | by right]]
    end ].

#[export] Instance appjs_answers_once cfg : AnswersOnce (HandlerAppJs.handlePost cfg).
Proof. answers_once_tac appjs_forward_reply. Qed.

#[export] Instance part000_answers_once parse cfg : AnswersOnce (HandlerPart000.handlePost parse cfg).
Proof. answers_once_tac part000_forward_reply. Qed.

(** ** The counter contract

    What the counters say about the replies: given a request not
    answered yet, a handler sends one reply, with status 200 when it
    counted a cached or an upstream response and 500 when it counted
    neither, and it counts the request exactly when it completes. *)

Definition hits_ups (w : World) : nat := httpCacheResCnt (w_glob w) + httpUpstreamResCnt (w_glob w).

(** One reply to [rid], [status] 200 exactly when [hits_ups] grew (by one). *)
Definition counted_reply (rid : nat) (w w' : World) : Prop :=
  exists rep, w_out w' = w_out w ++ [(rid, rep)] /\
    ((reply_status rep = 200 /\ hits_ups w' = S (hits_ups w)) \/
     (reply_status rep = 500 /\ hits_ups w' = hits_ups w)).

Definition counts_reply (rid : nat) (m : ST World exn unit) (w : World) : Prop :=
  let '(r, w') := m w in
  counted_reply rid w w' /\
  httpReqCnt (w_glob w') = (if r is ROk _ then S (httpReqCnt (w_glob w)) else httpReqCnt (w_glob w)).

Class CountsReplies (h : nat -> jsval -> ST World exn unit) : Prop :=
  counts_replies : forall rid body w, fresh_rid rid w = true -> counts_reply rid (h rid body) w.

Lemma ctr_frame_counts {A} (m : ST World exn A) w :
  ctr_frame m -> hits_ups (snd (m w)) = hits_ups w /\ httpReqCnt (w_glob (snd (m w))) = httpReqCnt (w_glob w).
Proof. intros Hm. specialize (Hm w). unfold counters in Hm. injection Hm. unfold hits_ups. lia. Qed.

Lemma forward_block_counts up rid k w :
  out_frame up -> ctr_frame up -> (forall d, out_frame (k d)) -> (forall d, ctr_frame (k d)) ->
  fresh_rid rid w = true ->
  let '(_, w') := forward_block up rid k w in
  counted_reply rid w w' /\ httpReqCnt (w_glob w') = httpReqCnt (w_glob w).
Proof.
  intros Hup Hcu Hk Hck Hf. unfold forward_block, st_catch. unfold st_bind at 1.
  pose proof (Hup w) as Ho. pose proof (ctr_frame_counts up w Hcu) as [Hh Hr].
  destruct (up w) as [[d|err] w1]; simpl in Ho, Hh, Hr; cbv beta iota.
  - unfold st_bind. cbn [incr_upstream st_modify]. cbv beta iota.
    rewrite res_send_fresh by (rewrite <- Hf; by apply fresh_rid_out). cbv beta iota.
    set (w2 := mkWorld _ _ _). pose proof (Hk d w2) as Hk2. pose proof (ctr_frame_counts _ w2 (Hck d)) as [Hh2 Hr2].
    assert (Hw2 : hits_ups w2 = S (hits_ups w)) by (unfold hits_ups in *; cbn; lia).
    destruct (k d w2) as [[[]|e] w3]; simpl in Hk2, Hh2, Hr2; cbv beta iota;
      [|rewrite res_send_answered by (eapply fresh_rid_replied; rewrite Hk2; reflexivity)];
      (split; [exists (mkReply 200 d); split; [by rewrite Hk2, Ho | left; split; [done | lia]] | by rewrite Hr2]).
  - rewrite res_send_fresh by (rewrite <- Hf; by apply fresh_rid_out). cbn.
    split; [|done]. exists (mkReply 500 (exn_body err)). split; [by rewrite Ho | right; split; [done | exact Hh]].
Qed.

Lemma appjs_forward_counts cfg rid body key w :
  fresh_rid rid w = true ->
  let '(_, w') := HandlerAppJs.forwardToUpstream cfg rid body key w in
  counted_reply rid w w' /\ httpReqCnt (w_glob w') = httpReqCnt (w_glob w).
Proof. apply forward_block_counts; [auto with rpc..| |]; intros d; auto 10 with rpc. Qed.

Lemma part000_forward_counts cfg rid body key w :
  fresh_rid rid w = true ->
  let '(_, w') := HandlerPart000.forwardToUpstream cfg rid body key w in
  counted_reply rid w w' /\ httpReqCnt (w_glob w') = httpReqCnt (w_glob w).
Proof. apply forward_block_counts; [auto with rpc..| |]; intros d; auto 10 with rpc. Qed.

(** As [answers_once_tac]: the stages before the answer move no counter;
    then the hit branch answers 200 and counts a hit, or the forwarding
    block does its part; [httpReqCnt++] runs when nothing was thrown. *)
Ltac counts_tac fwd_counts :=
  intros rid body w Hf; unfold counts_reply, HandlerAppJs.handlePost, HandlerPart000.handlePost; unfold st_bind;
  rewrite on_dd_throttle; cbv beta iota; rewrite date_now_run; cbv beta iota;
  first [erewrite with_store_run | erewrite with_cache_run]; [|apply surjective_pairing];
  cbv beta iota;
  lazymatch goal with |- context [match fst ?p with Some _ => _ | None => _ end] => destruct (fst p) as [r|] end;
  [ rewrite res_send_fresh by exact Hf; cbn;
    split; [|done]; eexists; split; [reflexivity | left; split; [done | unfold hits_ups; cbn; lia]]
  | lazymatch goal with
    | |- context [match ?m ?w1 with pair _ _ => _ end] =>
        assert (Hfw : let '(_, w') := m w1 in counted_reply rid w1 w' /\ httpReqCnt (w_glob w') = httpReqCnt (w_glob w1))
          by (apply fwd_counts; exact Hf);
        destruct (m w1) as [[[]|e] w2]; destruct Hfw as [(rep & Hrep & Hst) Hreq]; cbn in *;
        (split; [exists rep; split; [exact Hrep | unfold hits_ups in *; cbn in *; exact Hst] | cbn; lia])
    end ].

#[export] Instance appjs_counts_replies cfg : CountsReplies (HandlerAppJs.handlePost cfg).
Proof. counts_tac appjs_forward_counts. Qed.

#[export] Instance part000_counts_replies parse cfg : CountsReplies (HandlerPart000.handlePost parse cfg).
Proof. counts_tac part000_forward_counts. Qed.

Lemma arrive_out t w : w_out (arrive t w) = w_out w.
Proof. done. Qed.

Section Serve.
Context (h : nat -> jsval -> ST World exn unit) `{!AnswersOnce h}.

(** Requests with distinct ids, none answered yet, each get exactly one
    reply, in the order they were served. *)
Lemma serve_answers_each w reqs :
  NoDup (req_ids reqs) -> Forall (fun rid => fresh_rid rid w = true) (req_ids reqs) ->
  exists reps, w_out (serve h w reqs) = w_out w ++ zip (req_ids reqs) reps /\ length reps = length reqs.
Proof.
  revert w. induction reqs as [|[[t rid] body] reqs IH]; intros w Hnd Hfr.
  - exists []. by rewrite app_nil_r.
  - cbn [req_ids fmap list_fmap] in *. apply NoDup_cons in Hnd as [Hnin Hnd].
    apply Forall_cons in Hfr as [Hf Hfr]. cbn [serve].
    pose proof (answers_once rid body (arrive t w) Hf) as Hone. unfold replies_once in Hone.
    destruct (h rid body (arrive t w)) as [r w1]. destruct Hone as [[rep Hrep] _]. cbn [snd].
    destruct (IH w1 Hnd) as (reps & Hout & Hlen).
    { eapply Forall_impl; [|intros rid' Hrid'; exact Hrid'].
      apply Forall_forall. intros rid' Hin. rewrite (fresh_rid_other rid rid' rep w1 (w_out w)).
      - eapply Forall_forall in Hfr; [|exact Hin]. done.
      - intros ->. by apply Hnin.
      - by rewrite Hrep. }
    exists (rep :: reps). rewrite Hout, Hrep. simpl. split; [by rewrite <- app_assoc | lia].
Qed.
End Serve.

(** C9. app.js: served one after the other, requests with distinct ids
    that were not answered before each get exactly one reply, in the
    order they arrive, whatever the upstream does (answers, failures,
    retries), whatever the cache holds and whatever the random delays. *)
Theorem appjs_serve_answers_each cfg w reqs :
  NoDup (req_ids reqs) -> Forall (fun rid => fresh_rid rid w = true) (req_ids reqs) ->
  exists reps, w_out (serve (HandlerAppJs.handlePost cfg) w reqs) = w_out w ++ zip (req_ids reqs) reps /\
    length reps = length reqs.
Proof. apply serve_answers_each. exact _. Qed.

(** C8. part_000: the same, in memory and database mode, whatever
    [JSON.parse] does: a throw after the answer (the cache-write
    condition) is stopped by [ERR_HTTP_HEADERS_SENT], never by a second
    or a missing reply. *)
Theorem part000_serve_answers_each parse cfg w reqs :
  NoDup (req_ids reqs) -> Forall (fun rid => fresh_rid rid w = true) (req_ids reqs) ->
  exists reps, w_out (serve (HandlerPart000.handlePost parse cfg) w reqs) = w_out w ++ zip (req_ids reqs) reps /\
    length reps = length reqs.
Proof. apply serve_answers_each. exact _. Qed.

(** ** Witnesses *)

Definition sampleBody (m : string) (params : jsval) : jsval :=
  JObj [("jsonrpc", JStr "2.0"); ("method", JStr m); ("params", params); ("id", JNum 7)]%string.

Definition sampleEnv (net : nat -> nat * res exn jsval) : Env :=
  {| env_now := 100; env_timers := []; env_random := fun _ => 0; env_draws := 0;
     env_net := net; env_posts := [] |}.

Definition sampleWorld (s : Store) (net : nat -> nat * res exn jsval) : World :=
  mkWorld (mkGlobals s ∅ 0 0 0) (sampleEnv net) [].

Definition sampleCfg : Config := mkConfig "http://rpc" (JNum 10) None.

Definition sampleAnswer : jsval := JObj [("jsonrpc", JStr "2.0"); ("id", JNum 7); ("result", JStr "0x1")]%string.

Lemma part000_immutable_hit_witness :
  let body := sampleBody "eth_chainId" (JArr []) in
  let e := mkEntry 0 (JStr "0x1") 0 1 in
  let w := sampleWorld (mkStore {[getCacheKey body := e]} None) (fun _ => (5%nat, ROk sampleAnswer)) in
  (js_includes Part000.IMMUTABLE_METHODS (js_prop body "method") = true /\
   st_cache (g_store (w_glob w)) !! getCacheKey body = Some e /\
   js_nullish (val e) = false /\ fresh_rid 1 w = true) /\
  let '(r, w') := HandlerPart000.handlePost (fun _ => ROk JNull) sampleCfg 1 body w in
  r = ROk tt /\
  w_out w' = w_out w ++ [(1%nat, mkReply 200 (cacheResponse (js_prop body "id") (val e)))] /\
  env_posts (w_env w') = env_posts (w_env w) /\
  httpCacheResCnt (w_glob w') = S (httpCacheResCnt (w_glob w)) /\
  httpReqCnt (w_glob w') = S (httpReqCnt (w_glob w)) /\
  httpUpstreamResCnt (w_glob w') = httpUpstreamResCnt (w_glob w).
Proof.
  intros body e w.
  assert (H1 : js_includes Part000.IMMUTABLE_METHODS (js_prop body "method") = true) by reflexivity.
  assert (H2 : st_cache (g_store (w_glob w)) !! getCacheKey body = Some e) by (vm_compute; reflexivity).
  assert (H3 : js_nullish (val e) = false) by reflexivity.
  assert (H4 : fresh_rid 1 w = true) by reflexivity.
  split; [split_and!; assumption|].
  exact (part000_immutable_hit (fun _ => ROk JNull) sampleCfg 1 body w e H1 H2 H3 H4).
Defined.

Lemma part000_miss_forward_witness :
  let body := sampleBody "eth_blockNumber" (JArr []) in
  let w := sampleWorld (mkStore ∅ None) (fun _ => (5%nat, ROk sampleAnswer)) in
  (st_db (g_store (w_glob w)) = None /\
   st_cache (g_store (w_glob w)) !! getCacheKey body = None /\
   fresh_rid 1 w = true /\
   snd (env_net (w_env w) (length (env_posts (w_env w)))) = ROk sampleAnswer /\
   sampleAnswer <> JUndef /\ sampleAnswer <> JNull /\
   Part000.shouldCache body = ROk true) /\
  let '(r, w') := HandlerPart000.handlePost (fun _ => ROk JNull) sampleCfg 1 body w in
  r = ROk tt /\
  w_out w' = w_out w ++ [(1%nat, mkReply 200 sampleAnswer)] /\
  env_posts (w_env w') = env_posts (w_env w) ++ [body] /\
  httpUpstreamResCnt (w_glob w') = S (httpUpstreamResCnt (w_glob w)) /\
  httpReqCnt (w_glob w') = S (httpReqCnt (w_glob w)) /\
  httpCacheResCnt (w_glob w') = httpCacheResCnt (w_glob w) /\
  st_cache (g_store (w_glob w')) !! getCacheKey body
  = (if true then Some (mkEntry (env_now (w_env w')) (js_prop sampleAnswer "result") 0 1) else None).
Proof.
  intros body w.
  assert (H1 : st_db (g_store (w_glob w)) = None) by reflexivity.
  assert (H2 : st_cache (g_store (w_glob w)) !! getCacheKey body = None) by reflexivity.
  assert (H3 : fresh_rid 1 w = true) by reflexivity.
  assert (H4 : snd (env_net (w_env w) (length (env_posts (w_env w)))) = ROk sampleAnswer) by reflexivity.
  assert (H5 : sampleAnswer <> JUndef) by discriminate.
  assert (H6 : sampleAnswer <> JNull) by discriminate.
  assert (H7 : Part000.shouldCache body = ROk true) by reflexivity.
  split; [split_and!; assumption|].
  exact (part000_miss_forward (fun _ => ROk JNull) sampleCfg 1 body w sampleAnswer true H1 H2 H3 H4 H5 H6 H7).
Defined.

Lemma part000_db_mode_forwards_witness :
  let body := sampleBody "eth_chainId" (JArr []) in
  let w := sampleWorld (mkStore ∅ (Some (mkDb true {[getCacheKey body := mkRow (Some "1") 0]})))
             (fun _ => (5%nat, ROk sampleAnswer)) in
  db_mode w /\
  let '(_, w') := HandlerPart000.handlePost (fun _ => ROk JNull) sampleCfg 1 body w in
  db_mode w' /\ httpCacheResCnt (w_glob w') = httpCacheResCnt (w_glob w) /\
  (length (env_posts (w_env w)) < length (env_posts (w_env w')))%nat.
Proof.
  intros body w.
  assert (H : db_mode w) by (split; [reflexivity|discriminate]).
  split; [exact H|]. exact (part000_db_mode_forwards (fun _ => ROk JNull) sampleCfg 1 body w H).
Defined.

Lemma part000_upstream_failure_witness :
  let body := sampleBody "eth_blockNumber" (JArr []) in
  let w := sampleWorld (mkStore ∅ None) (fun _ => (5%nat, RErr (AxiosError JUndef (Some JUndef)))) in
  (st_db (g_store (w_glob w)) = None /\
   st_cache (g_store (w_glob w)) !! getCacheKey body = None /\
   fresh_rid 1 w = true /\
   (forall j, (j <= DEFAULT_RETRIES)%nat ->
      attempt_unanswered (env_net (w_env w)) (length (env_posts (w_env w)) + j))) /\
  let '(r, w') := HandlerPart000.handlePost (fun _ => ROk JNull) sampleCfg 1 body w in
  r = ROk tt /\
  w_out w' = w_out w ++ [(1%nat, mkReply 500 (JObj []))] /\
  env_posts (w_env w') = env_posts (w_env w) ++ repeat body 11 /\
  httpUpstreamResCnt (w_glob w') = httpUpstreamResCnt (w_glob w) /\
  httpReqCnt (w_glob w') = S (httpReqCnt (w_glob w)) /\
  httpCacheResCnt (w_glob w') = httpCacheResCnt (w_glob w) /\
  g_store (w_glob w') = g_store (w_glob w).
Proof.
  intros body w.
  assert (H1 : st_db (g_store (w_glob w)) = None) by reflexivity.
  assert (H2 : st_cache (g_store (w_glob w)) !! getCacheKey body = None) by reflexivity.
  assert (H3 : fresh_rid 1 w = true) by reflexivity.
  assert (H4 : forall j, (j <= DEFAULT_RETRIES)%nat ->
      attempt_unanswered (env_net (w_env w)) (length (env_posts (w_env w)) + j)).
  { intros j _. eexists. split; reflexivity. }
  split; [split_and!; assumption|].
  exact (part000_upstream_failure (fun _ => ROk JNull) sampleCfg 1 body w H1 H2 H3 H4).
Defined.

Lemma part000_upstream_http_error_witness :
  let body := sampleBody "eth_blockNumber" (JArr []) in
  let w := sampleWorld (mkStore ∅ None)
             (fun _ => (5%nat, RErr (AxiosError (JObj [("status", JNum 429)]) None))) in
  (st_db (g_store (w_glob w)) = None /\
   st_cache (g_store (w_glob w)) !! getCacheKey body = None /\
   fresh_rid 1 w = true /\
   attempt_http_error (env_net (w_env w)) (length (env_posts (w_env w)))) /\
  let '(r, w') := HandlerPart000.handlePost (fun _ => ROk JNull) sampleCfg 1 body w in
  r = ROk tt /\
  w_out w' = w_out w ++ [(1%nat, mkReply 500 (JObj []))] /\
  env_posts (w_env w') = env_posts (w_env w) ++ [body] /\
  httpUpstreamResCnt (w_glob w') = httpUpstreamResCnt (w_glob w) /\
  httpReqCnt (w_glob w') = S (httpReqCnt (w_glob w)) /\
  httpCacheResCnt (w_glob w') = httpCacheResCnt (w_glob w) /\
  g_store (w_glob w') = g_store (w_glob w).
Proof.
  intros body w.
  assert (H1 : st_db (g_store (w_glob w)) = None) by reflexivity.
  assert (H2 : st_cache (g_store (w_glob w)) !! getCacheKey body = None) by reflexivity.
  assert (H3 : fresh_rid 1 w = true) by reflexivity.
  assert (H4 : attempt_http_error (env_net (w_env w)) (length (env_posts (w_env w))))
    by (eexists; split; reflexivity).
  split; [split_and!; assumption|].
  exact (part000_upstream_http_error (fun _ => ROk JNull) sampleCfg 1 body w H1 H2 H3 H4).
Defined.

Lemma part000_write_check_throws_witness :
  let body := sampleBody "eth_call" (JArr [JObj [("to", JStr "0xab")]; JNull])%string in
  let w := sampleWorld (mkStore ∅ None) (fun _ => (5%nat, ROk sampleAnswer)) in
  let err := TypeError "Cannot use 'in' operator" in
  (st_db (g_store (w_glob w)) = None /\
   st_cache (g_store (w_glob w)) !! getCacheKey body = None /\
   fresh_rid 1 w = true /\
   snd (env_net (w_env w) (length (env_posts (w_env w)))) = ROk sampleAnswer /\
   Part000.shouldCache body = RErr err) /\
  let '(r, w') := HandlerPart000.handlePost (fun _ => ROk JNull) sampleCfg 1 body w in
  r = RErr HeadersSentError /\
  w_out w' = w_out w ++ [(1%nat, mkReply 200 sampleAnswer)] /\
  httpUpstreamResCnt (w_glob w') = S (httpUpstreamResCnt (w_glob w)) /\
  httpReqCnt (w_glob w') = httpReqCnt (w_glob w).
Proof.
  intros body w err.
  assert (H1 : st_db (g_store (w_glob w)) = None) by reflexivity.
  assert (H2 : st_cache (g_store (w_glob w)) !! getCacheKey body = None) by reflexivity.
  assert (H3 : fresh_rid 1 w = true) by reflexivity.
  assert (H4 : snd (env_net (w_env w) (length (env_posts (w_env w)))) = ROk sampleAnswer) by reflexivity.
  assert (H5 : Part000.shouldCache body = RErr err) by reflexivity.
  split; [split_and!; assumption|].
  exact (part000_write_check_throws (fun _ => ROk JNull) sampleCfg 1 body w sampleAnswer err H1 H2 H3 H4 H5).
Defined.

(** Three requests, the upstream down for the first posts and then up,
    so the first request fails after its retries and the others are
    forwarded or hit the cache. *)
Definition sampleReqs : list (Z * nat * jsval) :=
  [(0, 1%nat, sampleBody "eth_chainId" (JArr [])); (10, 2%nat, sampleBody "eth_chainId" (JArr []));
   (20, 3%nat, sampleBody "eth_blockNumber" (JArr []))].

Definition sampleFlakyNet : nat -> nat * res exn jsval :=
  fun i => if Nat.ltb i 11 then (5%nat, RErr (TypeError "ECONNREFUSED")) else (5%nat, ROk sampleAnswer).

Lemma appjs_serve_answers_each_witness :
  let w := sampleWorld (mkStore ∅ None) sampleFlakyNet in
  (NoDup (req_ids sampleReqs) /\ Forall (fun rid => fresh_rid rid w = true) (req_ids sampleReqs)) /\
  exists reps, w_out (serve (HandlerAppJs.handlePost sampleCfg) w sampleReqs)
               = w_out w ++ zip (req_ids sampleReqs) reps /\ length reps = length sampleReqs.
Proof.
  intros w.
  assert (H1 : NoDup (req_ids sampleReqs)) by (apply (bool_decide_unpack _); vm_compute; reflexivity).
  assert (H2 : Forall (fun rid => fresh_rid rid w = true) (req_ids sampleReqs)) by (cbn; repeat constructor).
  split; [split; assumption|].
  exact (appjs_serve_answers_each sampleCfg w sampleReqs H1 H2).
Defined.

Lemma part000_serve_answers_each_witness :
  let w := sampleWorld (mkStore ∅ None) sampleFlakyNet in
  (NoDup (req_ids sampleReqs) /\ Forall (fun rid => fresh_rid rid w = true) (req_ids sampleReqs)) /\
  exists reps, w_out (serve (HandlerPart000.handlePost (fun _ => ROk JNull) sampleCfg) w sampleReqs)
               = w_out w ++ zip (req_ids sampleReqs) reps /\ length reps = length sampleReqs.
Proof.
  intros w.
  assert (H1 : NoDup (req_ids sampleReqs)) by (apply (bool_decide_unpack _); vm_compute; reflexivity).
  assert (H2 : Forall (fun rid => fresh_rid rid w = true) (req_ids sampleReqs)) by (cbn; repeat constructor).
  split; [split; assumption|].
  exact (part000_serve_answers_each (fun _ => ROk JNull) sampleCfg w sampleReqs H1 H2).
Defined.
