(* ===== verification/EventLoop.v ===== *)
(** * Requests interleaved by the event loop (part_000)

    The handler of [src/unnamed/part_000] (lines 171-218) is an [async]
    function: it gives the event loop back at each [await] that waits
    for a timer or for I/O, and other requests run meanwhile on the
    same globals.  Its [await]s that suspend are:
    - the duplicate delay, [await new Promise(... setTimeout ...)]
      (line 184);
    - the sqlite read [await getFromDb(key)] of [getResponseFromCache]
      (line 103), with a database and a key not in the map;
    - each [await axios.post(...)] of [upstreamHttpRequest] (line 228)
      and each back-off [await new Promise(... setTimeout ...)]
      (line 244).
    The other [await]s (on [getResponseFromCache] when it does not reach
    sqlite, and on [upstreamHttpRequest] itself) only wait for
    microtasks, which Node runs before the next timer or I/O callback, so
    they do not let another request in.

    A request is a [Thread]: its id, its body, the time it can resume
    and its [pc], the [await] it is suspended at (with the locals live
    there: the retries left, the timeout and the outcome of the post).
    [resume] runs the code from that [await] to the next one, as an [ST]
    computation over the [World] of [Coordinator], and returns the
    suspended thread, or [None] when the handler returned.  Timers and
    posts do not move the clock here: they give the wake-up time; the
    scheduler moves the clock when it resumes a thread.

    [sched_step] resumes the thread with the earliest wake-up time (the
    first one in the pool among equals: arrivals in arrival order, then
    continuations in the order they were suspended).  A handler that
    ends with an exception rejects its promise, which Express 4 does not
    handle: the [Section] variable [crash_on_rejection] says whether the
    process then dies (Node 15 and later, by default) or only logs it.
    [sched_run] iterates with fuel; [sys_budget] bounds the number of
    steps, which makes the run total (theorem [sched_terminates]).
    [th_wf] types a suspended thread by the locals of its [await] (the
    retries left and the timeout); every step keeps the pool typed. *)

From Stdlib Require Import ZArith String.
From stdpp Require Import base gmap strings list.
From S2P Require Import Prelude JsValue Runtime Policy Upstream CacheStore DuplicateDetector Coordinator.

Local Open Scope Z_scope.
Local Open Scope st_scope.

(** ** Node services that suspend *)

(** [setTimeout(resolve, d)]: arms the timer and gives its expiry. *)
Definition arm_timer (d : Z) : ST Env exn Z :=
  fun e => (ROk (env_now e + timer_delay d),
            {| env_now := env_now e; env_timers := env_timers e ++ [timer_delay d];
               env_random := env_random e; env_draws := env_draws e;
               env_net := env_net e; env_posts := env_posts e |}).

(** [axios.post(rpc, body)] sent: the time its promise settles, and how. *)
Definition post_issue (body : jsval) : ST Env exn (Z * res exn jsval) :=
  fun e => let '(lat, out) := env_net e (length (env_posts e)) in
    (ROk (env_now e + Z.of_nat lat, out),
     {| env_now := env_now e; env_timers := env_timers e;
        env_random := env_random e; env_draws := env_draws e;
        env_net := env_net e; env_posts := env_posts e ++ [body] |}).

(** ** Threads *)

Inductive pc : Type :=
| AtArrival
| AfterDupDelay
| AfterDbRead
| AfterPost (nrRetries : nat) (initialTimeoutMs : Z) (outcome : res exn jsval)
| AfterRetrySleep (nrRetries : nat) (initialTimeoutMs : Z).

Record Thread : Type := mkThread {
  th_rid : nat;
  th_body : jsval;
  th_wake : Z;
  th_pc : pc
}.

Definition suspend (th : Thread) (wake : Z) (p : pc) : ST World exn (option Thread) :=
  st_ret (Some (mkThread (th_rid th) (th_body th) wake p)).

Section Handler.
Variable json_parse : string -> res exn jsval.
Variable cfg : Config.

(** [upstreamHttpRequest], line 228: post and wait for the response. *)
Definition attempt (th : Thread) (nrRetries : nat) (initialTimeoutMs : Z) : ST World exn (option Thread) :=
  p <- on_env (post_issue (th_body th)) ;;
  suspend th (fst p) (AfterPost nrRetries initialTimeoutMs (snd p)).

(** Lines 199-217, once [upstreamHttpRequest] has settled with [r]. *)
Definition finish_forward (th : Thread) (r : res exn jsval) : ST World exn (option Thread) :=
  let rid := th_rid th in
  let body := th_body th in
  let cacheKey := getCacheKey body in
  st_catch
    (rpcRes <- lift_res r ;;
     incr_upstream ;;
     res_send rid 200 rpcRes ;;
     cache <- lift_res (Part000.shouldCache body) ;;
     if cache
     then result <- lift_res (js_get rpcRes "result") ;;
          now' <- on_env date_now ;;
          with_store (fun s => (tt, WithDb.writeResponseToCache now' cacheKey result s))
     else st_ret tt)
    (fun err => res_send rid 500 (exn_body err)) ;;
  incr_req ;;
  st_ret None.

(** The [catch] of [upstreamHttpRequest] (lines 229-248) after the post
    settled with [out]: the diagnostic's [TypeError] on an HTTP error
    answer settles the call at once, as the exhaustion does. *)
Definition after_post (th : Thread) (nrRetries : nat) (initialTimeoutMs : Z) (out : res exn jsval)
    : ST World exn (option Thread) :=
  match out with
  | ROk d => finish_forward th (ROk d)
  | RErr err =>
      match forwardedErr err with
      | RErr thrown => finish_forward th (RErr thrown)
      | ROk _ =>
          match nrRetries with
          | S nrRetries' =>
              wake <- on_env (arm_timer initialTimeoutMs) ;;
              suspend th wake (AfterRetrySleep nrRetries' (initialTimeoutMs * 2))
          | O => finish_forward th (RErr (ReferenceError "forwardErr"%string))
          end
      end
  end.

(** Lines 191-195 with the result of [getResponseFromCache]. *)
Definition after_read (th : Thread) (cachedResponse : option jsval) : ST World exn (option Thread) :=
  match cachedResponse with
  | Some r => res_send (th_rid th) 200 r ;; incr_cached ;; incr_req ;; st_ret None
  | None => attempt th DEFAULT_RETRIES DEFAULT_INITIAL_TIMEOUT_MS
  end.

(** [getResponseFromCache] run to its end (line 191). *)
Definition read_cache (th : Thread) : ST World exn (option Thread) :=
  let body := th_body th in
  now <- on_env date_now ;;
  cachedResponse <- with_store
    (WithDb.getResponseFromCache json_parse now (getCacheKey body)
       (Part000.cacheMaxAgeMs cfg (js_prop body "method")) (js_prop body "id")) ;;
  after_read th cachedResponse.

(** Lines 186-191: record the call, then read the cache; with a
    database and a key not in the map the read waits for sqlite. *)
Definition record_and_read (th : Thread) : ST World exn (option Thread) :=
  let key := getCacheKey (th_body th) in
  now' <- on_env date_now ;;
  on_dd (st_modify (fun s => (<[key := now']> (fst s), snd s))) ;;
  s <- st_gets (fun w => g_store (w_glob w)) ;;
  if (if st_cache s !! key is None then true else false) && (if st_db s is Some _ then true else false)
  then suspend th now' AfterDbRead
  else read_cache th.

(** Lines 177-185: the duplicate test and delay. *)
Definition arrival (th : Thread) : ST World exn (option Thread) :=
  let key := getCacheKey (th_body th) in
  now <- on_env date_now ;;
  dd <- st_gets (fun w => g_dd (w_glob w)) ;;
  if isDuplicate now key dd
  then u <- on_env math_random ;;
       wake <- on_env (arm_timer (duplicateDelay u)) ;;
       suspend th wake AfterDupDelay
  else record_and_read th.

(** Run a thread from its [await] to the next one. *)
Definition resume (th : Thread) : ST World exn (option Thread) :=
  match th_pc th with
  | AtArrival => arrival th
  | AfterDupDelay => record_and_read th
  | AfterDbRead => read_cache th
  | AfterPost n t out => after_post th n t out
  | AfterRetrySleep n t => attempt th n t
  end.
End Handler.

(** ** The scheduler *)

Record Sys : Type := mkSys {
  sys_world : World;
  sys_threads : list Thread;
  sys_crash : option exn
}.

(** The thread with the earliest wake-up time, the first among equals,
    and the others in their order. *)
Fixpoint split_min (l : list Thread) : option (Thread * list Thread) :=
  match l with
  | [] => None
  | th :: l' =>
      match split_min l' with
      | None => Some (th, [])
      | Some (m, rest) => if Z.leb (th_wake th) (th_wake m) then Some (th, l') else Some (m, th :: rest)
      end
  end.

Section Scheduler.
Variable json_parse : string -> res exn jsval.
Variable cfg : Config.
Variable crash_on_rejection : bool.

Definition sched_step (s : Sys) : option Sys :=
  if sys_crash s is Some _ then None else
  match split_min (sys_threads s) with
  | None => None
  | Some (th, rest) =>
      let '(r, w') := resume json_parse cfg th (arrive (th_wake th) (sys_world s)) in
      match r with
      | ROk None => Some (mkSys w' rest None)
      | ROk (Some th') => Some (mkSys w' (rest ++ [th']) None)
      | RErr e => Some (mkSys w' rest (if crash_on_rejection then Some e else None))
      end
  end.

Fixpoint sched_run (fuel : nat) (s : Sys) : Sys :=
  match fuel with
  | O => s
  | S fuel' => match sched_step s with Some s' => sched_run fuel' s' | None => s end
  end.
End Scheduler.

(** Requests [(t, rid, body)] as threads about to arrive. *)
Definition arrivals (reqs : list (Z * nat * jsval)) : list Thread :=
  (fun '(t, rid, body) => mkThread rid body t AtArrival) <$> reqs.

(** ** Termination measure *)

(** An upper bound on the resumptions left to a thread. *)
Definition pc_budget (p : pc) : nat :=
  match p with
  | AtArrival => 24
  | AfterDupDelay => 23
  | AfterDbRead => 22
  | AfterPost n _ _ => 2 * n + 1
  | AfterRetrySleep n _ => 2 * n + 2
  end.

Definition sys_budget (s : Sys) : nat := sum_list_with (fun th => pc_budget (th_pc th)) (sys_threads s).

(** ** What a segment suspends to *)

(** Every thread [m] can suspend to satisfies [P]. *)
Definition yields (P : Thread -> Prop) (m : ST World exn (option Thread)) : Prop :=
  forall w th', fst (m w) = ROk (Some th') -> P th'.

Lemma yields_bind {A} P (m : ST World exn A) (k : A -> ST World exn (option Thread)) :
  (forall a, yields P (k a)) -> yields P (st_bind m k).
Proof.
  intros Hk w th'. unfold st_bind. destruct (m w) as [[a|e] w1]; [apply Hk | discriminate].
Qed.

Lemma yields_none P : yields P (st_ret None).
Proof. discriminate. Qed.

Lemma yields_suspend (P : Thread -> Prop) th wake p :
  P (mkThread (th_rid th) (th_body th) wake p) -> yields P (suspend th wake p).
Proof. intros HP w th' [= <-]. exact HP. Qed.

(** Decompose a segment down to its [suspend]s and returns. *)
Ltac yields_tac :=
  repeat first
    [ apply yields_none
    | apply yields_suspend
    | apply yields_bind; intros
    | progress cbv zeta
    | match goal with
      | |- yields _ (if ?b then _ else _) => destruct b
      | |- yields _ (match ?x with _ => _ end) => destruct x
      end ].

(** A resumed thread suspends, if at all, as the same request with a
    smaller budget. *)
Definition smaller (th : Thread) (th' : Thread) : Prop :=
  th_rid th' = th_rid th /\ th_body th' = th_body th /\ (pc_budget (th_pc th') < pc_budget (th_pc th))%nat.

Lemma resume_smaller parse cfg th : yields (smaller th) (resume parse cfg th).
Proof.
  destruct th as [rid body wake p]. unfold resume; cbn [th_pc].
  destruct p as [| | |n t out|n t];
    unfold arrival, record_and_read, read_cache, after_read, attempt, after_post, finish_forward;
    yields_tac; unfold smaller; cbn; (split; [done|split; [done|]]); unfold DEFAULT_RETRIES; lia.
Qed.

Lemma pc_budget_pos p : (0 < pc_budget p)%nat.
Proof. destruct p; simpl; lia. Qed.

Lemma split_min_none l : split_min l = None -> l = [].
Proof.
  destruct l as [|th l]; [done|]. simpl. destruct (split_min l) as [[m r]|]; [|done].
  by destruct (Z.leb _ _).
Qed.

Lemma split_min_perm l th rest : split_min l = Some (th, rest) -> l ≡ₚ th :: rest.
Proof.
  revert th rest. induction l as [|x l IH]; intros th rest Hs; simpl in Hs; [done|].
  destruct (split_min l) as [[m r]|] eqn:Hl.
  - destruct (Z.leb _ _); simplify_eq; [done|]. rewrite (IH _ _ eq_refl). apply Permutation_swap.
  - simplify_eq. by rewrite (split_min_none l Hl).
Qed.

Lemma sched_step_none parse cfg c s :
  sched_step parse cfg c s = None -> sys_threads s = [] \/ sys_crash s <> None.
Proof.
  unfold sched_step. destruct (sys_crash s); [by right|].
  destruct (split_min (sys_threads s)) as [[th rest]|] eqn:Hs.
  - destruct (resume _ _ _ _) as [[[]|] w']; discriminate.
  - left. by apply split_min_none.
Qed.

(** Every step of the scheduler spends budget. *)
Lemma sched_step_budget parse cfg c s s' :
  sched_step parse cfg c s = Some s' -> (sys_budget s' < sys_budget s)%nat.
Proof.
  unfold sched_step. destruct (sys_crash s); [done|].
  destruct (split_min (sys_threads s)) as [[th rest]|] eqn:Hs; [|done].
  pose proof (resume_smaller parse cfg th (arrive (th_wake th) (sys_world s))) as Hsm.
  unfold sys_budget. rewrite (split_min_perm _ _ _ Hs). cbn [sum_list_with].
  destruct (resume _ _ _ _) as [r w']. cbn [fst] in Hsm.
  pose proof (pc_budget_pos (th_pc th)).
  destruct r as [[th'|]|e]; intros [= <-]; cbn [sys_threads].
  - destruct (Hsm th' eq_refl) as (_ & _ & Hlt). rewrite sum_list_with_app. simpl. lia.
  - lia.
  - lia.
Qed.

Lemma sched_run_final parse cfg c fuel s :
  (sys_budget s <= fuel)%nat -> sched_step parse cfg c (sched_run parse cfg c fuel s) = None.
Proof.
  revert s. induction fuel as [|fuel IH]; intros s Hb; simpl;
    destruct (sched_step parse cfg c s) as [s'|] eqn:Hstep; try done.
  - apply sched_step_budget in Hstep. lia.
  - apply IH. apply sched_step_budget in Hstep. lia.
Qed.

Lemma sys_budget_arrivals w reqs c : sys_budget (mkSys w (arrivals reqs) c) = (24 * length reqs)%nat.
Proof.
  unfold sys_budget. cbn [sys_threads].
  induction reqs as [|[[t rid] body] reqs IH]; [done|].
  change (pc_budget AtArrival + sum_list_with (fun th => pc_budget (th_pc th)) (arrivals reqs)
          = 24 * S (length reqs))%nat.
  rewrite IH. simpl. lia.
Qed.

(** ** A request alone in the event loop *)

Section Lone.
Variable parse : string -> res exn jsval.
Variable cfg : Config.
Variable c : bool.

Definition lone (f : nat) (th : Thread) (w : World) : World :=
  sys_world (sched_run parse cfg c f (mkSys w [th] None)).

Definition cont (f : nat) (m : ST World exn (option Thread)) (w : World) : World :=
  match m w with
  | (ROk (Some th'), w') => lone f th' w'
  | (_, w') => w'
  end.

Lemma sched_run_nil f w x : sched_run parse cfg c f (mkSys w [] x) = mkSys w [] x.
Proof. destruct f; simpl; [done|]. unfold sched_step; simpl. by destruct x. Qed.

Lemma lone_S f th w : lone (S f) th w = cont f (resume parse cfg th) (arrive (th_wake th) w).
Proof.
  unfold lone, cont. cbn [sched_run]. unfold sched_step. cbn [sys_crash sys_threads split_min sys_world].
  destruct (resume _ _ _ _) as [[[th'|]|e] w']; simpl; [done| |]; by rewrite sched_run_nil.
Qed.

Lemma cont_done f m w : yields (fun _ => False) m -> cont f m w = snd (m w).
Proof.
  intros H. unfold cont. specialize (H w).
  destruct (m w) as [[[th'|]|e] w']; [by exfalso; eapply H | done | done].
Qed.

Lemma finish_forward_done th r : yields (fun _ => False) (finish_forward th r).
Proof. unfold finish_forward. yields_tac. Qed.

Lemma finish_forward_same th th' r :
  th_rid th' = th_rid th -> th_body th' = th_body th -> finish_forward th' r = finish_forward th r.
Proof. intros Hr Hb. unfold finish_forward. by rewrite Hr, Hb. Qed.

Lemma arrive_set_env t e w : env_now e <= t ->
  arrive t (set_env e w) =
  set_env {| env_now := t; env_timers := env_timers e; env_random := env_random e;
             env_draws := env_draws e; env_net := env_net e; env_posts := env_posts e |} w.
Proof. intros H. unfold arrive, set_env. cbn. by rewrite Z.max_r by lia. Qed.

Lemma chain n t th w k :
  (2 * n + 1 <= k)%nat ->
  cont k (attempt th n t) w =
  let '(r, e') := upstreamHttpRequest (RPC cfg) (th_body th) n t (w_env w) in
  snd (finish_forward th r (set_env e' w)).
Proof.
  revert th t w k. induction n as [|n IH]; intros th t w k Hk;
    destruct k as [|k]; [lia| |lia|];
    unfold cont, attempt, st_bind, on_env, st_zoom, post_issue;
    destruct (env_net (w_env w) (length (env_posts (w_env w)))) as [lat out] eqn:Hnet;
    cbn [fst snd suspend st_ret]; rewrite lone_S; cbn [th_wake th_pc resume];
    rewrite arrive_set_env by (cbn; lia); cbn [env_now];
    destruct out as [d|err].
  - rewrite upstream_ok_step with (d := d) by (by rewrite Hnet).
    unfold after_post. rewrite cont_done by apply finish_forward_done.
    rewrite finish_forward_same with (th := th) by done. unfold env_post. rewrite Hnet. done.
  - unfold after_post. destruct (forwardedErr err) as [v|thrown] eqn:Hf.
    + rewrite upstream_fail_last with (err := err) (v := v) by (by rewrite ?Hnet).
      rewrite cont_done by apply finish_forward_done.
      rewrite finish_forward_same with (th := th) by done. unfold env_post. rewrite Hnet. done.
    + rewrite upstream_catch_throws with (err := err) (thrown := thrown) by (by rewrite ?Hnet).
      rewrite cont_done by apply finish_forward_done.
      rewrite finish_forward_same with (th := th) by done. unfold env_post. rewrite Hnet. done.
  - rewrite upstream_ok_step with (d := d) by (by rewrite Hnet).
    unfold after_post. rewrite cont_done by apply finish_forward_done.
    rewrite finish_forward_same with (th := th) by done. unfold env_post. rewrite Hnet. done.
  - unfold after_post. destruct (forwardedErr err) as [v|thrown] eqn:Hf.
    2:{ rewrite upstream_catch_throws with (err := err) (thrown := thrown) by (by rewrite ?Hnet).
        rewrite cont_done by apply finish_forward_done.
        rewrite finish_forward_same with (th := th) by done. unfold env_post. rewrite Hnet. done. }
    rewrite upstream_fail_step with (err := err) (v := v) by (by rewrite ?Hnet).
    unfold cont, st_bind, on_env, st_zoom, arm_timer. cbn [fst snd suspend st_ret].
    destruct k as [|k]; [lia|]. rewrite lone_S. cbn [th_wake th_pc resume].
    rewrite arrive_set_env by (cbn; pose proof (timer_delay_pos t); lia).
    rewrite IH by lia. cbn [th_body w_env set_env]. unfold env_sleep, env_post. rewrite Hnet. cbn.
    destruct (upstreamHttpRequest _ _ _ _ _) as [r e']. unfold set_env. cbn [w_glob w_out].
    rewrite finish_forward_same with (th := th) by done. done.
Qed.

Lemma forward_matches th k w :
  (21 <= k)%nat ->
  cont k (attempt th DEFAULT_RETRIES DEFAULT_INITIAL_TIMEOUT_MS) w =
  snd ((HandlerPart000.forwardToUpstream cfg (th_rid th) (th_body th) (getCacheKey (th_body th)) ;; incr_req) w).
Proof.
  intros Hk. rewrite chain by (unfold DEFAULT_RETRIES; lia).
  unfold HandlerPart000.forwardToUpstream, finish_forward, st_catch, st_bind, on_env, st_zoom, lift_res.
  cbv beta iota zeta.
  destruct (upstreamHttpRequest _ _ _ _ _) as [[d|e] e']; cbv beta iota zeta;
  lazymatch goal with |- snd (match ?X with _ => _ end) = _ => destruct X as [[[]|] ?] end; reflexivity.
Qed.

(** The sequential handler after its duplicate-detector stage. *)
Definition seq_tail (rid : nat) (body : jsval) : ST World exn unit :=
  now <- on_env date_now ;;
  cachedResponse <- with_store
    (WithDb.getResponseFromCache parse now (getCacheKey body)
       (Part000.cacheMaxAgeMs cfg (js_prop body "method")) (js_prop body "id")) ;;
  (match cachedResponse with
   | Some r => res_send rid 200 r ;; incr_cached
   | None => HandlerPart000.forwardToUpstream cfg rid body (getCacheKey body)
   end) ;;
  incr_req.

Lemma cont_bind_ok {A} k (m : ST World exn A) f w a w1 :
  m w = (ROk a, w1) -> cont k (st_bind m f) w = cont k (f a) w1.
Proof. intros H. unfold cont, st_bind. by rewrite H. Qed.

Lemma read_matches th k x :
  (21 <= k)%nat -> cont k (read_cache parse cfg th) x = snd (seq_tail (th_rid th) (th_body th) x).
Proof.
  intros Hk. unfold read_cache, seq_tail.
  rewrite (cont_bind_ok _ _ _ _ _ _ (date_now_run x)). st_run (date_now_run x).
  erewrite cont_bind_ok; [|apply with_store_run, surjective_pairing].
  st_run (with_store_run _ _ _ _ (surjective_pairing _)).
  destruct (fst _) as [r|]; unfold after_read.
  - rewrite cont_done by yields_tac. unfold st_bind. destruct (res_send _ _ _ _) as [[[]|] ?]; reflexivity.
  - rewrite forward_matches by done. reflexivity.
Qed.

(** The world once the call time is recorded for [key]. *)
Definition recorded (key : string) (x : World) : World :=
  let g := w_glob x in
  mkWorld (mkGlobals (g_store g) (<[key := env_now (w_env x)]> (g_dd g)) (httpReqCnt g)
             (httpUpstreamResCnt g) (httpCacheResCnt g)) (w_env x) (w_out x).

Lemma arrive_now x : arrive (env_now (w_env x)) x = x.
Proof. destruct x as [g [] o]. unfold arrive, set_env. cbn. by rewrite Z.max_id. Qed.

Lemma cont_suspend k th wake p w :
  cont (S k) (suspend th wake p) w
  = cont k (resume parse cfg (mkThread (th_rid th) (th_body th) wake p)) (arrive wake w).
Proof. unfold cont, suspend, st_ret. by rewrite lone_S. Qed.

Lemma record_matches th k x :
  (22 <= k)%nat ->
  cont k (record_and_read parse cfg th) x
  = snd (seq_tail (th_rid th) (th_body th) (recorded (getCacheKey (th_body th)) x)).
Proof.
  intros Hk. unfold record_and_read.
  rewrite (cont_bind_ok _ _ _ _ _ _ (date_now_run x)).
  erewrite cont_bind_ok; [|reflexivity]. erewrite cont_bind_ok; [|reflexivity].
  cbn [g_store w_glob recorded].
  destruct (_ && _).
  - destruct k as [|k]; [lia|]. rewrite cont_suspend. cbn [resume th_pc].
    change (env_now (w_env x)) with (env_now (w_env (recorded (getCacheKey (th_body th)) x))).
    rewrite arrive_now. by rewrite read_matches by lia.
  - by rewrite read_matches by lia.
Qed.
End Lone.

(** ** Answers under any interleaving *)

(** [m] does not throw and sends nothing. *)
Definition quiet {A} (m : ST World exn A) : Prop :=
  forall w, exists a w', m w = (ROk a, w') /\ w_out w' = w_out w.

(** Run on a world where [rid] is unanswered, a segment that suspends
    sends nothing, and one that ends (returns or throws) answers [rid]
    exactly once. *)
Definition seg_ok (rid : nat) (m : ST World exn (option Thread)) : Prop :=
  forall x, fresh_rid rid x = true ->
  match m x with
  | (ROk (Some _), x') => w_out x' = w_out x
  | (_, x') => exists rep, w_out x' = w_out x ++ [(rid, rep)]
  end.

Lemma quiet_on_env {A} (m : ST Env exn A) : (forall e, exists a e', m e = (ROk a, e')) -> quiet (on_env m).
Proof. intros H w. destruct (H (w_env w)) as (a & e' & He). exists a, (set_env e' w). unfold on_env, st_zoom. by rewrite He. Qed.

Lemma quiet_gets {A} (f : World -> A) : quiet (st_gets f).
Proof. intros w. by exists (f w), w. Qed.

Lemma quiet_on_dd_modify f : quiet (on_dd (st_modify f)).
Proof. intros w. by eexists _, _. Qed.

Lemma quiet_with_store {A} (f : Store -> A * Store) : quiet (with_store f).
Proof. intros w. unfold with_store. destruct (f _) as [a s']. by eexists _, _. Qed.

Lemma seg_ok_bind {A} rid (m : ST World exn A) k :
  quiet m -> (forall a, seg_ok rid (k a)) -> seg_ok rid (st_bind m k).
Proof.
  intros Hm Hk x Hf. destruct (Hm x) as (a & x1 & Hx & Ho). unfold st_bind. rewrite Hx.
  specialize (Hk a x1). rewrite (fresh_rid_out rid x x1 Ho), Ho in Hk. by apply Hk.
Qed.

Lemma seg_ok_suspend rid th wake p : seg_ok rid (suspend th wake p).
Proof. by intros x _. Qed.

Lemma seg_ok_finish th r : seg_ok (th_rid th) (finish_forward th r).
Proof.
  intros x Hf. unfold finish_forward. cbv zeta.
  pose proof (forward_block_reply (lift_res r) (th_rid th)
    (fun rpcRes => cache <- lift_res (Part000.shouldCache (th_body th)) ;;
       if cache then result <- lift_res (js_get rpcRes "result") ;; now' <- on_env date_now ;;
            with_store (fun s => (tt, WithDb.writeResponseToCache now' (getCacheKey (th_body th)) result s))
       else st_ret tt) x) as H.
  unfold replies_once, forward_block in H.
  unfold st_bind at 1. destruct (st_catch _ _ x) as [r1 x1].
  destruct H as [[rep Hrep] Hr]; [auto with rpc | intros d; auto 10 with rpc | exact Hf |].
  destruct Hr as [-> | ->]; cbn; by exists rep.
Qed.

Lemma seg_ok_hit rid r : seg_ok rid (res_send rid 200 r ;; incr_cached ;; incr_req ;; st_ret None).
Proof.
  intros x Hf. unfold st_bind. rewrite res_send_fresh by exact Hf. cbn. by eexists.
Qed.

Ltac quiet_tac :=
  first [ apply quiet_gets | apply quiet_on_dd_modify | apply quiet_with_store
        | apply quiet_on_env; let e := fresh "e" in intros e; unfold post_issue;
          try destruct (env_net e _); eexists _, _; reflexivity ].

Ltac seg_tac :=
  repeat first
    [ apply seg_ok_suspend
    | apply seg_ok_hit
    | apply seg_ok_finish
    | apply seg_ok_bind; [quiet_tac | intros]
    | progress cbv zeta
    | match goal with
      | |- seg_ok _ (if ?b then _ else _) => destruct b
      | |- seg_ok _ (match ?x with _ => _ end) => destruct x
      end ].

Lemma resume_seg parse cfg th : seg_ok (th_rid th) (resume parse cfg th).
Proof.
  destruct th as [rid body wake p]. unfold resume; cbn [th_pc].
  destruct p as [| | |n t out|n t];
    unfold arrival, record_and_read, read_cache, after_read, attempt, after_post; seg_tac.
Qed.

Lemma fresh_rid_not_in rid w : fresh_rid rid w = true <-> rid ∉ fst <$> w_out w.
Proof.
  unfold fresh_rid. rewrite negb_true_iff, <- not_true_iff_false, existsb_exists, list_elem_of_fmap.
  split; intros H Hin; apply H.
  - destruct Hin as (p & -> & Hp). exists p. split; [by apply list_elem_of_In | apply Nat.eqb_refl].
  - destruct Hin as (p & Hp & Heq). apply Nat.eqb_eq in Heq. exists p. split; [done | by apply list_elem_of_In].
Qed.

(** The replies sent since [o0] and the requests still pending are,
    together, the requests [ids], each once. *)
Definition sys_inv (o0 : list (nat * Reply)) (ids : list nat) (s : Sys) : Prop :=
  exists answers, w_out (sys_world s) = o0 ++ answers /\
    (fst <$> answers) ++ (th_rid <$> sys_threads s) ≡ₚ ids.

Section Inv.
Context (o0 : list (nat * Reply)) (ids : list nat).
Hypothesis Hnd : NoDup ids.
Hypothesis Hnew : Forall (fun i => i ∉ fst <$> o0) ids.

Lemma sys_inv_pending_fresh s th :
  sys_inv o0 ids s -> th ∈ sys_threads s -> fresh_rid (th_rid th) (sys_world s) = true.
Proof.
  intros (ans & Ho & Hp) Hth. apply fresh_rid_not_in. rewrite Ho, fmap_app, elem_of_app.
  assert (Hin : th_rid th ∈ th_rid <$> sys_threads s) by (apply list_elem_of_fmap; by exists th).
  assert (Hids : th_rid th ∈ ids) by (rewrite <- Hp; apply elem_of_app; by right).
  intros [Hin0|Hin1].
  - eapply Forall_forall in Hnew; [|exact Hids]. contradiction.
  - rewrite <- Hp in Hnd. apply NoDup_app in Hnd as (_ & Hdis & _). by apply (Hdis _ Hin1).
Qed.

Lemma sys_inv_step parse cfg c s s' :
  sys_inv o0 ids s -> sched_step parse cfg c s = Some s' -> sys_inv o0 ids s'.
Proof.
  intros Hinv Hstep. pose proof Hinv as (ans & Ho & Hp). unfold sched_step in Hstep.
  destruct (sys_crash s); [done|].
  destruct (split_min (sys_threads s)) as [[th rest]|] eqn:Hs; [|done].
  pose proof (split_min_perm _ _ _ Hs) as Hperm.
  assert (Hf : fresh_rid (th_rid th) (arrive (th_wake th) (sys_world s)) = true).
  { rewrite (fresh_rid_out _ (sys_world s)) by done.
    apply sys_inv_pending_fresh; [done|]. rewrite Hperm. by left. }
  pose proof (resume_seg parse cfg th _ Hf) as Hseg.
  pose proof (resume_smaller parse cfg th (arrive (th_wake th) (sys_world s))) as Hsm.
  destruct (resume _ _ _ _) as [r w']. cbn [fst w_out arrive set_env] in Hsm, Hseg.
  rewrite Hperm in Hp. cbn [fmap list_fmap] in Hp.
  destruct r as [[th'|]|e]; injection Hstep as <-; unfold sys_inv; cbn [sys_world sys_threads].
  - exists ans. split; [by rewrite Hseg|]. destruct (Hsm th' eq_refl) as (Hrid & _).
    rewrite <- Hp, fmap_app. cbn. rewrite Hrid. apply Permutation_app_head. symmetry. apply Permutation_cons_append.
  - destruct Hseg as [rep Hrep]. exists (ans ++ [(th_rid th, rep)]).
    split; [by rewrite Hrep, Ho, app_assoc|]. rewrite <- Hp, fmap_app, <- app_assoc. done.
  - destruct Hseg as [rep Hrep]. exists (ans ++ [(th_rid th, rep)]).
    split; [by rewrite Hrep, Ho, app_assoc|]. rewrite <- Hp, fmap_app, <- app_assoc. done.
Qed.

Lemma sys_inv_run parse cfg c fuel s : sys_inv o0 ids s -> sys_inv o0 ids (sched_run parse cfg c fuel s).
Proof.
  revert s. induction fuel as [|fuel IH]; intros s Hs; [done|]. simpl.
  destruct (sched_step parse cfg c s) as [s'|] eqn:Hstep; [|done]. apply IH. by eapply sys_inv_step.
Qed.
End Inv.

Lemma sched_run_no_crash parse cfg fuel s :
  sys_crash s = None -> sys_crash (sched_run parse cfg false fuel s) = None.
Proof.
  revert s. induction fuel as [|fuel IH]; intros s Hs; [done|]. simpl.
  destruct (sched_step parse cfg false s) as [s'|] eqn:Hstep; [|done]. apply IH.
  unfold sched_step in Hstep. rewrite Hs in Hstep.
  destruct (split_min _) as [[th rest]|]; [|done].
  destruct (resume _ _ _ _) as [[[]|] w']; by injection Hstep as <-.
Qed.

Lemma arrivals_rids reqs : th_rid <$> arrivals reqs = req_ids reqs.
Proof. induction reqs as [|[[t rid] body] reqs IH]; [done|]. cbn. by f_equal. Qed.

(** ** Thread typing *)

(** The locals a suspended thread carries, as the code gives them: after
    a post the retries left are at most [nrRetries = 10] and the timeout
    is [initialTimeoutMs] doubled once per retry spent; a back-off sleep
    happens with a retry still left. *)
Definition th_wf (th : Thread) : Prop :=
  match th_pc th with
  | AtArrival | AfterDupDelay | AfterDbRead => True
  | AfterPost n t _ => (n <= DEFAULT_RETRIES)%nat /\ t = DEFAULT_INITIAL_TIMEOUT_MS * 2 ^ (10 - Z.of_nat n)
  | AfterRetrySleep n t => (n < DEFAULT_RETRIES)%nat /\ t = DEFAULT_INITIAL_TIMEOUT_MS * 2 ^ (10 - Z.of_nat n)
  end.

Lemma backoff_double n :
  (S n <= DEFAULT_RETRIES)%nat ->
  DEFAULT_INITIAL_TIMEOUT_MS * 2 ^ (10 - Z.of_nat (S n)) * 2 = DEFAULT_INITIAL_TIMEOUT_MS * 2 ^ (10 - Z.of_nat n).
Proof.
  unfold DEFAULT_RETRIES. intros Hn. replace (10 - Z.of_nat n) with (Z.succ (10 - Z.of_nat (S n))) by lia.
  rewrite Z.pow_succ_r by lia. lia.
Qed.

Lemma resume_wf parse cfg th : th_wf th -> yields th_wf (resume parse cfg th).
Proof.
  destruct th as [rid body wake p]. unfold th_wf at 1, resume; cbn [th_pc]. intros Hwf.
  destruct p as [| | |n t out|n t];
    unfold arrival, record_and_read, read_cache, after_read, attempt, after_post, finish_forward;
    yields_tac; unfold th_wf; cbn [th_pc]; try done; try (split; [done | reflexivity]).
  - destruct Hwf as [Hn ->]. split; [unfold DEFAULT_RETRIES in *; lia|]. by apply backoff_double.
  - destruct Hwf as [Hn ->]. split; [lia|done].
Qed.

(** Every step of the scheduler keeps the pool well typed. *)
Lemma sched_step_wf parse cfg c s s' :
  Forall th_wf (sys_threads s) -> sched_step parse cfg c s = Some s' -> Forall th_wf (sys_threads s').
Proof.
  intros Hwf. unfold sched_step. destruct (sys_crash s); [done|].
  destruct (split_min (sys_threads s)) as [[th rest]|] eqn:Hs; [|done].
  rewrite (split_min_perm _ _ _ Hs) in Hwf. apply Forall_cons in Hwf as [Hth Hrest].
  pose proof (resume_wf parse cfg th Hth (arrive (th_wake th) (sys_world s))) as Hy.
  destruct (resume _ _ _ _) as [r w']. cbn [fst] in Hy.
  destruct r as [[th'|]|e]; intros [= <-]; cbn [sys_threads]; [|done..].
  apply Forall_app. split; [done|]. constructor; [by apply Hy|done].
Qed.

Lemma sched_run_wf parse cfg c fuel s :
  Forall th_wf (sys_threads s) -> Forall th_wf (sys_threads (sched_run parse cfg c fuel s)).
Proof.
  revert s. induction fuel as [|fuel IH]; intros s Hwf; [done|]. cbn [sched_run].
  destruct (sched_step parse cfg c s) as [s'|] eqn:Hs; [|done]. apply IH. by eapply sched_step_wf.
Qed.

(** ** Theorems *)

(** C12. Termination: the event loop runs dry.  With fuel at least the
    budget of the pool (24 resumptions for a request that has not
    arrived yet: the arrival, the duplicate delay, the sqlite read, and
    at most 11 posts and 10 back-off sleeps), every request has run to
    the end of its handler, or a rejected handler has ended the
    process. *)
Theorem sched_terminates parse cfg c fuel s :
  (sys_budget s <= fuel)%nat ->
  sys_threads (sched_run parse cfg c fuel s) = [] \/ sys_crash (sched_run parse cfg c fuel s) <> None.
Proof. intros Hb. apply sched_step_none with parse cfg c. by apply sched_run_final. Qed.

(** C11. A request alone in the event loop: run by the scheduler from its
    arrival, with the budget of one request, it leaves the world exactly
    as the sequential handler of [Coordinator] does, whatever the
    duplicate map, the store, the upstream or the random draws. *)
Theorem lone_request_matches_handler parse cfg c rid body t w :
  sys_world (sched_run parse cfg c 24 (mkSys w [mkThread rid body t AtArrival] None))
  = snd (HandlerPart000.handlePost parse cfg rid body (arrive t w)).
Proof.
  change (sys_world _) with (lone parse cfg c 24 (mkThread rid body t AtArrival) w).
  rewrite lone_S. cbn [th_wake th_pc resume]. set (w1 := arrive t w).
  unfold HandlerPart000.handlePost. st_run (on_dd_throttle (getCacheKey body) w1). cbv beta zeta.
  fold (seq_tail parse cfg rid body).
  unfold arrival. cbv beta zeta. erewrite cont_bind_ok; [|apply date_now_run].
  erewrite cont_bind_ok; [|reflexivity]. cbn [th_body].
  destruct (isDuplicate _ _ _) eqn:Hdup.
  - erewrite cont_bind_ok; [|reflexivity]. erewrite cont_bind_ok; [|reflexivity].
    rewrite cont_suspend. cbn [resume th_pc th_rid th_body].
    rewrite arrive_set_env by (cbn; match goal with |- _ <= _ + timer_delay ?d => pose proof (timer_delay_pos d) end; lia).
    rewrite record_matches by lia. f_equal. unfold recorded, throttled, throttle_env. rewrite Hdup. reflexivity.
  - rewrite record_matches by lia. f_equal. unfold recorded, throttled, throttle_env. by rewrite Hdup.
Qed.

(** C10. Interleaved requests are each answered exactly once: requests
    with distinct ids not answered yet, arriving at any times and
    interleaved by the event loop at their [await]s in any way the
    upstream's latencies and the timers produce, each receive exactly
    one reply, when a rejected handler does not end the process. *)
Theorem interleaved_requests_answered_once parse cfg w reqs fuel :
  NoDup (req_ids reqs) -> Forall (fun rid => fresh_rid rid w = true) (req_ids reqs) ->
  (24 * length reqs <= fuel)%nat ->
  exists answers,
    w_out (sys_world (sched_run parse cfg false fuel (mkSys w (arrivals reqs) None))) = w_out w ++ answers /\
    fst <$> answers ≡ₚ req_ids reqs.
Proof.
  intros Hnd Hfr Hfuel.
  assert (Hnew : Forall (fun i => i ∉ fst <$> w_out w) (req_ids reqs)).
  { eapply Forall_impl; [exact Hfr|]. intros i Hi. by apply fresh_rid_not_in. }
  assert (Hinv : sys_inv (w_out w) (req_ids reqs) (mkSys w (arrivals reqs) None)).
  { exists []. rewrite app_nil_r. split; [done|]. cbn. by rewrite arrivals_rids. }
  pose proof (sys_inv_run _ _ Hnd Hnew parse cfg false fuel _ Hinv) as (ans & Ho & Hp).
  exists ans. split; [done|].
  destruct (sched_step_none parse cfg false _ (sched_run_final parse cfg false fuel (mkSys w (arrivals reqs) None)
              ltac:(by rewrite sys_budget_arrivals))) as [Hnil|Hcr].
  - by rewrite Hnil, app_nil_r in Hp.
  - by rewrite sched_run_no_crash in Hcr.
Qed.

(** ** Witnesses *)

Definition sampleSys : Sys := mkSys (sampleWorld (mkStore ∅ None) sampleFlakyNet) (arrivals sampleReqs) None.

Lemma sched_terminates_witness :
  (sys_budget sampleSys <= 72)%nat /\
  (sys_threads (sched_run (fun _ => ROk JNull) sampleCfg true 72 sampleSys) = [] \/
   sys_crash (sched_run (fun _ => ROk JNull) sampleCfg true 72 sampleSys) <> None).
Proof.
  assert (H : (sys_budget sampleSys <= 72)%nat) by (unfold sampleSys; rewrite sys_budget_arrivals; simpl; lia).
  split; [exact H|]. exact (sched_terminates (fun _ => ROk JNull) sampleCfg true 72 sampleSys H).
Defined.

Lemma interleaved_requests_answered_once_witness :
  let w := sampleWorld (mkStore ∅ None) sampleFlakyNet in
  (NoDup (req_ids sampleReqs) /\ Forall (fun rid => fresh_rid rid w = true) (req_ids sampleReqs) /\
   (24 * length sampleReqs <= 72)%nat) /\
  exists answers,
    w_out (sys_world (sched_run (fun _ => ROk JNull) sampleCfg false 72 (mkSys w (arrivals sampleReqs) None)))
    = w_out w ++ answers /\ fst <$> answers ≡ₚ req_ids sampleReqs.
Proof.
  intros w.
  assert (H1 : NoDup (req_ids sampleReqs)) by (apply (bool_decide_unpack _); vm_compute; reflexivity).
  assert (H2 : Forall (fun rid => fresh_rid rid w = true) (req_ids sampleReqs)) by (cbn; repeat constructor).
  assert (H3 : (24 * length sampleReqs <= 72)%nat) by (simpl; lia).
  split; [split_and!; assumption|].
  exact (interleaved_requests_answered_once (fun _ => ROk JNull) sampleCfg w sampleReqs 72 H1 H2 H3).
Defined.

(** C15. Every thread the event loop holds, at any point of any run from
    requests that arrive, is well typed: a request waiting for its post
    has at most the 10 retries of [upstreamHttpRequest] left and a
    timeout of [2000 * 2^(10 - n)] ms, one waiting for its back-off has
    a retry left; whatever the upstream, the cache and the interleaving
    do. *)
Theorem sched_threads_well_typed parse cfg c fuel w reqs :
  Forall th_wf (sys_threads (sched_run parse cfg c fuel (mkSys w (arrivals reqs) None))).
Proof.
  apply sched_run_wf. cbn [sys_threads]. apply Forall_forall. intros th Hth.
  apply list_elem_of_fmap in Hth as ([[t rid] body] & -> & _). done.
Qed.
