(* ===== verification/Stats.v ===== *)
(** * The statistics printer

    [printStats] of both versions over the console and the process:
    [src/app.js] lines 56-68 (run on [SIGINT] and on [GET /printstats],
    line 128; it ends with [process.exit()]) and
    [src/unnamed/part_000] lines 45-69 ([printStats] on
    [GET /printstats], line 169, [printStatsAndExit] on [SIGINT]).

    A [Proc] holds the lines printed so far, whether the process runs,
    and the number of sqlite queries whose callback has not run.  In
    database mode part_000 asks [SELECT COUNT( * )] and prints the count in
    the callback, which the event loop runs later ([count_callback]);
    [process.exit()] is synchronous, so after it no callback runs.

    [for (const key of cache.keys())] visits the map in insertion order;
    the map is a [gmap] here, so the per-key lines are listed in the
    order of [map_to_list] and the theorems speak of their count and
    membership, not of their order. *)

From Stdlib Require Import ZArith String.
From stdpp Require Import base gmap strings list.
From S2P Require Import Prelude JsValue CacheStore Coordinator.

Local Open Scope string_scope.

Inductive pstatus : Type :=
| Running
| Exited
| Crashed (e : exn).

Record Proc : Type := mkProc { p_log : list string; p_status : pstatus; p_pending : nat }.

(** [console.log] of each line, in order. *)
Definition console_log (lines : list string) (p : Proc) : Proc :=
  mkProc (p_log p ++ lines) (p_status p) (p_pending p).

Definition process_exit (p : Proc) : Proc := mkProc (p_log p) Exited (p_pending p).

(** A number in a template literal. *)
Definition nat_dec (n : nat) : string := Z_to_dec (Z.of_nat n).

Definition counter_lines (g : Globals) : list string :=
  ["stats:"; "nr http requests processed: " ++ nat_dec (httpReqCnt g);
   "nr http upstream responses: " ++ nat_dec (httpUpstreamResCnt g);
   "nr http cached responses: " ++ nat_dec (httpCacheResCnt g)].

Definition key_line (key : string) (value : CacheEntry) : string :=
  "key " ++ key ++ ": " ++ nat_dec (readCnt value) ++ " reads, " ++ nat_dec (writeCnt value) ++ " writes".

Definition cache_lines (cache : Cache) : list string :=
  (fun kv => key_line kv.1 kv.2) <$> map_to_list cache.

Module StatsAppJs.
Definition printStats (g : Globals) (p : Proc) : Proc :=
  process_exit (console_log (counter_lines g ++ "cache stats:" :: cache_lines (st_cache (g_store g))) p).
End StatsAppJs.

Module StatsPart000.
Definition printStats (g : Globals) (p : Proc) : Proc :=
  let p := console_log (counter_lines g) p in
  match st_db (g_store g) with
  | Some _ =>
      let p := console_log ["DB cache stats:"] p in
      mkProc (p_log p) (p_status p) (S (p_pending p))
  | None => console_log ("in-memory cache stats:" :: cache_lines (st_cache (g_store g))) p
  end.

Definition printStatsAndExit (g : Globals) (p : Proc) : Proc := process_exit (printStats g p).
End StatsPart000.

(** The callback of [SELECT COUNT( * ) as count FROM data], run by the
    event loop while the process runs, on the table as it is then;
    [if (err) throw err] in a callback is an uncaught exception, which
    ends the process. *)
Definition count_callback (db : Db) (p : Proc) : Proc :=
  match p_status p, p_pending p with
  | Running, S n =>
      if db_table db
      then mkProc (p_log p ++ ["DB contains " ++ nat_dec (size (db_rows db)) ++ " entries"]) Running n
      else mkProc (p_log p) (Crashed (DbError "SQLITE_ERROR: no such table: data")) n
  | _, _ => p
  end.

Local Close Scope string_scope.

(** ** Lemmas *)

Lemma cache_lines_length c : length (cache_lines c) = size c.
Proof. unfold cache_lines. by rewrite length_fmap, length_map_to_list. Qed.

Lemma cache_lines_elem c k v : c !! k = Some v -> key_line k v ∈ cache_lines c.
Proof.
  intros H. unfold cache_lines. apply list_elem_of_fmap.
  exists (k, v). split; [done|]. by apply elem_of_map_to_list.
Qed.

(** Only a running process runs callbacks. *)
Lemma count_callback_stopped db p : p_status p <> Running -> count_callback db p = p.
Proof. unfold count_callback. destruct (p_status p); [done|..]; by destruct (p_pending p). Qed.

Lemma count_callback_iter_stopped db n p :
  p_status p <> Running -> Nat.iter n (count_callback db) p = p.
Proof.
  intros H. induction n as [|n IH]; [done|]. rewrite Nat.iter_succ, IH. by apply count_callback_stopped.
Qed.

(** ** Theorems *)

(** C30. part_000 on [SIGINT] in database mode: the counters and the header
    are printed, then the process exits before the [COUNT( * )] callback
    can run, so the number of stored entries is never printed, whatever
    the table holds and however many events follow. *)
Theorem part000_sigint_db_count_lost g p db0 db n :
  st_db (g_store g) = Some db0 ->
  p_log (Nat.iter n (count_callback db) (StatsPart000.printStatsAndExit g p))
  = p_log p ++ counter_lines g ++ ["DB cache stats:"]%string.
Proof.
  intros Hdb. rewrite count_callback_iter_stopped.
  - unfold StatsPart000.printStatsAndExit, StatsPart000.printStats. rewrite Hdb. cbn. by rewrite <- app_assoc.
  - unfold StatsPart000.printStatsAndExit. done.
Qed.

(** C31. part_000 on [GET /printstats] in database mode: the process keeps
    running; when the query's callback runs, the number of rows is
    printed after the header, or, if the table does not exist yet, the
    error is thrown in the callback and the process crashes. *)
Theorem part000_printstats_db_on_demand g p db0 db :
  st_db (g_store g) = Some db0 -> p_status p = Running -> p_pending p = 0%nat ->
  let p' := count_callback db (StatsPart000.printStats g p) in
  p_pending p' = 0%nat /\
  if db_table db
  then p_status p' = Running /\
       p_log p' = p_log p ++ counter_lines g ++
                  ["DB cache stats:"; "DB contains " ++ nat_dec (size (db_rows db)) ++ " entries"]%string
  else p_status p' = Crashed (DbError "SQLITE_ERROR: no such table: data"%string) /\
       p_log p' = p_log p ++ counter_lines g ++ ["DB cache stats:"]%string.
Proof.
  intros Hdb Hrun Hpend. unfold StatsPart000.printStats. rewrite Hdb.
  unfold count_callback. cbn [console_log p_status p_pending p_log]. rewrite Hrun.
  destruct (db_table db); cbn; (split; [done|]); by rewrite <- !app_assoc.
Qed.

(** part_000 on [GET /printstats] without a database: the process keeps
    running, nothing is left pending, and the counters, a header and one
    line per map entry (its read and write counts) are printed. *)
Theorem part000_printstats_memory g p :
  st_db (g_store g) = None ->
  let p' := StatsPart000.printStats g p in
  p_status p' = p_status p /\ p_pending p' = p_pending p /\
  take (length (p_log p) + 4) (p_log p') = p_log p ++ counter_lines g /\
  length (p_log p') = (length (p_log p) + 5 + size (st_cache (g_store g)))%nat /\
  (forall k v, st_cache (g_store g) !! k = Some v -> key_line k v ∈ p_log p').
Proof.
  intros Hdb p'. unfold p', StatsPart000.printStats. rewrite Hdb. cbn [console_log p_log p_status p_pending].
  split_and!; [done | done | | |].
  - rewrite take_app_length'; [done|]. rewrite length_app. done.
  - rewrite !length_app. cbn [length counter_lines]. rewrite cache_lines_length. lia.
  - intros k v Hk. apply elem_of_app. right. apply elem_of_cons. right. by apply cache_lines_elem.
Qed.

(** ** Witnesses *)

Definition sampleGlobals (db : option Db) : Globals :=
  mkGlobals (mkStore {["eth_chainId[]"%string := mkEntry 0 (JStr "0x1"%string) 3 1]} db) ∅ 4 1 3.

Definition sampleProc : Proc := mkProc [] Running 0.

Lemma part000_sigint_db_count_lost_witness :
  let db := mkDb true {["k"%string := mkRow (Some "1"%string) 0]} in
  st_db (g_store (sampleGlobals (Some db))) = Some db /\
  p_log (Nat.iter 3 (count_callback db) (StatsPart000.printStatsAndExit (sampleGlobals (Some db)) sampleProc))
  = p_log sampleProc ++ counter_lines (sampleGlobals (Some db)) ++ ["DB cache stats:"]%string.
Proof.
  intros db. assert (H : st_db (g_store (sampleGlobals (Some db))) = Some db) by reflexivity.
  split; [exact H|]. exact (part000_sigint_db_count_lost _ sampleProc db db 3 H).
Defined.

Lemma part000_printstats_db_on_demand_witness :
  let db := mkDb true {["k"%string := mkRow (Some "1"%string) 0]} in
  (st_db (g_store (sampleGlobals (Some db))) = Some db /\ p_status sampleProc = Running /\
   p_pending sampleProc = 0%nat) /\
  let p' := count_callback db (StatsPart000.printStats (sampleGlobals (Some db)) sampleProc) in
  p_pending p' = 0%nat /\
  if db_table db
  then p_status p' = Running /\
       p_log p' = p_log sampleProc ++ counter_lines (sampleGlobals (Some db)) ++
                  ["DB cache stats:"; "DB contains " ++ nat_dec (size (db_rows db)) ++ " entries"]%string
  else p_status p' = Crashed (DbError "SQLITE_ERROR: no such table: data"%string) /\
       p_log p' = p_log sampleProc ++ counter_lines (sampleGlobals (Some db)) ++ ["DB cache stats:"]%string.
Proof.
  intros db.
  assert (H1 : st_db (g_store (sampleGlobals (Some db))) = Some db) by reflexivity.
  assert (H2 : p_status sampleProc = Running) by reflexivity.
  assert (H3 : p_pending sampleProc = 0%nat) by reflexivity.
  split; [split_and!; assumption|].
  exact (part000_printstats_db_on_demand _ sampleProc db db H1 H2 H3).
Defined.

Lemma part000_printstats_memory_witness :
  st_db (g_store (sampleGlobals None)) = None /\
  let p' := StatsPart000.printStats (sampleGlobals None) sampleProc in
  p_status p' = p_status sampleProc /\ p_pending p' = p_pending sampleProc /\
  take (length (p_log sampleProc) + 4) (p_log p') = p_log sampleProc ++ counter_lines (sampleGlobals None) /\
  length (p_log p') = (length (p_log sampleProc) + 5 + size (st_cache (g_store (sampleGlobals None))))%nat /\
  (forall k v, st_cache (g_store (sampleGlobals None)) !! k = Some v -> key_line k v ∈ p_log p').
Proof.
  assert (H : st_db (g_store (sampleGlobals None)) = None) by reflexivity.
  split; [exact H|]. exact (part000_printstats_memory (sampleGlobals None) sampleProc H).
Defined.
