(* ===== verification/WsRelay.v ===== *)
(** * The websocket relay and the choice of mode

    At start-up the scheme of [RPC] selects the mode ([src/app.js] lines
    40-48, [src/unnamed/part_000] lines 29-37): [ws:] and [wss:] start
    the relay [handleWsConnection] (app.js lines 212-243, part_000 lines
    256-287), anything else the HTTP server.

    The relay holds one upstream socket [client] and a listening
    [server].  Each accepted connection gets the next [connId], a
    [message] handler that sends the frame to [client], and a new
    [message] handler on [client] that sends every upstream frame to that
    connection.  Nothing is ever removed: a closed connection keeps its
    handler on [client].

    The relay is a step function on a [Relay] state over the events the
    runtime delivers.  Three behaviours come from the [ws] library, not
    from the repository: [send] on a socket still connecting throws
    ("WebSocket is not open"), here in an event handler, so the process
    crashes; [send] on a closed socket drops the frame (with an error
    passed to the callback when there is one, which the relay logs);
    a closed connection emits no more messages.  An [error] of the
    server (the port is taken) changes nothing; its [close] event comes
    only from [server.close()], which the program never calls.  The
    upstream socket [client] has no ['error'] listener: an error on it
    (the connection refused, a protocol error) is thrown by [emit] as an
    uncaught exception and ends the process; [ws] has set the socket to
    [CLOSING] before it emits, so the crashed state has it [Closed].

    Frames are the strings [data.toString()] gives: [ws] checks that a
    text frame is valid UTF-8 (it closes the connection with 1007
    otherwise), so for text frames the decoding is exact; a binary frame
    that is not valid UTF-8 would be changed by the decoding (U+FFFD
    replacements), and binary frames are not modelled. *)

From Stdlib Require Import String.
From stdpp Require Import base list strings.
From S2P Require Import Prelude.

Inductive mode : Type := HttpMode | WsMode.

(** [rpcUrl.protocol === "ws:" || rpcUrl.protocol === "wss:"] *)
Definition selectMode (protocol : string) : mode :=
  if String.eqb protocol "ws:" || String.eqb protocol "wss:" then WsMode else HttpMode.

(** The state of the upstream socket [client]. *)
Inductive sock : Type := Connecting | Open | Closed.

Record Relay : Type := mkRelay {
  connCnt : nat;                  (** the counter [connCnt] *)
  listeners : list nat;           (** the connections whose handler is on [client], in order *)
  closed : list nat;              (** the client connections closed so far *)
  upstream : sock;
  up_sent : list string;          (** frames sent to the upstream, in order *)
  delivered : list (nat * string); (** frames sent to client connections, in order *)
  crashed : option string         (** the uncaught error that ended the process *)
}.

Inductive ws_event : Type :=
| WsConnection                      (** [server.on("connection")] *)
| ConnMessage (connId : nat) (data : string) (** [conn.on("message")] *)
| ConnClose (connId : nat)
| UpstreamOpen                      (** [client.once("open")] *)
| UpstreamMessage (msg : string)    (** [client.on("message")] *)
| UpstreamClose
| UpstreamError (err : string)      (** an ['error'] of [client], which has no listener *)
| ServerError (err : string).       (** [server.on("error")], with the text [`${err}`] *)

Definition relayInit : Relay := mkRelay 0 [] [] Connecting [] [] None.

Definition conn_open (r : Relay) (i : nat) : bool :=
  Nat.ltb i (connCnt r) && negb (existsb (Nat.eqb i) (closed r)).

(** The handlers on [client], in registration order, each running
    [conn.send(msg.toString())] for its connection. *)
Definition broadcast (r : Relay) (msg : string) : list (nat * string) :=
  (fun i => (i, msg)) <$> filter (fun i => conn_open r i = true) (listeners r).

(** One event; [None] for an event that cannot happen in the state (a
    message on a connection that is not open, a frame or an [open] from
    an upstream socket in the wrong state, any event after a crash). *)
Definition ws_step (r : Relay) (ev : ws_event) : option Relay :=
  if crashed r is Some _ then None else
  match ev with
  | WsConnection =>
      let connId := connCnt r in
      Some (mkRelay (S connId) (listeners r ++ [connId]) (closed r) (upstream r) (up_sent r)
              (delivered r) None)
  | ConnMessage i data =>
      if conn_open r i then
        match upstream r with
        | Connecting => Some (mkRelay (connCnt r) (listeners r) (closed r) Connecting (up_sent r)
                               (delivered r) (Some "WebSocket is not open: readyState 0 (CONNECTING)"%string))
        | Open => Some (mkRelay (connCnt r) (listeners r) (closed r) Open (up_sent r ++ [data])
                         (delivered r) None)
        | Closed => Some r
        end
      else None
  | ConnClose i =>
      if conn_open r i
      then Some (mkRelay (connCnt r) (listeners r) (closed r ++ [i]) (upstream r) (up_sent r) (delivered r) None)
      else None
  | UpstreamOpen =>
      if upstream r is Connecting
      then Some (mkRelay (connCnt r) (listeners r) (closed r) Open (up_sent r) (delivered r) None)
      else None
  | UpstreamMessage msg =>
      if upstream r is Open
      then Some (mkRelay (connCnt r) (listeners r) (closed r) Open (up_sent r)
                   (delivered r ++ broadcast r msg) None)
      else None
  | UpstreamClose =>
      if upstream r is Closed then None
      else Some (mkRelay (connCnt r) (listeners r) (closed r) Closed (up_sent r) (delivered r) None)
  | UpstreamError err =>
      if upstream r is Closed then None
      else Some (mkRelay (connCnt r) (listeners r) (closed r) Closed (up_sent r) (delivered r) (Some err))
  | ServerError _ => Some r
  end.

Fixpoint ws_run (r : Relay) (evs : list ws_event) : option Relay :=
  match evs with
  | [] => Some r
  | ev :: evs' => match ws_step r ev with Some r' => ws_run r' evs' | None => None end
  end.

(** The states the relay reaches from start-up. *)
Inductive reachable : Relay -> Prop :=
| reach_init : reachable relayInit
| reach_step r ev r' : reachable r -> ws_step r ev = Some r' -> reachable r'.

(** The invariant: one handler per connection ever accepted, in order;
    closed connections are accepted ones; after a crash the upstream
    socket is not open. *)
Definition relay_inv (r : Relay) : Prop :=
  listeners r = seq 0 (connCnt r) /\ Forall (fun i => i < connCnt r) (closed r) /\
  (crashed r = None \/ upstream r <> Open).

(** ** Lemmas *)

Lemma ws_run_reachable r evs r' : reachable r -> ws_run r evs = Some r' -> reachable r'.
Proof.
  revert r. induction evs as [|ev evs IH]; intros r Hr Hrun; simpl in Hrun; [by simplify_eq|].
  destruct (ws_step r ev) as [r1|] eqn:Hs; [|done]. eapply IH; [|exact Hrun]. by eapply reach_step.
Qed.

Lemma conn_open_lt r i : conn_open r i = true -> i < connCnt r.
Proof. unfold conn_open. rewrite andb_true_iff, Nat.ltb_lt. tauto. Qed.

Lemma relay_inv_step r ev r' : relay_inv r -> ws_step r ev = Some r' -> relay_inv r'.
Proof.
  intros Hinv Hs. destruct Hinv as (Hl & Hc & Hcr). unfold ws_step in Hs.
  destruct (crashed r) eqn:Hcrash; [done|].
  destruct ev as [|i data|i| |msg| |err|err];
    repeat match goal with
           | H : context [if ?b then _ else _] |- _ => destruct b eqn:?
           | H : context [match upstream r with _ => _ end] |- _ => destruct (upstream r) eqn:?
           end; simplify_eq; unfold relay_inv; cbn [connCnt listeners closed crashed upstream];
    try (split_and!; auto; first [by left | by right]).
  - rewrite Hl, seq_S. split_and!; [done| |by left].
    eapply Forall_impl; [exact Hc|]. intros x Hx; cbv beta in *; lia.
  - split_and!; [done| |by left]. apply Forall_app. split; [done|]. constructor; [|done]. by apply conn_open_lt.
Qed.

Lemma reachable_inv r : reachable r -> relay_inv r.
Proof.
  induction 1 as [|r ev r' _ IH Hs]; [split_and!; simpl; auto|]. by eapply relay_inv_step.
Qed.

Lemma conn_open_seq r i : i ∈ seq 0 (connCnt r) -> negb (existsb (Nat.eqb i) (closed r)) = true ->
  conn_open r i = true.
Proof.
  rewrite elem_of_seq. intros Hi Hc. unfold conn_open. rewrite Hc, andb_true_r, Nat.ltb_lt. lia.
Qed.

(** Within the connections accepted so far, open means not closed. *)
Lemma broadcast_open r msg :
  listeners r = seq 0 (connCnt r) ->
  broadcast r msg = (fun i => (i, msg)) <$> filter (fun i => i ∉ closed r) (seq 0 (connCnt r)).
Proof.
  intros Hl. unfold broadcast. rewrite Hl. f_equal. apply list_filter_iff_in.
  intros x Hx. apply elem_of_seq in Hx. unfold conn_open.
  rewrite andb_true_iff, negb_true_iff, Nat.ltb_lt, <- not_true_iff_false, existsb_eqb_elem. split; [intros [_ H]; exact H | intros H; split; [lia | exact H]].
Qed.

(** ** Theorems *)

(** C34. Every connection accepted since start-up keeps its handler on the
    upstream socket, closed ones included: the handlers on [client] are
    those of connections 0, 1, ..., [connCnt] - 1, in order, one each;
    they grow with every connection and are never released. *)
Theorem ws_handlers_never_released r :
  reachable r -> listeners r = seq 0 (connCnt r) /\ (forall i, i ∈ closed r -> i ∈ listeners r).
Proof.
  intros Hr. destruct (reachable_inv r Hr) as (Hl & Hc & _). split; [done|].
  intros i Hi. rewrite Hl, elem_of_seq. eapply Forall_forall in Hc; [|exact Hi]. simpl in Hc. lia.
Qed.

(** C33. A frame from an open client connection reaches the upstream
    unmodified once the upstream socket is open, and nothing is sent to
    any client. *)
Theorem ws_client_frame_verbatim r i data :
  reachable r -> upstream r = Open -> conn_open r i = true ->
  exists r', ws_step r (ConnMessage i data) = Some r' /\ up_sent r' = up_sent r ++ [data] /\
    delivered r' = delivered r /\ listeners r' = listeners r.
Proof.
  intros Hr Hup Hi. destruct (reachable_inv r Hr) as (_ & _ & [Hcr | Hcon]); [|congruence].
  unfold ws_step. rewrite Hcr, Hi, Hup. by eexists.
Qed.

(** C32. Every upstream frame is sent to every client connection still open,
    in the order they connected, and not only to the connection whose
    request it answers (spec scenario 5 speaks of the reply relayed
    back). *)
Theorem ws_reply_broadcast r msg :
  reachable r -> upstream r = Open ->
  exists r', ws_step r (UpstreamMessage msg) = Some r' /\
    delivered r' = delivered r ++ ((fun i => (i, msg)) <$> filter (fun i => i ∉ closed r) (seq 0 (connCnt r))).
Proof.
  intros Hr Hup. destruct (reachable_inv r Hr) as (Hl & _ & [Hcr | Hcon]); [|congruence].
  unfold ws_step. rewrite Hcr, Hup. eexists. split; [reflexivity|]. simpl. by rewrite broadcast_open.
Qed.

(** C35. A client frame that arrives before the upstream socket is open
    crashes the process: [client.send] throws inside the connection's
    handler; no event is handled afterwards, so no frame is relayed in
    either direction. *)
Theorem ws_send_before_open_crashes r i data :
  upstream r = Connecting -> crashed r = None -> conn_open r i = true ->
  exists r', ws_step r (ConnMessage i data) = Some r' /\
    crashed r' = Some "WebSocket is not open: readyState 0 (CONNECTING)"%string /\
    forall evs, evs <> [] -> ws_run r' evs = None.
Proof.
  intros Hup Hcr Hi. unfold ws_step at 1. rewrite Hcr, Hi, Hup.
  eexists. split_and!; [reflexivity | reflexivity |]. intros [|ev evs] Hne; done.
Qed.

(** C39. An error on the upstream socket (the connection refused at
    start-up, a dropped connection, a protocol error) ends the process,
    whatever the state of the relay: [client] has no ['error'] listener,
    so [emit] throws; no event is handled afterwards, and the relay is
    not reconnected. *)
Theorem ws_upstream_error_crashes r err :
  crashed r = None -> upstream r <> Closed ->
  exists r', ws_step r (UpstreamError err) = Some r' /\ crashed r' = Some err /\
    up_sent r' = up_sent r /\ delivered r' = delivered r /\
    forall evs, evs <> [] -> ws_run r' evs = None.
Proof.
  intros Hcr Hup. unfold ws_step at 1. rewrite Hcr.
  destruct (upstream r); [| |done]; (eexists; split_and!; [reflexivity..|]); by intros [|ev evs].
Qed.

(** Spec scenario 5 on the relay: two clients connect, the first sends
    a request, the upstream answers; the request reaches the upstream
    verbatim and the answer reaches both clients.  After the first
    client closes, its handler stays and the next answer reaches the
    second client only. *)
Example ws_scenario_two_clients :
  let evs := [UpstreamOpen; WsConnection; WsConnection; ConnMessage 0 "request 1";
              UpstreamMessage "answer 1"; ConnClose 0; UpstreamMessage "answer 2"]%string in
  option_map (fun r => (up_sent r, delivered r, listeners r)) (ws_run relayInit evs)
  = Some (["request 1"], [(0, "answer 1"); (1, "answer 1"); (1, "answer 2")], [0; 1])%string /\
  selectMode "wss:" = WsMode /\ selectMode "https:" = HttpMode.
Proof. split_and!; reflexivity. Qed.

(** ** Witnesses *)

(** Two clients connected to an open upstream socket. *)
Definition sampleRelay : Relay := mkRelay 2 [0; 1] [] Open [] [] None.

Lemma sampleRelay_reachable : reachable sampleRelay.
Proof. apply (ws_run_reachable relayInit [UpstreamOpen; WsConnection; WsConnection]); [constructor | reflexivity]. Qed.

Lemma ws_handlers_never_released_witness :
  let r := mkRelay 2 [0; 1] [0] Open [] [] None in
  reachable r /\ listeners r = seq 0 (connCnt r) /\ (forall i, i ∈ closed r -> i ∈ listeners r).
Proof.
  intros r. assert (H : reachable r).
  { apply (ws_run_reachable relayInit [UpstreamOpen; WsConnection; WsConnection; ConnClose 0]);
      [constructor | reflexivity]. }
  split; [exact H|]. exact (ws_handlers_never_released r H).
Defined.

Lemma ws_client_frame_verbatim_witness :
  (reachable sampleRelay /\ upstream sampleRelay = Open /\ conn_open sampleRelay 1 = true) /\
  exists r', ws_step sampleRelay (ConnMessage 1 "request") = Some r' /\
    up_sent r' = up_sent sampleRelay ++ ["request"%string] /\
    delivered r' = delivered sampleRelay /\ listeners r' = listeners sampleRelay.
Proof.
  assert (H1 := sampleRelay_reachable).
  assert (H2 : upstream sampleRelay = Open) by reflexivity.
  assert (H3 : conn_open sampleRelay 1 = true) by reflexivity.
  split; [split_and!; assumption|]. exact (ws_client_frame_verbatim sampleRelay 1 "request" H1 H2 H3).
Defined.

Lemma ws_reply_broadcast_witness :
  (reachable sampleRelay /\ upstream sampleRelay = Open) /\
  exists r', ws_step sampleRelay (UpstreamMessage "answer") = Some r' /\
    delivered r' = delivered sampleRelay ++
      ((fun i => (i, "answer"%string)) <$> filter (fun i => i ∉ closed sampleRelay) (seq 0 (connCnt sampleRelay))).
Proof.
  assert (H1 := sampleRelay_reachable).
  assert (H2 : upstream sampleRelay = Open) by reflexivity.
  split; [split; assumption|]. exact (ws_reply_broadcast sampleRelay "answer" H1 H2).
Defined.

Lemma ws_send_before_open_crashes_witness :
  let r := mkRelay 1 [0] [] Connecting [] [] None in
  (upstream r = Connecting /\ crashed r = None /\ conn_open r 0 = true) /\
  exists r', ws_step r (ConnMessage 0 "request") = Some r' /\
    crashed r' = Some "WebSocket is not open: readyState 0 (CONNECTING)"%string /\
    forall evs, evs <> [] -> ws_run r' evs = None.
Proof.
  intros r.
  assert (H1 : upstream r = Connecting) by reflexivity.
  assert (H2 : crashed r = None) by reflexivity.
  assert (H3 : conn_open r 0 = true) by reflexivity.
  split; [split_and!; assumption|]. exact (ws_send_before_open_crashes r 0 "request" H1 H2 H3).
Defined.

Lemma ws_upstream_error_crashes_witness :
  (crashed sampleRelay = None /\ upstream sampleRelay <> Closed) /\
  exists r', ws_step sampleRelay (UpstreamError "Error: read ECONNRESET") = Some r' /\
    crashed r' = Some "Error: read ECONNRESET"%string /\
    up_sent r' = up_sent sampleRelay /\ delivered r' = delivered sampleRelay /\
    forall evs, evs <> [] -> ws_run r' evs = None.
Proof.
  assert (H1 : crashed sampleRelay = None) by reflexivity.
  assert (H2 : upstream sampleRelay <> Closed) by discriminate.
  split; [split; assumption|]. exact (ws_upstream_error_crashes sampleRelay _ H1 H2).
Defined.
