(* ===== verification/Logging.v ===== *)
(** * The console output

    The lines the program writes with [console.log], [console.debug]
    (both to stdout) and [console.error] (to stderr), for the upstream
    client and the websocket relay.  The copies of those two functions
    in [src/app.js] (lines 182-206 and 212-243) are modelled here with
    their console calls; the copies in [src/unnamed/part_000] (lines
    226-250 and 256-287, the same text) are the plain models of
    [Upstream] and [WsRelay], which leave the console out.

    A [Console] is the list of the lines written, each with its stream.
    A logged computation runs on the pair of the component's state and
    the console; [on_state] runs a plain computation on the first part.
    The erasure theorems show that forgetting the console of a logged
    run gives the run of the plain model, so every theorem proved of the
    plain models holds of the logged ones.

    Numbers in template literals print as [Z_to_dec] does: the values
    printed are integers, which JavaScript prints in plain decimal below
    10^21 (the default back-off reaches 2 048 000).

    The websocket library calls the callback of [client.send] with no
    argument when the frame was written and, on a closed socket, with
    [Error("WebSocket is not open: readyState 3 (CLOSED)")] in the next
    tick, before any other event: the error line is written by the same
    step.  The stack trace Node prints for an uncaught exception is not
    modelled. *)

From Stdlib Require Import ZArith String Ascii.
From stdpp Require Import base list strings.
From S2P Require Import Prelude JsValue Runtime Upstream WsRelay Stats.

Local Open Scope st_scope.

Inductive stream : Type := Stdout | Stderr.

#[export] Instance stream_eq_dec : EqDecision stream.
Proof. solve_decision. Defined.

Definition Console : Type := list (stream * string).

(** [console.log(line)] and [console.debug(line)]. *)
Definition console_out {S E} (line : string) : ST (S * Console) E unit :=
  st_modify (fun sc => (sc.1, sc.2 ++ [(Stdout, line)])).

(** [console.error(line)]. *)
Definition console_err {S E} (line : string) : ST (S * Console) E unit :=
  st_modify (fun sc => (sc.1, sc.2 ++ [(Stderr, line)])).

(** A computation of the plain model, run beside the console. *)
Definition on_state {S E A} (m : ST S E A) : ST (S * Console) E A :=
  st_zoom fst (fun s sc => (s, sc.2)) m.

(** A computation on a part of the state, beside the console. *)
Definition zoom_log {S T E A} (get : S -> T) (set : T -> S -> S) (m : ST (T * Console) E A)
    : ST (S * Console) E A :=
  st_zoom (fun sc => (get sc.1, sc.2)) (fun tc sc => (set tc.1 sc.1, tc.2)) m.

(** [mL] is [m] with console calls: from any state and console, it
    returns what [m] returns, leaves the state [m] leaves, and only
    appends to the console. *)
Definition erases {S E A} (mL : ST (S * Console) E A) (m : ST S E A) : Prop :=
  forall s c, exists l, mL (s, c) = ((m s).1, ((m s).2, c ++ l)).

(** The lines written to stdout, in order. *)
Definition stdout_lines (c : Console) : list string :=
  omap (fun l => if l.1 is Stdout then Some l.2 else None) c.

(** The two bytes of U+00B4, which ends two messages of the source. *)
Definition acute : string := String (ascii_of_nat 194) (String (ascii_of_nat 180) EmptyString).

(** ** The upstream client, [src/app.js] lines 182-206 *)

Module UpstreamLog.

Definition retry_line (nrRetries : nat) (initialTimeoutMs : Z) : string :=
  ("upstream retry - #" ++ nat_dec nrRetries ++ " attempts left, next timeout: " ++
   Z_to_dec initialTimeoutMs ++ " ms")%string.

(** The [console.error] of the two branches without a response
    (lines 191-196). *)
Definition noresp_line (err : exn) : string :=
  match err with
  | AxiosError _ (Some _) => "upstream err | no response" ++ acute
  | _ => "upstream err | no response, no request -> WTF" ++ acute
  end%string.

(** The line of the [console.error] of the branch taken (lines
    188-196): the template of line 189 throws while it evaluates
    [JSON.stringify(err.response)], before anything is written. *)
Definition err_line (err : exn) : res exn string :=
  if has_response err then RErr circular_json_error else ROk (noresp_line err).

Fixpoint upstreamHttpRequest (rpc : String.string) (reqBody : jsval)
    (nrRetries : nat) (initialTimeoutMs : Z) : ST (Env * Console) exn jsval :=
  st_catch (on_state (axios_post rpc reqBody))
    (fun err =>
       console_out (retry_line nrRetries initialTimeoutMs) ;;
       match err_line err with
       | RErr thrown => st_throw thrown
       | ROk line =>
           console_err line ;;
           match nrRetries with
           | S nrRetries' =>
               on_state (sleep initialTimeoutMs) ;;
               upstreamHttpRequest rpc reqBody nrRetries' (initialTimeoutMs * 2)
           | O => st_throw (ReferenceError "forwardErr"%string)
           end
       end).

End UpstreamLog.

(** The error of attempt [i] under the oracle, when it fails. *)
Definition attempt_error (net : nat -> nat * res exn jsval) (i : nat) : exn :=
  if snd (net i) is RErr err then err else JsError EmptyString.

(** The lines of k attempts rejected without a response, the first
    numbered [base], made with [n] retries left and the timeout [t]. *)
Fixpoint failure_log (net : nat -> nat * res exn jsval) (base n : nat) (t : Z) (k : nat) : Console :=
  match k with
  | O => []
  | S k' =>
      (Stdout, UpstreamLog.retry_line n t) :: (Stderr, UpstreamLog.noresp_line (attempt_error net base)) ::
      failure_log net (S base) (pred n) (t * 2) k'
  end.

(** ** The websocket relay, [src/app.js] lines 212-243 *)

Module RelayLog.

(** [`${err}`] of the error [ws] passes to the callback of [send] on a
    closed socket. *)
Definition send_error_closed : string := "Error: WebSocket is not open: readyState 3 (CLOSED)".

Definition backward_line (connId : nat) (msg : string) : string :=
  ("WS #" ++ nat_dec connId ++ " backwarding: " ++ msg)%string.

(** [handleWsConnection] up to its first event: the relay of [WsRelay]
    and the line written before the sockets are made. *)
Definition relayInit : Relay * Console :=
  (WsRelay.relayInit, [(Stdout, "opening websocket connection...")]).

(** The handlers of [handleWsConnection] with their console calls. *)
Definition ws_step (rc : Relay * Console) (ev : ws_event) : option (Relay * Console) :=
  let '(r, c) := rc in
  if crashed r is Some _ then None else
  match ev with
  | WsConnection =>
      let connId := connCnt r in
      Some (mkRelay (S connId) (listeners r ++ [connId]) (closed r) (upstream r) (up_sent r)
              (delivered r) None,
            c ++ [(Stdout, "WS #" ++ nat_dec connId ++ " client connection established")%string])
  | ConnMessage i data =>
      if conn_open r i then
        let c := c ++ [(Stdout, "WS #" ++ nat_dec i ++ " forwarding: " ++ data)%string] in
        match upstream r with
        | Connecting => Some (mkRelay (connCnt r) (listeners r) (closed r) Connecting (up_sent r)
                               (delivered r) (Some "WebSocket is not open: readyState 0 (CONNECTING)"), c)
        | Open => Some (mkRelay (connCnt r) (listeners r) (closed r) Open (up_sent r ++ [data])
                         (delivered r) None, c)
        | Closed => Some (r, c ++ [(Stdout, "### WS #" ++ nat_dec i ++ " send error: " ++ send_error_closed)%string])
        end
      else None
  | ConnClose i =>
      if conn_open r i
      then Some (mkRelay (connCnt r) (listeners r) (closed r ++ [i]) (upstream r) (up_sent r) (delivered r) None, c)
      else None
  | UpstreamOpen =>
      if upstream r is Connecting
      then Some (mkRelay (connCnt r) (listeners r) (closed r) Open (up_sent r) (delivered r) None,
                 c ++ [(Stdout, "WS upstream connected!")])
      else None
  | UpstreamMessage msg =>
      if upstream r is Open
      then Some (mkRelay (connCnt r) (listeners r) (closed r) Open (up_sent r)
                   (delivered r ++ broadcast r msg) None,
                 c ++ ((fun i => (Stdout, backward_line i msg)) <$> listeners r))
      else None
  | UpstreamClose =>
      if upstream r is Closed then None
      else Some (mkRelay (connCnt r) (listeners r) (closed r) Closed (up_sent r) (delivered r) None, c)
  | UpstreamError err =>
      if upstream r is Closed then None
      else Some (mkRelay (connCnt r) (listeners r) (closed r) Closed (up_sent r) (delivered r) (Some err), c)
  | ServerError err => Some (r, c ++ [(Stdout, "### Error " ++ err)%string])
  end.

Fixpoint ws_run (rc : Relay * Console) (evs : list ws_event) : option (Relay * Console) :=
  match evs with
  | [] => Some rc
  | ev :: evs' => match ws_step rc ev with Some rc' => ws_run rc' evs' | None => None end
  end.

End RelayLog.

(** ** Lemmas *)

Lemma on_state_run {S E A} (m : ST S E A) s c : on_state m (s, c) = ((m s).1, ((m s).2, c)).
Proof. unfold on_state, st_zoom. cbn. by destruct (m s). Qed.

Lemma stdout_lines_app c c' : stdout_lines (c ++ c') = stdout_lines c ++ stdout_lines c'.
Proof. apply omap_app. Qed.

#[export] Hint Rewrite @on_state_run stdout_lines_app : rpc_rw.

(** ** Erasure of the console *)

Section Erasure.
Context {S E : Type}.

Lemma erases_on_state {A} (m : ST S E A) : erases (on_state m) m.
Proof. intros s c. exists []. by rewrite on_state_run, app_nil_r. Qed.

Lemma erases_ret {A} (a : A) : erases (st_ret a) (@st_ret S E A a).
Proof. intros s c. exists []. by rewrite app_nil_r. Qed.

Lemma erases_throw {A} (e : E) : erases (st_throw e) (@st_throw S E A e).
Proof. intros s c. exists []. by rewrite app_nil_r. Qed.

Lemma erases_bind {A B} (mL : ST (S * Console) E A) m (kL : A -> ST (S * Console) E B) k :
  erases mL m -> (forall a, erases (kL a) (k a)) -> erases (st_bind mL kL) (st_bind m k).
Proof.
  intros Hm Hk s c. destruct (Hm s c) as [l1 H1]. unfold st_bind. rewrite H1.
  destruct (m s) as [[a|e] s1]; cbn [fst snd]; [|by exists l1].
  destruct (Hk a s1 (c ++ l1)) as [l2 H2]. exists (l1 ++ l2). rewrite app_assoc. exact H2.
Qed.

Lemma erases_catch {A} (mL : ST (S * Console) E A) m (hL : E -> ST (S * Console) E A) h :
  erases mL m -> (forall e, erases (hL e) (h e)) -> erases (st_catch mL hL) (st_catch m h).
Proof.
  intros Hm Hh s c. destruct (Hm s c) as [l1 H1]. unfold st_catch. rewrite H1.
  destruct (m s) as [[a|e] s1]; cbn [fst snd]; [by exists l1|].
  destruct (Hh e s1 (c ++ l1)) as [l2 H2]. exists (l1 ++ l2). rewrite app_assoc. exact H2.
Qed.

(** A console call before [mL] is erased. *)
Lemma erases_out {A} line (mL : ST (S * Console) E A) m :
  erases mL m -> erases (console_out line ;; mL) m.
Proof.
  intros Hm s c. destruct (Hm s (c ++ [(Stdout, line)])) as [l H]. exists ((Stdout, line) :: l).
  unfold st_bind, console_out, st_modify. cbn [fst snd].
  replace (c ++ (Stdout, line) :: l) with ((c ++ [(Stdout, line)]) ++ l) by by rewrite <- app_assoc. exact H.
Qed.

Lemma erases_err {A} line (mL : ST (S * Console) E A) m :
  erases mL m -> erases (console_err line ;; mL) m.
Proof.
  intros Hm s c. destruct (Hm s (c ++ [(Stderr, line)])) as [l H]. exists ((Stderr, line) :: l).
  unfold st_bind, console_err, st_modify. cbn [fst snd].
  replace (c ++ (Stderr, line) :: l) with ((c ++ [(Stderr, line)]) ++ l) by by rewrite <- app_assoc. exact H.
Qed.

Lemma erases_ext {A} (mL : ST (S * Console) E A) m m' : erases mL m -> st_eq m m' -> erases mL m'.
Proof. intros Hm Heq s c. rewrite <- (Heq s). apply Hm. Qed.

Lemma erases_zoom {T A} (get : S -> T) set (mL : ST (T * Console) E A) m :
  erases mL m -> erases (zoom_log get set mL) (st_zoom get set m).
Proof.
  intros Hm s c. destruct (Hm (get s) c) as [l H]. exists l.
  unfold zoom_log, st_zoom. cbn [fst snd]. rewrite H. by destruct (m (get s)).
Qed.
End Erasure.

#[export] Hint Resolve erases_on_state erases_ret erases_throw : rpc.

(** Structural erasure: peel the console calls and follow the binds. *)
Ltac erase_tac :=
  repeat match goal with
         | |- erases (st_bind (console_out _) _) _ => apply erases_out
         | |- erases (st_bind (console_err _) _) _ => apply erases_err
         | |- erases (st_bind _ _) (st_bind _ _) => apply erases_bind; [|intros ?]
         | |- erases (st_catch _ _) (st_catch _ _) => apply erases_catch; [|intros ?]
         | |- erases (zoom_log _ _ _) (st_zoom _ _ _) => apply erases_zoom
         | |- erases (if ?b then _ else _) (if ?b then _ else _) => destruct b
         | |- erases (match ?x with _ => _ end) (match ?x with _ => _ end) => destruct x
         | |- erases _ _ => solve [auto with rpc]
         | |- _ => progress cbv zeta
         end.

Section UpstreamSteps.
Variables (rpc : String.string) (body : jsval).

Lemma log_ok_step n t e c d :
  snd (env_net e (length (env_posts e))) = ROk d ->
  UpstreamLog.upstreamHttpRequest rpc body n t (e, c) = (ROk d, (env_post body e, c)).
Proof. intros H. destruct n; cbn [UpstreamLog.upstreamHttpRequest]; unfold st_catch, on_state, st_zoom, axios_post; cbn; by rewrite H. Qed.

Lemma log_fail_last t e c err :
  snd (env_net e (length (env_posts e))) = RErr err -> has_response err = false ->
  UpstreamLog.upstreamHttpRequest rpc body O t (e, c) =
  (RErr (ReferenceError "forwardErr"%string),
   (env_post body e, c ++ [(Stdout, UpstreamLog.retry_line O t); (Stderr, UpstreamLog.noresp_line err)])).
Proof.
  intros H Hr. cbn [UpstreamLog.upstreamHttpRequest]. unfold st_catch, on_state, st_zoom, axios_post. cbn.
  rewrite H. cbn. unfold UpstreamLog.err_line. rewrite Hr. cbn. by rewrite <- app_assoc.
Qed.

Lemma log_fail_step n t e c err :
  snd (env_net e (length (env_posts e))) = RErr err -> has_response err = false ->
  UpstreamLog.upstreamHttpRequest rpc body (S n) t (e, c) =
  UpstreamLog.upstreamHttpRequest rpc body n (t * 2) (env_sleep t (env_post body e),
    c ++ [(Stdout, UpstreamLog.retry_line (S n) t); (Stderr, UpstreamLog.noresp_line err)]).
Proof.
  intros H Hr. cbn [UpstreamLog.upstreamHttpRequest]. unfold st_catch, on_state at 1, st_zoom at 1, axios_post. cbn.
  rewrite H. cbn. unfold UpstreamLog.err_line. rewrite Hr. cbn.
  unfold on_state, st_zoom, sleep, st_modify. cbn. by rewrite <- app_assoc.
Qed.

(** An HTTP error answer: the retry line is written, then the template of
    the error line throws. *)
Lemma log_http_error n t e c err :
  snd (env_net e (length (env_posts e))) = RErr err -> has_response err = true ->
  UpstreamLog.upstreamHttpRequest rpc body n t (e, c) =
  (RErr circular_json_error, (env_post body e, c ++ [(Stdout, UpstreamLog.retry_line n t)])).
Proof.
  intros H Hr. destruct n; cbn [UpstreamLog.upstreamHttpRequest]; unfold st_catch, on_state, st_zoom, axios_post;
    cbn; rewrite H; cbn; unfold UpstreamLog.err_line; by rewrite Hr.
Qed.
End UpstreamSteps.

Lemma attempt_error_fail net i err : snd (net i) = RErr err -> attempt_error net i = err.
Proof. unfold attempt_error. by intros ->. Qed.

(** The logged catch block throws exactly when the plain one does. *)
Lemma err_line_forwardedErr err :
  (exists l v, UpstreamLog.err_line err = ROk l /\ forwardedErr err = ROk v) \/
  (UpstreamLog.err_line err = RErr circular_json_error /\ forwardedErr err = RErr circular_json_error).
Proof.
  unfold UpstreamLog.err_line. destruct (has_response err) eqn:Hr.
  - right. by rewrite forwardedErr_response.
  - left. destruct (forwardedErr_unanswered err Hr) as [v ->]. by eexists _, _.
Qed.

Lemma upstream_log_erases rpc body n t :
  erases (UpstreamLog.upstreamHttpRequest rpc body n t) (upstreamHttpRequest rpc body n t).
Proof.
  revert t. induction n as [|n IH]; intros t; cbn [UpstreamLog.upstreamHttpRequest upstreamHttpRequest];
    erase_tac;
    match goal with
    | |- erases (match UpstreamLog.err_line ?x with _ => _ end) _ =>
        destruct (err_line_forwardedErr x) as [(l & v & -> & ->)|(-> & ->)]; erase_tac
    end.
Qed.

(** The stdout lines of k failed attempts: the retries left count down
    from [n] and the announced timeout doubles from [t]. *)
Lemma failure_log_stdout net base n t k :
  stdout_lines (failure_log net base n t k) =
  (fun j => UpstreamLog.retry_line (n - j) (t * 2 ^ Z.of_nat j)) <$> seq 0 k.
Proof.
  revert base n t. induction k as [|k IH]; intros base n t; [done|].
  cbn [failure_log]. unfold stdout_lines at 1. cbn [omap list_omap fst snd].
  fold (stdout_lines (failure_log net (S base) (pred n) (t * 2) k)). rewrite IH.
  cbn [seq fmap list_fmap]. rewrite <- fmap_S_seq, <- list_fmap_compose.
  rewrite Nat.sub_0_r, Z.mul_1_r. f_equal. apply list_fmap_ext. intros _ j _. cbn [compose].
  f_equal; [lia|]. rewrite Z_pow2_succ. lia.
Qed.

Lemma relay_log_step r c ev :
  option_map fst (RelayLog.ws_step (r, c) ev) = ws_step r ev /\
  forall r' c', RelayLog.ws_step (r, c) ev = Some (r', c') -> exists l, c' = c ++ l.
Proof.
  unfold RelayLog.ws_step, ws_step.
  destruct (crashed r); [done|].
  destruct ev; repeat case_match; (split; [done|]); intros ? ? [= <- <-];
    first [exists []; by rewrite app_nil_r | eexists; done | eexists; by rewrite <- app_assoc].
Qed.

Lemma log_exhausted_run rpc body n t e c :
  (forall j, (j <= n)%nat -> attempt_unanswered (env_net e) (length (env_posts e) + j)) ->
  UpstreamLog.upstreamHttpRequest rpc body n t (e, c) =
  (RErr (ReferenceError "forwardErr"), (env_after e body (S n) (backoff_schedule t n),
     c ++ failure_log (env_net e) (length (env_posts e)) n t (S n))).
Proof.
  revert t e c. induction n as [|n IH]; intros t e c Hfail;
    destruct (Hfail O ltac:(lia)) as (err & Herr & Hr); rewrite Nat.add_0_r in Herr.
  - rewrite (log_fail_last _ _ _ _ _ _ Herr Hr), env_after_post. cbn. by rewrite (attempt_error_fail _ _ _ Herr).
  - rewrite (log_fail_step _ _ _ _ _ _ _ Herr Hr), IH.
    + rewrite env_after_shift. autorewrite with rpc_rw. rewrite length_app, Nat.add_1_r, <- app_assoc. cbn.
      by rewrite (attempt_error_fail _ _ _ Herr).
    + intros j Hj. rewrite post_sleep_index. apply Hfail. lia.
Qed.

(** ** Theorems *)

(** What a run that ended with [r] writes after its unanswered attempts:
    the retry line of the attempt answered with an HTTP error, when the
    run ended with the [TypeError] that answer causes. *)
Definition answered_tail (r : res exn jsval) (n : nat) (t : Z) : Console :=
  if r is RErr (TypeError _) then [(Stdout, UpstreamLog.retry_line n t)] else [].

(** C36. The console does not change what the upstream client does, and
    the lines it writes are exact: the run of app.js's
    [upstreamHttpRequest] with its console calls, the console erased, is
    the run of the plain model for every oracle; it writes two lines
    (the retry line on stdout, the branch's error line on stderr) for
    each of the k attempts rejected without a response, and, when the
    run ends with the [TypeError] of an HTTP error answer, the retry line
    of that attempt alone.  The run posts k times when it ends with the
    [ReferenceError], and k + 1 times otherwise. *)
Theorem upstream_log_refines rpc body n t e c :
  let '(r, (e', c')) := UpstreamLog.upstreamHttpRequest rpc body n t (e, c) in
  upstreamHttpRequest rpc body n t e = (r, e') /\
  exists k, c' = c ++ failure_log (env_net e) (length (env_posts e)) n t k
                   ++ answered_tail r (n - k) (t * 2 ^ Z.of_nat k) /\
    length (env_posts e') = (length (env_posts e) + if r is RErr (ReferenceError _) then k else S k)%nat.
Proof.
  revert t e c. induction n as [|n IH]; intros t e c;
    destruct (snd (env_net e (length (env_posts e)))) as [d|err] eqn:Hout;
    try (rewrite (log_ok_step _ _ _ _ _ _ _ Hout), (upstream_ok_step _ _ _ _ _ _ Hout);
      (split; [done|]); exists O; rewrite !app_nil_r, env_post_posts, length_app; cbn; split; [done|lia]);
    destruct (has_response err) eqn:Hr;
    try (rewrite (log_http_error _ _ _ _ _ _ _ Hout Hr);
      rewrite (upstream_catch_throws _ _ _ _ _ _ _ Hout (forwardedErr_response _ Hr));
      (split; [done|]); exists O; rewrite env_post_posts, length_app, Nat.sub_0_r, Z.mul_1_r;
      cbn; split; [done|lia]);
    destruct (forwardedErr_unanswered err Hr) as [v Hv].
  - rewrite (log_fail_last _ _ _ _ _ _ Hout Hr), (upstream_fail_last _ _ _ _ _ _ Hout Hv).
    split; [done|]. exists 1%nat. rewrite env_post_posts, length_app. cbn.
    rewrite (attempt_error_fail _ _ _ Hout). split; [by rewrite ?app_nil_r|lia].
  - rewrite (log_fail_step _ _ _ _ _ _ _ Hout Hr), (upstream_fail_step _ _ _ _ _ _ _ Hout Hv).
    specialize (IH (t * 2)%Z (env_sleep t (env_post body e))
      (c ++ [(Stdout, UpstreamLog.retry_line (S n) t); (Stderr, UpstreamLog.noresp_line err)])).
    destruct (UpstreamLog.upstreamHttpRequest _ _ _ _ _) as [r [e' c']].
    destruct IH as [Hplain (k & Hc & Hlen)]. split; [done|]. exists (S k).
    rewrite Hc, Hlen. autorewrite with rpc_rw. rewrite length_app.
    cbn [failure_log pred]. rewrite (attempt_error_fail _ _ _ Hout), <- !app_assoc.
    rewrite Z_pow2_succ, Z.mul_assoc. cbn [Nat.sub]. rewrite Nat.add_1_r.
    split; [done|]. destruct r as [|[]]; lia.
Qed.

(** C37. When every attempt is rejected without a response, the stdout of the client counts the
    retries down from nrRetries to 0 with the announced timeout doubling
    from [initialTimeoutMs]; its last line announces a timeout of
    [initialTimeoutMs * 2^nrRetries] ms although only nrRetries timers
    are ever armed and the call throws right after it. *)
Theorem upstream_exhausted_log rpc body n t e c :
  (forall j, (j <= n)%nat -> attempt_unanswered (env_net e) (length (env_posts e) + j)) ->
  let '(r, (e', c')) := UpstreamLog.upstreamHttpRequest rpc body n t (e, c) in
  r = RErr (ReferenceError "forwardErr") /\
  stdout_lines c' =
    stdout_lines c ++ ((fun j => UpstreamLog.retry_line (n - j) (t * 2 ^ Z.of_nat j)%Z) <$> seq 0 (S n)) /\
  env_timers e' = env_timers e ++ backoff_schedule t n.
Proof.
  intros Hfail. rewrite (log_exhausted_run _ _ _ _ _ _ Hfail). cbn [env_after env_timers].
  split_and!; [done | by rewrite stdout_lines_app, failure_log_stdout | done].
Qed.

(** The console does not change what the relay does: the logged
    relay of app.js and the plain relay accept the same event sequences
    from any state and reach the same relay state. *)
Theorem relay_log_refines rc evs : option_map fst (RelayLog.ws_run rc evs) = ws_run rc.1 evs.
Proof.
  revert rc. induction evs as [|ev evs IH]; intros [r c]; [done|]. cbn [RelayLog.ws_run ws_run fst].
  destruct (relay_log_step r c ev) as [Hs _]. rewrite <- Hs.
  destruct (RelayLog.ws_step (r, c) ev) as [[r' c']|]; cbn [option_map]; [apply (IH (r', c')) | done].
Qed.

(** C38. In every reachable relay state, an upstream frame is logged as
    "backwarding" once for every connection ever accepted, in order,
    closed ones included, while it is delivered only to the open ones:
    the log reports frames to connections that no longer receive them. *)
Theorem ws_backwarding_logged_for_closed r c msg r' c' :
  reachable r -> RelayLog.ws_step (r, c) (UpstreamMessage msg) = Some (r', c') ->
  c' = c ++ ((fun i => (Stdout, RelayLog.backward_line i msg)) <$> seq 0 (connCnt r)) /\
  delivered r' = delivered r ++ ((fun i => (i, msg)) <$> filter (fun i => conn_open r i = true) (seq 0 (connCnt r))).
Proof.
  intros Hr Hs. destruct (reachable_inv r Hr) as (Hl & _ & _).
  unfold RelayLog.ws_step in Hs. destruct (crashed r); [done|]. destruct (upstream r); try done.
  injection Hs as <- <-. unfold broadcast. by rewrite Hl.
Qed.

(** ** Witnesses *)

Definition closedRelay : Relay := mkRelay 2 [0; 1] [0] Open [] [] None.

Lemma closedRelay_reachable : reachable closedRelay.
Proof. apply (ws_run_reachable relayInit [WsConnection; WsConnection; UpstreamOpen; ConnClose 0]); [constructor | reflexivity]. Qed.

Lemma upstream_exhausted_log_witness :
  (forall j, (j <= 1)%nat -> attempt_unanswered (env_net env_upstream_down) (length (env_posts env_upstream_down) + j)) /\
  let '(r, (e', c')) := UpstreamLog.upstreamHttpRequest "http://rpc" JNull 1 2000 (env_upstream_down, []) in
  r = RErr (ReferenceError "forwardErr") /\
  stdout_lines c' = ["upstream retry - #1 attempts left, next timeout: 2000 ms";
                     "upstream retry - #0 attempts left, next timeout: 4000 ms"] /\
  env_timers e' = [2000%Z].
Proof.
  assert (H : forall j, (j <= 1)%nat -> attempt_unanswered (env_net env_upstream_down) (length (env_posts env_upstream_down) + j))
    by (intros j _; eexists; split; reflexivity).
  split; [exact H|]. exact (upstream_exhausted_log "http://rpc" JNull 1 2000 env_upstream_down [] H).
Defined.

Lemma ws_backwarding_logged_for_closed_witness :
  exists r' c', RelayLog.ws_step (closedRelay, []) (UpstreamMessage "0x1") = Some (r', c') /\
  c' = [(Stdout, "WS #0 backwarding: 0x1"); (Stdout, "WS #1 backwarding: 0x1")] /\
  delivered r' = [(1, "0x1")].
Proof.
  eexists _, _. split; [reflexivity|].
  destruct (ws_backwarding_logged_for_closed closedRelay [] "0x1" _ _ closedRelay_reachable eq_refl) as [H1 H2].
  split; [exact H1 | exact H2].
Defined.
