(* ===== verification/Bootstrap.v ===== *)
(** * Start-up: the environment, the configuration and the mode

    What evaluating the module of each version does before any request:
    - [src/app.js] lines 28-33: [if (!process.env.RPC) throw
      Error("env var RPC not set")], then [port = process.env.PORT ||
      3000] and [rpc = process.env.RPC]; line 119:
      [CACHE_MAX_AGE = process.env.CACHE_MAX_AGE || 10];
    - [src/unnamed/part_000] lines 6-22 the same, and in addition [db]
      is a sqlite database exactly when [DB_FILE] is not [undefined]
      (even the empty string); line 160: [CACHE_MAX_AGE];
    - the async IIFE (app.js lines 40-48, part_000 lines 29-37) parses
      [rpc] with [new URL] and starts the websocket relay or the HTTP
      server from its protocol.

    [process.env] holds strings only, so [CACHE_MAX_AGE] is a string
    whenever it is set and not empty, and [CACHE_MAX_AGE*1000] converts
    it with ToNumber ([JsValue.string_to_number]) at every request.
    The theorems follow the configuration into the handler: what the
    maximum age of a volatile method is for a setting, and that a
    setting ToNumber reads as NaN keeps part_000's handler from ever
    answering such a method from the cache.

    [new URL(rpc).protocol] belongs to Node's WHATWG URL parser, not to
    the repository: it is the [Section] variable [url_protocol], which
    may throw.  A throw inside the async IIFE rejects its promise, which
    nothing handles: no server is started (and on Node 15 and later the
    process then ends). *)

From Stdlib Require Import ZArith String.
From stdpp Require Import base gmap strings list.
From S2P Require Import Prelude JsValue Runtime Policy CacheStore Coordinator WsRelay Logging.

Local Open Scope string_scope.

(** [process.env]: the variables that are set. *)
Definition ProcessEnv : Type := gmap string string.

(** [process.env.X]: a string, or [undefined] when [X] is not set. *)
Definition env_get (penv : ProcessEnv) (x : string) : jsval :=
  match penv !! x with
  | Some s => JStr s
  | None => JUndef
  end.

(** [a || b] *)
Definition js_or (a b : jsval) : jsval := if js_truthy a then a else b.

(** What the module leaves for the handlers: the configuration and the
    port the server listens on. *)
Record Startup : Type := mkStartup { su_cfg : Config; su_port : jsval }.

Definition rpc_not_set : exn := JsError "env var RPC not set".

Module BootAppJs.
(** Line 119. *)
Definition cacheMaxAge (penv : ProcessEnv) : jsval := js_or (env_get penv "CACHE_MAX_AGE") (JNum 10).

(** Lines 28-33. *)
Definition loadConfig (penv : ProcessEnv) : res exn Startup :=
  match env_get penv "RPC" with
  | JStr rpc as v =>
      if js_truthy v
      then ROk (mkStartup (mkConfig rpc (cacheMaxAge penv) None) (js_or (env_get penv "PORT") (JNum 3000)))
      else RErr rpc_not_set
  | _ => RErr rpc_not_set
  end.
End BootAppJs.

Module BootPart000.
(** Line 160. *)
Definition cacheMaxAge (penv : ProcessEnv) : jsval := js_or (env_get penv "CACHE_MAX_AGE") (JNum 10).

(** Lines 6-22: the check of [RPC]; [db] when [DB_FILE !== undefined]. *)
Definition loadConfig (penv : ProcessEnv) : res exn Startup :=
  match env_get penv "RPC" with
  | JStr rpc as v =>
      if js_truthy v
      then ROk (mkStartup (mkConfig rpc (cacheMaxAge penv) (penv !! "DB_FILE"))
                          (js_or (env_get penv "PORT") (JNum 3000)))
      else RErr rpc_not_set
  | _ => RErr rpc_not_set
  end.
End BootPart000.

(** How start-up ends. *)
Inductive boot_outcome : Type :=
| Threw (e : exn)                   (** the module threw: the process exits, nothing is served *)
| Rejected (e : exn) (su : Startup) (** the async IIFE rejected: no server was started *)
| Started (m : mode) (su : Startup).

Section Start.
(** [new URL(rpc).protocol], or the [TypeError] of an invalid URL. *)
Variable url_protocol : string -> res exn string.

(** The async IIFE: [new URL(rpc)], then the mode from its protocol. *)
Definition startServer (su : Startup) : boot_outcome :=
  match url_protocol (RPC (su_cfg su)) with
  | RErr e => Rejected e su
  | ROk protocol => Started (selectMode protocol) su
  end.

Definition boot (loadConfig : ProcessEnv -> res exn Startup) (penv : ProcessEnv) : boot_outcome :=
  match loadConfig penv with
  | RErr e => Threw e
  | ROk su => startServer su
  end.
(** The lines start-up writes: [console.log("init")] first in the async
    IIFE (app.js line 41, part_000 line 30), then the first line of the
    mode, the relay's or the one of the [app.listen] callback (app.js
    lines 124-126, part_000 lines 165-167).  A throw at module level
    writes none of the program's lines. *)
Definition startup_log (loadConfig : ProcessEnv -> res exn Startup) (penv : ProcessEnv) : Console :=
  match boot loadConfig penv with
  | Threw _ => []
  | Rejected _ _ => [(Stdout, "init")]
  | Started WsMode _ => (Stdout, "init") :: RelayLog.relayInit.2
  | Started HttpMode su => [(Stdout, "init"); (Stdout, "listening on port " ++ js_to_string (su_port su))%string]
  end.
End Start.

(** ** Lemmas *)

Local Close Scope string_scope.

Lemma js_truthy_str s : js_truthy (JStr s) = negb (String.eqb s EmptyString).
Proof. reflexivity. Qed.

(** Both versions check [RPC] the same way and fail only with
    [rpc_not_set]. *)
Ltac load_cases Hl s Hs Hne :=
  destruct Hl as [-> | ->]; unfold BootAppJs.loadConfig, BootPart000.loadConfig, env_get at 1;
  (destruct (_ !! "RPC"%string) as [s|] eqn:Hs;
   [rewrite js_truthy_str; destruct (String.eqb_spec s EmptyString) as [->|Hne]|]); cbn.

Section Load.
Variables (load : ProcessEnv -> res exn Startup) (penv : ProcessEnv).
Hypothesis Hl : load = BootAppJs.loadConfig \/ load = BootPart000.loadConfig.

Lemma load_err e : load penv = RErr e -> e = rpc_not_set.
Proof. load_cases Hl s Hs Hne; congruence. Qed.

Lemma load_err_iff :
  (exists e, load penv = RErr e) <-> forall s, penv !! "RPC"%string = Some s -> s = EmptyString.
Proof.
  load_cases Hl s Hs Hne.
  1,3,4,6: split; [intros _ s' Hs'; congruence | intros _; by eexists].
  all: split; [intros [e He]; discriminate | intros H; exfalso; by apply Hne, H].
Qed.

End Load.

Lemma startServer_not_threw url su e : startServer url su <> Threw e.
Proof. unfold startServer. by destruct (url _). Qed.

Lemma Z_to_dec_nonempty z : Z_to_dec z <> EmptyString.
Proof.
  intros H. pose proof (string_to_number_Z_to_dec z) as Hz. rewrite H in Hz.
  injection Hz as Hz. subst z. discriminate H.
Qed.

Lemma boot_threw load url penv :
  (load = BootAppJs.loadConfig \/ load = BootPart000.loadConfig) ->
  (boot url load penv = Threw rpc_not_set <-> forall s, penv !! "RPC"%string = Some s -> s = EmptyString) /\
  (forall e, boot url load penv = Threw e -> e = rpc_not_set).
Proof.
  intros Hl. rewrite <- (load_err_iff load penv Hl). unfold boot.
  pose proof (load_err load penv Hl) as Herr.
  destruct (load penv) as [su|e] eqn:He.
  - pose proof (startServer_not_threw url su) as Hn.
    split; [split; [intros H; by apply Hn in H | intros [e' He']; discriminate]|].
    intros e H. by apply Hn in H.
  - rewrite (Herr e eq_refl). split; [split; [intros _; by eexists | done]|]. by intros ? [= <-].
Qed.

(** The setting read by both versions: the string when it is set and
    not empty, the number 10 otherwise. *)
Lemma js_or_cache_max_age penv :
  js_or (env_get penv "CACHE_MAX_AGE") (JNum 10) =
    match penv !! "CACHE_MAX_AGE"%string with
    | Some s => if String.eqb s EmptyString then JNum 10 else JStr s
    | None => JNum 10
    end.
Proof.
  unfold js_or, env_get. destruct (penv !! _) as [s|]; [|done].
  rewrite js_truthy_str. by destruct (String.eqb s EmptyString).
Qed.

(** Both versions store [cacheMaxAge penv] in the configuration. *)
Ltac cache_max_age_tac :=
  intros Hsu; repeat case_match; simplify_eq; reflexivity.

Lemma appjs_cache_max_age penv su : BootAppJs.loadConfig penv = ROk su ->
  CACHE_MAX_AGE (su_cfg su) = js_or (env_get penv "CACHE_MAX_AGE") (JNum 10).
Proof. unfold BootAppJs.loadConfig, BootAppJs.cacheMaxAge. cache_max_age_tac. Qed.

Lemma part000_cache_max_age penv su : BootPart000.loadConfig penv = ROk su ->
  CACHE_MAX_AGE (su_cfg su) = js_or (env_get penv "CACHE_MAX_AGE") (JNum 10).
Proof. unfold BootPart000.loadConfig, BootPart000.cacheMaxAge. cache_max_age_tac. Qed.

(** part_000 when the cache read can only miss: the hit counter stays,
    and the body is posted upstream at least once. *)
Lemma part000_miss_posts parse cfg rid body w :
  (forall now s, WithDb.getResponseFromCache parse now (getCacheKey body)
     (Part000.cacheMaxAgeMs cfg (js_prop body "method")) (js_prop body "id") s = (None, s)) ->
  let '(_, w') := HandlerPart000.handlePost parse cfg rid body w in
  httpCacheResCnt (w_glob w') = httpCacheResCnt (w_glob w) /\
  (length (env_posts (w_env w)) < length (env_posts (w_env w')))%nat.
Proof.
  intros Hget. destruct (throttled_env_frame (getCacheKey body) w) as (Hp & _).
  unfold HandlerPart000.handlePost. unfold st_bind at 1 2 3.
  rewrite on_dd_throttle. cbv beta iota. rewrite date_now_run. cbv beta iota.
  erewrite with_store_run; [|apply Hget]. cbv beta iota.
  set (w1 := set_store _ _).
  pose proof (part000_forward_frame cfg rid body (getCacheKey body) w1) as Hf.
  unfold st_bind. destruct (HandlerPart000.forwardToUpstream _ _ _ _ w1) as [r w2].
  destruct Hf as ((k & Hk & Hposts) & _ & _ & _ & _ & _ & Hhits & _).
  destruct r; cbn; (split; [exact Hhits|]);
    rewrite Hposts; cbn [w1 set_store w_env]; rewrite Hp, length_app, repeat_length; lia.
Qed.

(** ** Theorems *)

(** C16. Both versions refuse to start without an upstream: the module
    throws [Error("env var RPC not set")] exactly when [RPC] is unset or
    the empty string, before any server or relay exists, and start-up
    throws nothing else (with a non-empty [RPC], an invalid URL only
    rejects the IIFE). *)
Theorem boot_requires_rpc url penv :
  (boot url BootAppJs.loadConfig penv = Threw rpc_not_set <->
     forall s, penv !! "RPC"%string = Some s -> s = EmptyString) /\
  (boot url BootPart000.loadConfig penv = Threw rpc_not_set <->
     forall s, penv !! "RPC"%string = Some s -> s = EmptyString) /\
  (forall e, boot url BootAppJs.loadConfig penv = Threw e \/ boot url BootPart000.loadConfig penv = Threw e ->
     e = rpc_not_set).
Proof.
  destruct (boot_threw BootAppJs.loadConfig url penv (or_introl eq_refl)) as [Ha Ha'].
  destruct (boot_threw BootPart000.loadConfig url penv (or_intror eq_refl)) as [Hp Hp'].
  split_and!; [exact Ha | exact Hp|]. intros e [H|H]; [exact (Ha' e H) | exact (Hp' e H)].
Qed.

(** C17. The maximum age of the volatile methods as configured: with
    [CACHE_MAX_AGE] unset or empty it is 10 s; set to the decimal text
    of any integer [z] (as [String(z)] prints it) it is [z] s, [z * 1000]
    ms: ToNumber reads back exactly what the decimal printing wrote. *)
Theorem cache_max_age_decimal_roundtrip penv su :
  BootAppJs.loadConfig penv = ROk su \/ BootPart000.loadConfig penv = ROk su ->
  (forall z, penv !! "CACHE_MAX_AGE"%string = Some (Z_to_dec z) ->
     js_times_1000 (CACHE_MAX_AGE (su_cfg su)) = Finite (z * 1000)) /\
  (penv !! "CACHE_MAX_AGE"%string = None \/ penv !! "CACHE_MAX_AGE"%string = Some EmptyString ->
     js_times_1000 (CACHE_MAX_AGE (su_cfg su)) = Finite 10000).
Proof.
  intros Hsu.
  assert (Hc : CACHE_MAX_AGE (su_cfg su) = js_or (env_get penv "CACHE_MAX_AGE") (JNum 10))
    by (destruct Hsu as [H|H]; [exact (appjs_cache_max_age penv su H) | exact (part000_cache_max_age penv su H)]).
  rewrite Hc, js_or_cache_max_age. split.
  - intros z ->. destruct (String.eqb_spec (Z_to_dec z) EmptyString) as [H|_]; [by apply Z_to_dec_nonempty in H|].
    unfold js_times_1000. cbn [js_to_number]. rewrite string_to_number_Z_to_dec. cbn. reflexivity.
  - by intros [-> | ->].
Qed.

(** C18. part_000 started with [CACHE_MAX_AGE] set to a string that is not a
    number (["10s"], ["1,5"], ["ten"]): ToNumber gives NaN, every
    comparison [Date.now() - ts <= NaN] is false, and no request for a
    volatile method ([eth_blockNumber], [eth_call], ...) is ever answered
    from the cache, in memory or database mode, whatever the cache
    holds: each one is posted upstream, although the answers are still
    written to the cache. *)
Theorem part000_nan_max_age_never_cached penv su s parse rid body w :
  BootPart000.loadConfig penv = ROk su ->
  penv !! "CACHE_MAX_AGE"%string = Some s -> string_to_number s = NumNaN ->
  js_includes Part000.IMMUTABLE_METHODS (js_prop body "method") = false ->
  let '(_, w') := HandlerPart000.handlePost parse (su_cfg su) rid body w in
  httpCacheResCnt (w_glob w') = httpCacheResCnt (w_glob w) /\
  (length (env_posts (w_env w)) < length (env_posts (w_env w')))%nat.
Proof.
  intros Hsu Hs Hnan Hvol. apply part000_miss_posts. intros now st. apply withdb_get_never_fresh.
  intros now' ts. unfold Part000.cacheMaxAgeMs. rewrite Hvol.
  rewrite (part000_cache_max_age penv su Hsu), js_or_cache_max_age, Hs.
  destruct (String.eqb_spec s EmptyString) as [->|_]; [discriminate Hnan|].
  unfold js_times_1000. cbn [js_to_number]. by rewrite Hnan.
Qed.

(** ** Witnesses *)

Definition sampleProcessEnv : ProcessEnv :=
  <["RPC" := "http://localhost:8545"]> (<["CACHE_MAX_AGE" := "42"]> ∅).

Definition sampleStartup : Startup :=
  mkStartup (mkConfig "http://localhost:8545" (JStr "42") None) (JNum 3000).

Lemma cache_max_age_decimal_roundtrip_witness :
  (BootAppJs.loadConfig sampleProcessEnv = ROk sampleStartup /\
   sampleProcessEnv !! "CACHE_MAX_AGE"%string = Some (Z_to_dec 42)) /\
  js_times_1000 (CACHE_MAX_AGE (su_cfg sampleStartup)) = Finite (42 * 1000).
Proof.
  assert (H1 : BootAppJs.loadConfig sampleProcessEnv = ROk sampleStartup) by (vm_compute; reflexivity).
  assert (H2 : sampleProcessEnv !! "CACHE_MAX_AGE"%string = Some (Z_to_dec 42)) by (vm_compute; reflexivity).
  split; [split; assumption|].
  exact (proj1 (cache_max_age_decimal_roundtrip sampleProcessEnv sampleStartup (or_introl H1)) 42%Z H2).
Defined.

Definition nanProcessEnv : ProcessEnv :=
  <["RPC" := "http://localhost:8545"]> (<["CACHE_MAX_AGE" := "10s"]> ∅).

Definition nanStartup : Startup := mkStartup (mkConfig "http://localhost:8545" (JStr "10s") None) (JNum 3000).

Lemma part000_nan_max_age_never_cached_witness :
  let body := sampleBody "eth_blockNumber" (JArr []) in
  let w := sampleWorld (mkStore {[getCacheKey body := mkEntry 100 (JStr "0x10") 0 1]} None)
             (fun _ => (5%nat, ROk sampleAnswer)) in
  (BootPart000.loadConfig nanProcessEnv = ROk nanStartup /\
   nanProcessEnv !! "CACHE_MAX_AGE"%string = Some "10s"%string /\ string_to_number "10s" = NumNaN /\
   js_includes Part000.IMMUTABLE_METHODS (js_prop body "method") = false) /\
  let '(_, w') := HandlerPart000.handlePost (fun _ => ROk JNull) (su_cfg nanStartup) 1 body w in
  httpCacheResCnt (w_glob w') = httpCacheResCnt (w_glob w) /\
  (length (env_posts (w_env w)) < length (env_posts (w_env w')))%nat.
Proof.
  intros body w.
  assert (H1 : BootPart000.loadConfig nanProcessEnv = ROk nanStartup) by (vm_compute; reflexivity).
  assert (H2 : nanProcessEnv !! "CACHE_MAX_AGE"%string = Some "10s"%string) by (vm_compute; reflexivity).
  assert (H3 : string_to_number "10s" = NumNaN) by (vm_compute; reflexivity).
  assert (H4 : js_includes Part000.IMMUTABLE_METHODS (js_prop body "method") = false) by reflexivity.
  split; [split_and!; assumption|].
  exact (part000_nan_max_age_never_cached nanProcessEnv nanStartup "10s" (fun _ => ROk JNull) 1 body w H1 H2 H3 H4).
Defined.
