(* ===== verification/Server.v ===== *)
(** * The server process: routes, signal, callbacks

    [handleHttpConnection] (app.js lines 120-128, part_000 lines
    161-169) installs [bodyParser.json()] for every request, then the
    route [GET /printstats] (the statistics printer) and the route
    [POST /] (the coordinator); [process.on("SIGINT", ...)] (app.js line
    54, part_000 line 43) registers the printer on Ctrl-C.  In part_000
    the database of [DB_FILE] is opened asynchronously (lines 10-19):
    the open callback runs [CREATE TABLE IF NOT EXISTS] and either
    callback throws on an error, which ends the process.

    A [Server] is the [World] of [Coordinator], the [Proc] of [Stats]
    (console, process status, pending [COUNT( * )] queries), the number
    of handler promises that rejected (each one an unhandled rejection,
    which ends the process on Node 15 and later, [crash_on_rejection]),
    and the phase of the database.  [step] handles one event of the
    process; a request is handled to completion before the next event
    (the interleaving of requests is the subject of [EventLoop]).  An
    event that cannot happen in a state (a database callback without a
    database or out of order, a [COUNT] callback with no query pending)
    is [None]; once the process has ended, events change nothing.

    Behaviour of the libraries, from their documentation and defaults:
    - body-parser 1 [json()] (strict): a JSON body must be an object or
      an array, otherwise (or when it does not parse) the request goes to
      Express's final handler, which answers 400; a request with another
      content type, or none, gets [req.body = {}];
    - Express 4 routing: case-insensitive paths, an optional trailing
      slash, the query string ignored; a [GET] route also answers
      [HEAD]; no route gives a 404 from the final handler.  The HTML of
      the final handler's pages is not modelled (the body is
      [undefined]). *)

From Stdlib Require Import ZArith String Ascii.
From stdpp Require Import base gmap strings list.
From S2P Require Import Prelude JsValue Runtime Policy CacheStore Coordinator Stats Bootstrap.

Local Open Scope Z_scope.

(** ** Requests as Express sees them *)

Inductive raw_body : Type :=
| JsonText (v : jsval)   (** a JSON body that parses to [v] *)
| BadJson                (** a JSON body that does not parse *)
| NoJson.                (** no body, or another content type *)

(** [bodyParser.json()]: the [req.body] the routes see, or [None] for
    the error that Express answers with 400. *)
Definition bodyParserJson (b : raw_body) : option jsval :=
  match b with
  | JsonText (JObj fs) => Some (JObj fs)
  | JsonText (JArr l) => Some (JArr l)
  | JsonText _ | BadJson => None
  | NoJson => Some (JObj [])
  end.

Definition ascii_lower (c : ascii) : ascii :=
  let n := nat_of_ascii c in
  if Nat.leb 65 n && Nat.leb n 90 then ascii_of_nat (n + 32) else c.

Fixpoint str_lower (s : string) : string :=
  match s with
  | EmptyString => EmptyString
  | String c s' => String (ascii_lower c) (str_lower s')
  end.

(** The path without its query string. *)
Fixpoint strip_query (s : string) : string :=
  match s with
  | EmptyString => EmptyString
  | String c s' => if is_char 63 c then EmptyString else String c (strip_query s')
  end.

(** Express 4 path matching with its defaults. *)
Definition path_matches (route path : string) : bool :=
  let p := str_lower (strip_query path) in
  String.eqb p route || (negb (String.eqb route "/") && String.eqb p (route ++ "/"))%string.

Inductive route : Type := RoutePrintStats | RoutePost | NoRoute.

(** The routes of [handleHttpConnection], in registration order. *)
Definition route_of (verb path : string) : route :=
  if (String.eqb verb "GET" || String.eqb verb "HEAD") && path_matches "/printstats" path
  then RoutePrintStats
  else if String.eqb verb "POST" && path_matches "/" path then RoutePost
  else NoRoute.

(** ** The process *)

Inductive srv_event : Type :=
| HttpRequest (t : Z) (rid : nat) (verb path : string) (body : raw_body)
| Sigint
| CountCallback                      (** the pending [COUNT( * )] query answers *)
| DbOpened (err : option string)     (** the callback of [new sqlite3.Database] *)
| TableCreated (err : option string). (** the callback of [CREATE TABLE IF NOT EXISTS] *)

Inductive db_phase : Type := NoDb | DbOpening | DbCreating | DbReady.

Record Server : Type := mkServer {
  srv_world : World;
  srv_proc : Proc;
  srv_rejected : nat;
  srv_phase : db_phase
}.

Definition ev_rid (ev : srv_event) : option nat :=
  if ev is HttpRequest _ rid _ _ _ then Some rid else None.

(** A request that reaches the route [GET /printstats]. *)
Definition stats_request (ev : srv_event) : bool :=
  match ev with
  | HttpRequest _ _ verb path body =>
      (if route_of verb path is RoutePrintStats then true else false) &&
      (if bodyParserJson body is Some _ then true else false)
  | _ => false
  end.

(** A run of the process: the events in order, [None] if one of them
    cannot happen. *)
Fixpoint run_events (step : Server -> srv_event -> option Server) (s : Server) (evs : list srv_event)
    : option Server :=
  match evs with
  | [] => Some s
  | ev :: evs' => match step s ev with Some s' => run_events step s' evs' | None => None end
  end.

Definition running (s : Server) : bool := if p_status (srv_proc s) is Running then true else false.

Definition set_world (w : World) (s : Server) : Server :=
  mkServer w (srv_proc s) (srv_rejected s) (srv_phase s).

Definition set_proc (p : Proc) (s : Server) : Server :=
  mkServer (srv_world s) p (srv_rejected s) (srv_phase s).

Definition crash (e : exn) (p : Proc) : Proc := mkProc (p_log p) (Crashed e) (p_pending p).

(** An answer of Express's final handler. *)
Definition express_reply (rid : nat) (status : Z) (s : Server) : Server :=
  set_world (snd (res_send rid status JUndef (srv_world s))) s.

(** [POST /]: the handler at the arrival time [t]; a rejection is
    unhandled. *)
Definition run_handler (crash_on_rejection : bool) (h : nat -> jsval -> ST World exn unit)
    (t : Z) (rid : nat) (body : jsval) (s : Server) : Server :=
  let '(r, w') := h rid body (arrive t (srv_world s)) in
  match r with
  | ROk _ => set_world w' s
  | RErr e =>
      mkServer w' (if crash_on_rejection then crash e (srv_proc s) else srv_proc s)
        (S (srv_rejected s)) (srv_phase s)
  end.

(** The HTTP side of both versions: the body parser, then the routes. *)
Definition on_request (printStats : Globals -> Proc -> Proc) (h : nat -> jsval -> ST World exn unit)
    (crash_on_rejection : bool) (t : Z) (rid : nat) (verb path : string) (body : raw_body) (s : Server)
    : Server :=
  match bodyParserJson body with
  | None => express_reply rid 400 s
  | Some b =>
      match route_of verb path with
      | RoutePrintStats => set_proc (printStats (w_glob (srv_world s)) (srv_proc s)) s
      | RoutePost => run_handler crash_on_rejection h t rid b s
      | NoRoute => express_reply rid 404 s
      end
  end.

Module ServerAppJs.
Section WithCfg.
Variables (cfg : Config) (crash_on_rejection : bool).

(** app.js: [printStats] on both triggers; no database. *)
Definition step (s : Server) (ev : srv_event) : option Server :=
  if negb (running s) then Some s else
  match ev with
  | HttpRequest t rid verb path body =>
      Some (on_request StatsAppJs.printStats (HandlerAppJs.handlePost cfg) crash_on_rejection t rid verb path body s)
  | Sigint => Some (set_proc (StatsAppJs.printStats (w_glob (srv_world s)) (srv_proc s)) s)
  | CountCallback | DbOpened _ | TableCreated _ => None
  end.
End WithCfg.
End ServerAppJs.

Module ServerPart000.
Section WithCfg.
Variables (json_parse : string -> res exn jsval) (cfg : Config) (crash_on_rejection : bool).

Definition db_path : string := if DB_FILE cfg is Some f then f else EmptyString.

(** The store with the table created. *)
Definition create_table (st : Store) : Store :=
  mkStore (st_cache st) (option_map (fun db => mkDb true (db_rows db)) (st_db st)).

(** part_000: [printStats] on [GET /printstats], [printStatsAndExit]
    on [SIGINT], and the callbacks of sqlite. *)
Definition step (s : Server) (ev : srv_event) : option Server :=
  if negb (running s) then Some s else
  match ev with
  | HttpRequest t rid verb path body =>
      Some (on_request StatsPart000.printStats (HandlerPart000.handlePost json_parse cfg) crash_on_rejection
              t rid verb path body s)
  | Sigint => Some (set_proc (StatsPart000.printStatsAndExit (w_glob (srv_world s)) (srv_proc s)) s)
  | CountCallback =>
      match p_pending (srv_proc s), st_db (g_store (w_glob (srv_world s))) with
      | S _, Some db => Some (set_proc (count_callback db (srv_proc s)) s)
      | _, _ => None
      end
  | DbOpened err =>
      if srv_phase s is DbOpening then
        match err with
        | Some m => Some (set_proc (crash (JsError ("opening DB at " ++ db_path ++ " failed: " ++ m)) (srv_proc s)) s)
        | None => Some (mkServer (srv_world s)
                          (console_log ["opened and initialized DB " ++ db_path] (srv_proc s))
                          (srv_rejected s) DbCreating)
        end%string
      else None
  | TableCreated err =>
      if srv_phase s is DbCreating then
        match err with
        | Some m => Some (set_proc (crash (JsError ("create table failed: " ++ m)) (srv_proc s)) s)
        | None =>
            let w := srv_world s in
            Some (mkServer (set_store (create_table (g_store (w_glob w))) w) (srv_proc s) (srv_rejected s) DbReady)
        end%string
      else None
  end.
End WithCfg.
End ServerPart000.

(** The process after start-up, with the database file holding [dbfile]
    when [DB_FILE] is set, and the Node environment [e]. *)
Definition initServer (cfg : Config) (dbfile : Db) (e : Env) : Server :=
  mkServer (mkWorld (initGlobals (if DB_FILE cfg is Some _ then Some dbfile else None)) e [])
    (mkProc [] Running 0) 0 (if DB_FILE cfg is Some _ then DbOpening else NoDb).

(** ** The counters against the replies *)

Definition count_status (status : Z) (o : list (nat * Reply)) : nat :=
  length (filter (fun p => reply_status p.2 = status) o).

(** Every cached or upstream response counted is a reply with status 200,
    and every request answered 200 or 500 is counted unless its handler
    rejected. *)
Definition ctr_inv (s : Server) : Prop :=
  let w := srv_world s in
  hits_ups w = count_status 200 (w_out w) /\
  (httpReqCnt (w_glob w) + srv_rejected s = count_status 200 (w_out w) + count_status 500 (w_out w))%nat.

(** What a step does to the replies: the invariant holds on, and the
    replies it adds answer the event's own request, none for a request
    to [/printstats]. *)
Definition step_spec (s : Server) (ev : srv_event) (s' : Server) : Prop :=
  (ctr_inv s -> ctr_inv s') /\
  exists o, w_out (srv_world s') = w_out (srv_world s) ++ o /\ Forall (fun p => ev_rid ev = Some p.1) o /\
    (stats_request ev = true -> o = []).

(** ** Lemmas *)

Lemma count_status_app st o o' : count_status st (o ++ o') = (count_status st o + count_status st o')%nat.
Proof. unfold count_status. by rewrite filter_app, length_app. Qed.

Lemma count_status_one st rid rep :
  count_status st [(rid, rep)] = if decide (reply_status rep = st) then 1%nat else 0%nat.
Proof. unfold count_status. rewrite filter_cons. cbn. by case_decide. Qed.

(** A step that sends nothing and moves no counter. *)
Lemma step_spec_frame s ev s' :
  w_out (srv_world s') = w_out (srv_world s) -> counters (srv_world s') = counters (srv_world s) ->
  srv_rejected s' = srv_rejected s -> step_spec s ev s'.
Proof.
  intros Hw Hc Hr. unfold counters in Hc. injection Hc as H1 H2 H3. split.
  - unfold ctr_inv, hits_ups. rewrite Hw, Hr, H1, H2, H3. done.
  - exists []. rewrite Hw, app_nil_r. by split_and!.
Qed.

Lemma step_spec_same_world s ev s' :
  srv_world s' = srv_world s -> srv_rejected s' = srv_rejected s -> step_spec s ev s'.
Proof. intros Hw Hr. apply step_spec_frame; by rewrite ?Hw. Qed.

Lemma express_reply_spec s ev rid status :
  ev_rid ev = Some rid -> stats_request ev = false -> status <> 200 -> status <> 500 ->
  step_spec s ev (express_reply rid status s).
Proof.
  intros Hev Hst H200 H500. unfold express_reply, res_send.
  destruct (existsb _ _); cbn [snd set_world srv_world srv_rejected]; [by apply step_spec_same_world|].
  split.
  - unfold ctr_inv, hits_ups. cbn [set_world srv_world srv_rejected w_out w_glob]. rewrite !count_status_app, !count_status_one.
    repeat case_decide; cbn [reply_status] in *; lia.
  - exists [(rid, mkReply status JUndef)]. split_and!; [done | by constructor | by rewrite Hst].
Qed.

Lemma run_handler_spec c h `{!CountsReplies h} t rid body s ev :
  ev_rid ev = Some rid -> stats_request ev = false -> fresh_rid rid (srv_world s) = true ->
  step_spec s ev (run_handler c h t rid body s).
Proof.
  intros Hev Hst Hf. unfold run_handler.
  pose proof (counts_replies rid body (arrive t (srv_world s)) Hf) as Hc. unfold counts_reply in Hc.
  destruct (h rid body _) as [r w'] eqn:Hh. destruct Hc as [(rep & Hout & Hrep) Hreq].
  rewrite arrive_out in Hout. unfold hits_ups in Hrep. cbn [arrive set_env w_glob] in Hrep, Hreq.
  assert (Hspec : forall rj, (httpReqCnt (w_glob w') + rj = httpReqCnt (w_glob (srv_world s)) + srv_rejected s + 1)%nat ->
            step_spec s ev (mkServer w' (srv_proc s) rj (srv_phase s)) /\ True).
  { intros rj Hrj. split; [|done]. split.
    - unfold ctr_inv. cbn [srv_world srv_rejected]. rewrite Hout, !count_status_app, !count_status_one.
      intros [H1 H2]. unfold hits_ups in *. cbn in Hrep.
      destruct Hrep as [[Hs Hh'] | [Hs Hh']]; rewrite Hs; repeat case_decide; lia.
    - exists [(rid, rep)]. cbn [srv_world]. rewrite Hout. split_and!; [done | by constructor | by rewrite Hst]. }
  destruct r as [[]|e]; cbn in Hreq; cbv iota.
  - apply (Hspec (srv_rejected s)). cbn in Hreq. lia.
  - edestruct (Hspec (S (srv_rejected s))) as [Hs' _]; [cbn in Hreq; lia|].
    destruct Hs' as [Hinv (o & Ho)]. split; [exact Hinv | by exists o].
Qed.

Lemma on_request_spec ps h `{!CountsReplies h} c t rid verb path body s :
  fresh_rid rid (srv_world s) = true ->
  step_spec s (HttpRequest t rid verb path body) (on_request ps h c t rid verb path body s).
Proof.
  intros Hf. unfold on_request.
  destruct (bodyParserJson body) as [b|] eqn:Hb; [destruct (route_of verb path) eqn:Hr|].
  - by apply step_spec_same_world.
  - apply run_handler_spec; try done. cbn [stats_request]. by rewrite Hr.
  - apply express_reply_spec; try done. cbn [stats_request]. by rewrite Hr.
  - apply express_reply_spec; try done. cbn [stats_request]. by rewrite Hb, andb_false_r.
Qed.

(** The hypothesis of [step_spec] for a step: the event's request, if
    any, has not been answered. *)
Definition fresh_ev (s : Server) (ev : srv_event) : Prop :=
  forall rid, ev_rid ev = Some rid -> fresh_rid rid (srv_world s) = true.

Lemma appjs_step_spec cfg c `{!CountsReplies (HandlerAppJs.handlePost cfg)} s ev s' :
  ServerAppJs.step cfg c s ev = Some s' -> fresh_ev s ev -> step_spec s ev s'.
Proof.
  unfold ServerAppJs.step. intros Hs Hf.
  destruct (running s); cbn in Hs; [|injection Hs as <-; by apply step_spec_same_world].
  destruct ev; simplify_eq; [apply on_request_spec; (typeclasses eauto || by apply Hf) | by apply step_spec_same_world].
Qed.

Lemma part000_step_spec parse cfg c `{!CountsReplies (HandlerPart000.handlePost parse cfg)} s ev s' :
  ServerPart000.step parse cfg c s ev = Some s' -> fresh_ev s ev -> step_spec s ev s'.
Proof.
  unfold ServerPart000.step. intros Hs Hf.
  destruct (running s); cbn in Hs; [|injection Hs as <-; by apply step_spec_same_world].
  destruct ev as [t rid verb path body| | |err|err]; [injection Hs as <-; apply on_request_spec; (typeclasses eauto || by apply Hf)|..];
    repeat (match goal with
            | H : context [match ?x with _ => _ end] |- _ => destruct x
            end); simplify_eq; try by apply step_spec_same_world.
  apply step_spec_frame; done.
Qed.

Lemma fresh_rid_app_other rid w w' o :
  w_out w' = w_out w ++ o -> Forall (fun p => p.1 <> rid) o -> fresh_rid rid w' = fresh_rid rid w.
Proof.
  intros Hw Ho. unfold fresh_rid. rewrite Hw, existsb_app.
  replace (existsb _ o) with false; [by rewrite orb_false_r|].
  symmetry. apply not_true_iff_false. rewrite existsb_exists. intros (p & Hp & E).
  apply Nat.eqb_eq in E. eapply Forall_forall in Ho; [|by apply list_elem_of_In]. done.
Qed.

Section Runs.
Variable step : Server -> srv_event -> option Server.
Hypothesis Hstep : forall s ev s', step s ev = Some s' -> fresh_ev s ev -> step_spec s ev s'.

(** In a run whose requests are distinct and not answered at the start,
    the invariant holds on, and the replies answer requests of the run
    other than those to [/printstats]. *)
Lemma run_events_spec s (evs : list srv_event) s' :
  NoDup (omap ev_rid evs) -> Forall (fun rid => fresh_rid rid (srv_world s) = true) (omap ev_rid evs) ->
  run_events step s evs = Some s' ->
  (ctr_inv s -> ctr_inv s') /\
  exists o, w_out (srv_world s') = w_out (srv_world s) ++ o /\
    Forall (fun p => p.1 ∈ omap ev_rid (filter (fun ev => stats_request ev = false) evs)) o.
Proof.
  revert s. induction evs as [|ev evs IH]; intros s Hnd Hfr Hrun; cbn [run_events] in Hrun.
  - injection Hrun as <-. split; [done|]. exists []. by rewrite app_nil_r.
  - destruct (step s ev) as [s1|] eqn:Hs; [|done].
    assert (Hev : fresh_ev s ev).
    { intros rid Hr. cbn in Hfr. rewrite Hr in Hfr. by apply Forall_cons in Hfr as []. }
    destruct (Hstep s ev s1 Hs Hev) as [Hinv (o1 & Ho1 & Hrid1 & Hst1)].
    assert (Hnd' : NoDup (omap ev_rid evs) /\ forall rid, ev_rid ev = Some rid -> rid ∉ omap ev_rid evs).
    { cbn in Hnd. destruct (ev_rid ev) as [r|].
      - apply NoDup_cons in Hnd as [Hn Hnd]. split; [done|]. by intros rid [= <-].
      - split; [done|]. by intros rid. }
    destruct Hnd' as [Hnd' Hnotin].
    assert (Hfr1 : Forall (fun rid => fresh_rid rid (srv_world s1) = true) (omap ev_rid evs)).
    { apply Forall_forall. intros rid Hin. rewrite (fresh_rid_app_other rid (srv_world s) (srv_world s1) o1 Ho1).
      - cbn in Hfr. destruct (ev_rid ev); [apply Forall_cons in Hfr as [_ Hfr]|];
          by eapply Forall_forall in Hfr.
      - eapply Forall_impl; [exact Hrid1|]. intros p Hp Heq. apply (Hnotin rid); [by rewrite Hp, Heq | exact Hin]. }
    destruct (IH s1 Hnd' Hfr1 Hrun) as [Hinv2 (o2 & Ho2 & Hrid2)].
    split; [tauto|]. exists (o1 ++ o2). rewrite Ho2, Ho1, app_assoc. split; [done|].
    rewrite filter_cons. apply Forall_app. split.
    + destruct (stats_request ev) eqn:Hst; [by rewrite (Hst1 eq_refl)|].
      rewrite decide_True by done. eapply Forall_impl; [exact Hrid1|]. intros p Hp. cbn. rewrite Hp. by left.
    + eapply Forall_impl; [exact Hrid2|]. intros p Hp. case_decide; [|done]. cbn. destruct (ev_rid ev); [by right|done].
Qed.
End Runs.

Lemma stats_rid_not_answered (evs : list srv_event) ev rid :
  NoDup (omap ev_rid evs) -> ev ∈ evs -> stats_request ev = true -> ev_rid ev = Some rid ->
  rid ∉ omap ev_rid (filter (fun ev => stats_request ev = false) evs).
Proof.
  induction evs as [|ev' evs IH]; intros Hnd Hin Hst Hr; [by apply not_elem_of_nil in Hin|].
  rewrite filter_cons. apply elem_of_cons in Hin as [->|Hin].
  - rewrite decide_False by congruence. cbn in Hnd. rewrite Hr in Hnd. apply NoDup_cons in Hnd as [Hn _].
    intros Hin. apply Hn. apply list_elem_of_omap in Hin as (x & Hx & Hxr).
    apply list_elem_of_filter in Hx as [_ Hx]. apply list_elem_of_omap. by exists x.
  - assert (Hnd' : NoDup (omap ev_rid evs)) by (cbn in Hnd; destruct (ev_rid ev'); [by apply NoDup_cons in Hnd as []|done]).
    case_decide; [|by apply IH]. cbn. destruct (ev_rid ev') as [r'|] eqn:Hr'; [|by apply IH].
    apply not_elem_of_cons. split; [|by apply IH].
    intros ->. cbn in Hnd. rewrite Hr' in Hnd. apply NoDup_cons in Hnd as [Hn _]. apply Hn.
    apply list_elem_of_omap. by exists ev.
Qed.

Lemma server_run_spec parse cfg c `{!CountsReplies (HandlerAppJs.handlePost cfg)}
    `{!CountsReplies (HandlerPart000.handlePost parse cfg)} dbfile e (evs : list srv_event) s' :
  NoDup (omap ev_rid evs) ->
  run_events (ServerAppJs.step cfg c) (initServer cfg dbfile e) evs = Some s' \/
  run_events (ServerPart000.step parse cfg c) (initServer cfg dbfile e) evs = Some s' ->
  ctr_inv s' /\ exists o, w_out (srv_world s') = o /\
    Forall (fun p => p.1 ∈ omap ev_rid (filter (fun ev => stats_request ev = false) evs)) o.
Proof.
  intros Hnd Hrun.
  assert (Hfr : Forall (fun rid => fresh_rid rid (srv_world (initServer cfg dbfile e)) = true) (omap ev_rid evs))
    by (apply Forall_forall; intros rid _; reflexivity).
  assert (Hinv : ctr_inv (initServer cfg dbfile e)) by (split; reflexivity).
  destruct Hrun as [Hrun|Hrun];
    [ destruct (run_events_spec _ (appjs_step_spec cfg c) _ _ _ Hnd Hfr Hrun) as [Hi (o & Ho & Hrid)]
    | destruct (run_events_spec _ (part000_step_spec parse cfg c) _ _ _ Hnd Hfr Hrun) as [Hi (o & Ho & Hrid)] ];
    (split; [by apply Hi | by exists o]).
Qed.

(** ** Theorems *)

(** C13. The statistics agree with the replies, in both versions, over any
    run of the process from start-up (requests, [GET /printstats],
    [SIGINT], the database callbacks), whatever the upstream and the
    cache do: the cached and upstream responses counted are exactly the
    replies with status 200, and [nr http requests processed] plus the
    number of handler promises that rejected is the number of replies
    with status 200 or 500; the counter of requests falls behind exactly
    by the rejections. *)
Theorem server_counters_match_replies parse cfg c dbfile e (evs : list srv_event) s' :
  NoDup (omap ev_rid evs) ->
  run_events (ServerAppJs.step cfg c) (initServer cfg dbfile e) evs = Some s' \/
  run_events (ServerPart000.step parse cfg c) (initServer cfg dbfile e) evs = Some s' ->
  let w := srv_world s' in
  (httpCacheResCnt (w_glob w) + httpUpstreamResCnt (w_glob w) = count_status 200 (w_out w) /\
   httpReqCnt (w_glob w) + srv_rejected s' = count_status 200 (w_out w) + count_status 500 (w_out w))%nat.
Proof. intros Hnd Hrun. by destruct (server_run_spec parse cfg c dbfile e evs s' Hnd Hrun) as [[H1 H2] _]. Qed.

(** C14. [GET /printstats] (also [HEAD], any case, a trailing slash or a
    query string) never gets a response, in either version and in any
    run: app.js ends the process in the handler, part_000 prints and
    returns without [res.send], so the client waits until its
    connection times out. *)
Theorem printstats_never_answered parse cfg c dbfile e (evs : list srv_event) s' :
  NoDup (omap ev_rid evs) ->
  run_events (ServerAppJs.step cfg c) (initServer cfg dbfile e) evs = Some s' \/
  run_events (ServerPart000.step parse cfg c) (initServer cfg dbfile e) evs = Some s' ->
  forall ev rid, ev ∈ evs -> stats_request ev = true -> ev_rid ev = Some rid ->
  fresh_rid rid (srv_world s') = true.
Proof.
  intros Hnd Hrun ev rid Hin Hst Hr.
  destruct (server_run_spec parse cfg c dbfile e evs s' Hnd Hrun) as [_ (o & Ho & Hrid)].
  rewrite (fresh_rid_app_other rid (initServer cfg dbfile e).(srv_world) (srv_world s') o); [done|by rewrite Ho|].
  eapply Forall_impl; [exact Hrid|]. intros [r rep] Hp Heq. cbn in Hp, Heq. subst r. by eapply stats_rid_not_answered.
Qed.

(** A process that has ended handles no more events. *)
Lemma appjs_run_stopped cfg c s evs :
  running s = false -> run_events (ServerAppJs.step cfg c) s evs = Some s.
Proof.
  intros Hs. induction evs as [|ev evs IH]; [done|]. cbn [run_events].
  unfold ServerAppJs.step. rewrite Hs. exact IH.
Qed.

(** C29. app.js, a request routed to [GET /printstats] (also [HEAD], any
    case, a trailing slash or a query string) with a body the parser
    accepts: the three counters, the header and one line per cache entry
    are printed, no reply is sent, and the process ends; every later
    event, requests included, leaves the server as it is, so no request
    is handled afterwards (the spec wants the on-demand snapshot to leave
    the process running). *)
Theorem appjs_printstats_exits cfg c s t rid verb path body evs :
  running s = true ->
  stats_request (HttpRequest t rid verb path body) = true ->
  exists s', ServerAppJs.step cfg c s (HttpRequest t rid verb path body) = Some s' /\
    p_status (srv_proc s') = Exited /\ srv_world s' = srv_world s /\
    p_log (srv_proc s') = p_log (srv_proc s) ++ counter_lines (w_glob (srv_world s))
                          ++ "cache stats:" :: cache_lines (st_cache (g_store (w_glob (srv_world s)))) /\
    run_events (ServerAppJs.step cfg c) s' evs = Some s'.
Proof.
  intros Hrun Hst. cbn [stats_request] in Hst.
  destruct (route_of verb path) eqn:Hr; try done. destruct (bodyParserJson body) eqn:Hb; [|done].
  eexists. split; [unfold ServerAppJs.step; rewrite Hrun; cbn [negb]; unfold on_request; rewrite Hb, Hr; reflexivity|].
  split_and!; [done..|]. by apply appjs_run_stopped.
Qed.

(** ** Witnesses *)

Definition sampleParse : string -> res exn jsval := fun _ => ROk JNull.

Definition sampleServer : Server :=
  initServer sampleCfg (mkDb false ∅) (sampleEnv (fun _ => (5%nat, ROk sampleAnswer))).

(** A chain id call, [GET /PrintStats/?verbose=1], a body that does not
    parse, the same call again, an unknown route, [HEAD /printstats]. *)
Definition sampleEvents : list srv_event :=
  [HttpRequest 100 1 "POST" "/" (JsonText (sampleBody "eth_chainId" (JArr [])));
   HttpRequest 110 2 "GET" "/PrintStats/?verbose=1" NoJson;
   HttpRequest 120 3 "POST" "/" BadJson;
   HttpRequest 130 4 "POST" "/" (JsonText (sampleBody "eth_chainId" (JArr [])));
   HttpRequest 140 5 "GET" "/health" NoJson;
   HttpRequest 150 6 "HEAD" "/printstats" NoJson]%string.

Definition sampleFinal : Server :=
  default sampleServer (run_events (ServerPart000.step sampleParse sampleCfg false) sampleServer sampleEvents).

Lemma server_counters_match_replies_witness :
  (NoDup (omap ev_rid sampleEvents) /\
   run_events (ServerPart000.step sampleParse sampleCfg false) sampleServer sampleEvents = Some sampleFinal) /\
  let w := srv_world sampleFinal in
  (httpCacheResCnt (w_glob w) + httpUpstreamResCnt (w_glob w) = count_status 200 (w_out w) /\
   httpReqCnt (w_glob w) + srv_rejected sampleFinal = count_status 200 (w_out w) + count_status 500 (w_out w))%nat.
Proof.
  assert (H1 : NoDup (omap ev_rid sampleEvents)) by (apply (bool_decide_unpack _); vm_compute; reflexivity).
  assert (H2 : run_events (ServerPart000.step sampleParse sampleCfg false) sampleServer sampleEvents = Some sampleFinal)
    by (vm_compute; reflexivity).
  split; [split; assumption|].
  exact (server_counters_match_replies sampleParse sampleCfg false (mkDb false ∅)
           (sampleEnv (fun _ => (5%nat, ROk sampleAnswer))) sampleEvents sampleFinal H1 (or_intror H2)).
Defined.

Lemma printstats_never_answered_witness :
  let ev := HttpRequest 110 2 "GET" "/PrintStats/?verbose=1" NoJson in
  (NoDup (omap ev_rid sampleEvents) /\
   run_events (ServerPart000.step sampleParse sampleCfg false) sampleServer sampleEvents = Some sampleFinal /\
   ev ∈ sampleEvents /\ stats_request ev = true /\ ev_rid ev = Some 2%nat) /\
  fresh_rid 2 (srv_world sampleFinal) = true.
Proof.
  intros ev.
  assert (H1 : NoDup (omap ev_rid sampleEvents)) by (apply (bool_decide_unpack _); vm_compute; reflexivity).
  assert (H2 : run_events (ServerPart000.step sampleParse sampleCfg false) sampleServer sampleEvents = Some sampleFinal)
    by (vm_compute; reflexivity).
  assert (H3 : ev ∈ sampleEvents) by (right; left).
  assert (H4 : stats_request ev = true) by (vm_compute; reflexivity).
  assert (H5 : ev_rid ev = Some 2%nat) by reflexivity.
  split; [split_and!; assumption|].
  exact (printstats_never_answered sampleParse sampleCfg false (mkDb false ∅)
           (sampleEnv (fun _ => (5%nat, ROk sampleAnswer))) sampleEvents sampleFinal H1 (or_intror H2) ev 2 H3 H4 H5).
Defined.

Lemma appjs_printstats_exits_witness :
  (running sampleServer = true /\ stats_request (HttpRequest 110 2 "GET" "/PrintStats/?verbose=1" NoJson) = true) /\
  exists s', ServerAppJs.step sampleCfg false sampleServer (HttpRequest 110 2 "GET" "/PrintStats/?verbose=1" NoJson) = Some s' /\
    p_status (srv_proc s') = Exited /\ srv_world s' = srv_world sampleServer /\
    p_log (srv_proc s') = p_log (srv_proc sampleServer) ++ counter_lines (w_glob (srv_world sampleServer))
                          ++ "cache stats:" :: cache_lines (st_cache (g_store (w_glob (srv_world sampleServer)))) /\
    run_events (ServerAppJs.step sampleCfg false) s' sampleEvents = Some s'.
Proof.
  assert (H1 : running sampleServer = true) by reflexivity.
  assert (H2 : stats_request (HttpRequest 110 2 "GET" "/PrintStats/?verbose=1" NoJson) = true)
    by (vm_compute; reflexivity).
  split; [split; assumption|].
  exact (appjs_printstats_exits sampleCfg false sampleServer 110 2 "GET" "/PrintStats/?verbose=1" NoJson
           sampleEvents H1 H2).
Defined.
