(* ===== verification/HandlerLog.v ===== *)
(** * The console output of the request handlers

    [app.post("/")] of [src/app.js] (lines 130-174) with its console
    calls, and the calls it makes: the duplicate throttling (lines
    134-145), [getResponseFromCache] (lines 79-94), [writeResponseToCache]
    (lines 96-105) and [upstreamHttpRequest] with its own lines
    ([Logging.UpstreamLog]); the same for [src/unnamed/part_000]
    (Module [HandlerLog000]: the handler of lines 171-218, the cache and
    database functions of lines 92-146 with their debug and error
    lines).  The erasure lemmas show that the plain handlers
    [HandlerAppJs.handlePost] and [HandlerPart000.handlePost] of
    [Coordinator] are these with the console forgotten, so the theorems
    of [Coordinator], [EventLoop] and [Server] hold of the logged
    handlers.

    [`${Date.now()/1000}`] prints the time in seconds: the double nearest
    to t/1000 for an integer t, which prints as the exact decimal of
    t/1000 without trailing zeros as long as that decimal has at most 15
    significant digits, here for |t| < 10^15 ms (year 33658).

    [`${err}`] prints an error as its [toString], "Name: message".  The
    message of an [AxiosError] is not part of the model; no
    [AxiosError] reaches the handler's [catch] (theorem C4): what
    reaches it is the [ReferenceError] of exhaustion or the [TypeError]
    of an HTTP error answer, whose message is kept to its first line. *)

From Stdlib Require Import ZArith String.
From stdpp Require Import base gmap strings list.
From S2P Require Import Prelude JsValue Runtime Policy Upstream CacheStore DuplicateDetector Coordinator Logging.

Local Open Scope Z_scope.
Local Open Scope st_scope.

(** ** Printing *)

(** The digits after the point of f/1000, for 0 <= f < 1000. *)
Definition ms_fraction (f : Z) : string :=
  if f =? 0 then EmptyString
  else if f mod 100 =? 0 then "." ++ Z_to_dec (f / 100)
  else if f mod 10 =? 0 then "." ++ (if f / 10 <? 10 then "0" else EmptyString) ++ Z_to_dec (f / 10)
  else "." ++ (if f <? 10 then "00" else if f <? 100 then "0" else EmptyString) ++ Z_to_dec f.

(** [`${t / 1000}`] for a time [t] in ms. *)
Definition seconds_dec (t : Z) : string :=
  (if t <? 0 then "-" else EmptyString) ++ Z_to_dec (Z.abs t / 1000) ++ ms_fraction (Z.abs t mod 1000).

(** [`${maxAgeMs}`] *)
Definition maxage_to_string (ma : maxage) : string :=
  match ma with
  | Finite z => Z_to_dec z
  | Infinity => "Infinity"
  | NegInfinity => "-Infinity"
  | NaN => "NaN"
  end.

(** [`${err}`] *)
Definition exn_to_string (err : exn) : string :=
  match err with
  | TypeError msg => "TypeError: " ++ msg
  | ReferenceError name => "ReferenceError: " ++ name ++ " is not defined"
  | AxiosError _ _ => "AxiosError"
  | DbError msg => "Error: " ++ msg
  | HeadersSentError => "Error [ERR_HTTP_HEADERS_SENT]: Cannot set headers after they are sent to the client"
  | JsError msg => "Error: " ++ msg
  end.

(** [err.message] *)
Definition exn_message (err : exn) : string :=
  match err with
  | TypeError msg | DbError msg | JsError msg => msg
  | ReferenceError name => name ++ " is not defined"
  | AxiosError _ _ => EmptyString
  | HeadersSentError => "Cannot set headers after they are sent to the client"
  end.

(** A cache entry as [JSON.stringify] sees it: [{ val, ts, readCnt,
    writeCnt }] in the order of the literal of line 97. *)
Definition entry_json (e : CacheEntry) : jsval :=
  JObj [("val", val e); ("ts", JNum (ts e)); ("readCnt", JNum (Z.of_nat (readCnt e)));
        ("writeCnt", JNum (Z.of_nat (writeCnt e)))].

(** ** The parts of the world the handler works on *)

Definition dd_of (w : World) : DupMap * Env := (g_dd (w_glob w), w_env w).

Definition set_dd (p : DupMap * Env) (w : World) : World :=
  let g := w_glob w in
  mkWorld (mkGlobals (g_store g) p.1 (httpReqCnt g) (httpUpstreamResCnt g) (httpCacheResCnt g)) p.2 (w_out w).

Definition cache_of (w : World) : Cache := st_cache (g_store (w_glob w)).

Definition set_cache (c : Cache) (w : World) : World :=
  let g := w_glob w in
  mkWorld (mkGlobals (mkStore c (st_db (g_store g))) (g_dd g) (httpReqCnt g) (httpUpstreamResCnt g)
             (httpCacheResCnt g)) (w_env w) (w_out w).

Definition store_of (w : World) : Store := g_store (w_glob w).

(** A pure operation of the cache as a computation. *)
Definition st_of {S A} (f : S -> A * S) : ST S exn A := fun s => (ROk (f s).1, (f s).2).

(** ** The handler *)

Module HandlerLog.

(** Lines 134-145. *)
Definition throttle (key : string) : ST ((DupMap * Env) * Console) exn unit :=
  now <- on_state (st_gets (fun s => env_now (snd s))) ;;
  dd <- on_state (st_gets fst) ;;
  (if isDuplicate now key dd
   then u <- on_state (st_zoom snd (fun e s => (fst s, e)) math_random) ;;
        console_out ("delaying potential duplicate request for " ++ Z_to_dec (duplicateDelay u) ++ " ms...") ;;
        on_state (st_zoom snd (fun e s => (fst s, e)) (sleep (duplicateDelay u)))
   else st_ret tt) ;;
  now' <- on_state (st_gets (fun s => env_now (snd s))) ;;
  on_state (st_modify (fun s => (<[key := now']> (fst s), snd s))).

(** Lines 79-94. *)
Definition getResponseFromCache (now : Z) (key : string) (maxAgeMs : maxage) (reqId : jsval)
    : ST (Cache * Console) exn (option jsval) :=
  cache <- on_state (st_gets id) ;;
  match cache !! key with
  | Some e =>
      if is_fresh now (ts e) maxAgeMs
      then on_state (st_modify (<[key := bumpRead e]>)) ;; st_ret (Some (cacheResponse reqId (val e)))
      else console_out ("cached entry skipped, too old (> " ++ maxage_to_string maxAgeMs ++ " ms)") ;;
           st_ret None
  | None => st_ret None
  end.

(** Lines 96-105, at the time [now] read by line 99. *)
Definition writeResponseToCache (now : Z) (key : string) (v : jsval) : ST (Cache * Console) exn unit :=
  cache <- on_state (st_gets id) ;;
  let newValue := newEntry now key v cache in
  console_out ("writing to cache: key " ++ key ++ ", value " ++ json_stringify_tmpl (entry_json newValue)) ;;
  on_state (st_modify (<[key := newValue]>)).

(** Lines 154-172. *)
Definition forwardToUpstream (cfg : Config) (rid : nat) (body : jsval) (cacheKey : string)
    : ST (World * Console) exn unit :=
  st_catch
    (rpcRes <- zoom_log w_env set_env
                 (UpstreamLog.upstreamHttpRequest (RPC cfg) body DEFAULT_RETRIES DEFAULT_INITIAL_TIMEOUT_MS) ;;
     console_out ("RPC response: " ++ json_stringify_tmpl rpcRes) ;;
     on_state incr_upstream ;;
     on_state (res_send rid 200 rpcRes) ;;
     cache <- on_state (lift_res (Policy.AppJs.shouldCache body)) ;;
     if cache
     then result <- on_state (lift_res (js_get rpcRes "result")) ;;
          now' <- on_state (on_env date_now) ;;
          zoom_log cache_of set_cache (writeResponseToCache now' cacheKey result)
     else st_ret tt)
    (fun err => console_err ("upstream request permanently failed: " ++ exn_to_string err) ;;
                on_state (res_send rid 500 (exn_body err))).

(** Lines 130-174. *)
Definition handlePost (cfg : Config) (rid : nat) (body : jsval) : ST (World * Console) exn unit :=
  now0 <- on_state (on_env date_now) ;;
  console_out ("RPC request at " ++ seconds_dec now0 ++ ": " ++ json_stringify_tmpl body) ;;
  let cacheKey := getCacheKey body in
  zoom_log dd_of set_dd (throttle cacheKey) ;;
  let cacheMaxAgeMs := Policy.AppJs.cacheMaxAgeMs cfg (js_prop body "method") in
  now <- on_state (on_env date_now) ;;
  cachedResponse <- zoom_log cache_of set_cache
    (getResponseFromCache now cacheKey cacheMaxAgeMs (js_prop body "id")) ;;
  (match cachedResponse with
   | Some r =>
       console_out ("RPC cached response: " ++ json_stringify_tmpl r) ;;
       on_state (res_send rid 200 r) ;;
       on_state incr_cached
   | None => forwardToUpstream cfg rid body cacheKey
   end) ;;
  on_state incr_req.

End HandlerLog.

(** ** The handler of part_000 (lines 92-146 and 171-218) *)

Module HandlerLog000.
Section WithParse.
Local Open Scope string_scope.
(** [JSON.parse] *)
Variable json_parse : string -> res exn jsval.

(** The [try] block of lines 103-114, with the debug line of a stale
    row. *)
Definition readFromDb (now : Z) (key : string) (maxAgeMs : maxage) (cache : Cache) (db : Db)
    : res exn jsval * option string :=
  match WithDb.getFromDb key db with
  | RErr e => (RErr e, None)
  | ROk None => (ROk JUndef, None)
  | ROk (Some rowval) =>
      match cache !! key with
      | None => (RErr (TypeError "Cannot read properties of undefined (reading 'ts')"), None)
      | Some e =>
          if is_fresh now (ts e) maxAgeMs
          then (json_parse (if rowval is Some s then s else "null"), None)
          else (ROk JUndef, Some ("DB entry skipped, too old (> " ++ maxage_to_string maxAgeMs ++ " ms)"))
      end
  end.

(** Lines 92-128. *)
Definition getResponseFromCache (now : Z) (key : string) (maxAgeMs : maxage) (reqId : jsval)
    : ST (Store * Console) exn (option jsval) :=
  s <- on_state (st_gets id) ;;
  v <- match st_cache s !! key with
       | Some e =>
           if is_fresh now (ts e) maxAgeMs
           then on_state (st_modify (fun s => mkStore (<[key := bumpRead e]> (st_cache s)) (st_db s))) ;;
                st_ret (val e)
           else console_out ("cached entry skipped, too old (> " ++ maxage_to_string maxAgeMs ++ " ms)") ;;
                st_ret JUndef
       | None =>
           match st_db s with
           | Some db =>
               match readFromDb now key maxAgeMs (st_cache s) db with
               | (ROk v, None) => st_ret v
               | (ROk v, Some line) => console_out line ;; st_ret v
               | (RErr err, _) => console_err ("DB read error: " ++ exn_message err) ;; st_ret JUndef
               end
           | None => st_ret JUndef
           end
       end ;;
  st_ret (if js_nullish v then None else Some (cacheResponse reqId v)).

(** Lines 130-146; the callback of [db.run] reports a failed insert. *)
Definition writeResponseToCache (now : Z) (key : string) (v : jsval) : ST (Store * Console) exn unit :=
  s <- on_state (st_gets id) ;;
  let newValue := newEntry now key v (st_cache s) in
  console_out ("writing to cache: key " ++ key ++ ", value " ++ json_stringify_tmpl (entry_json newValue)) ;;
  match st_db s with
  | Some db =>
      (if db_table db then st_ret tt else console_err "SQLITE_ERROR: no such table: data") ;;
      on_state (st_modify (fun s => mkStore (st_cache s)
        (Some (WithDb.dbInsertOrReplace key (json_stringify (val newValue)) (ts newValue) db))))
  | None => on_state (st_modify (fun s => mkStore (<[key := newValue]> (st_cache s)) None))
  end.

(** Lines 195-216. *)
Definition forwardToUpstream (cfg : Config) (rid : nat) (body : jsval) (cacheKey : string)
    : ST (World * Console) exn unit :=
  st_catch
    (rpcRes <- zoom_log w_env set_env
                 (UpstreamLog.upstreamHttpRequest (RPC cfg) body DEFAULT_RETRIES DEFAULT_INITIAL_TIMEOUT_MS) ;;
     console_out ("#" ++ js_to_string (js_prop body "id") ++ " Upstream response for " ++
                  js_to_string (js_prop body "method") ++ ": " ++ json_stringify_tmpl rpcRes) ;;
     on_state incr_upstream ;;
     on_state (res_send rid 200 rpcRes) ;;
     cache <- on_state (lift_res (Policy.Part000.shouldCache body)) ;;
     if cache
     then result <- on_state (lift_res (js_get rpcRes "result")) ;;
          now' <- on_state (on_env date_now) ;;
          zoom_log store_of set_store (writeResponseToCache now' cacheKey result)
     else st_ret tt)
    (fun err => console_err ("upstream request permanently failed: " ++ exn_to_string err) ;;
                on_state (res_send rid 500 (exn_body err))).

(** Lines 171-218. *)
Definition handlePost (cfg : Config) (rid : nat) (body : jsval) : ST (World * Console) exn unit :=
  now0 <- on_state (on_env date_now) ;;
  console_out ("#" ++ js_to_string (js_prop body "id") ++ " RPC request at " ++ seconds_dec now0 ++ ": " ++
               json_stringify_tmpl body) ;;
  let cacheKey := getCacheKey body in
  zoom_log dd_of set_dd (HandlerLog.throttle cacheKey) ;;
  let cacheMaxAgeMs := Policy.Part000.cacheMaxAgeMs cfg (js_prop body "method") in
  now <- on_state (on_env date_now) ;;
  cachedResponse <- zoom_log store_of set_store
    (getResponseFromCache now cacheKey cacheMaxAgeMs (js_prop body "id")) ;;
  (match cachedResponse with
   | Some r =>
       console_out ("#" ++ js_to_string (js_prop body "id") ++ " Cached response for " ++
                    js_to_string (js_prop body "method") ++ ": " ++ json_stringify_tmpl r) ;;
       on_state (res_send rid 200 r) ;;
       on_state incr_cached
   | None => forwardToUpstream cfg rid body cacheKey
   end) ;;
  on_state incr_req.
End WithParse.
End HandlerLog000.

(** ** Lemmas *)

#[local] Hint Resolve upstream_log_erases : rpc.

(** [Date.now()] only reads the world. *)
Lemma date_now_read {A} (m : ST World exn A) : st_eq (_ <- on_env date_now ;; m) m.
Proof. intros [g e o]. reflexivity. Qed.

Lemma erases_on_env {A} (mL : ST (Env * Console) exn A) m :
  erases mL m -> erases (zoom_log w_env set_env mL) (on_env m).
Proof. apply erases_zoom. Qed.

Lemma erases_with_cache {A} (mL : ST (Cache * Console) exn A) f :
  erases mL (st_of f) -> erases (zoom_log cache_of set_cache mL) (with_cache f).
Proof.
  intros H. eapply erases_ext; [by apply erases_zoom|]. intros w.
  unfold st_zoom, st_of, with_cache, with_store, cache_of, set_cache. cbn. by destruct (f _).
Qed.

Lemma getResponseFromCache_erases now key ma reqId :
  erases (HandlerLog.getResponseFromCache now key ma reqId) (st_of (InMemory.getResponseFromCache now key ma reqId)).
Proof.
  intros cache c. unfold HandlerLog.getResponseFromCache, InMemory.getResponseFromCache, st_of.
  unfold st_bind at 1. rewrite on_state_run. cbn [st_gets fst snd id].
  destruct (cache !! key) as [e|]; [destruct (is_fresh _ _ _)|]; eexists; cbn; [by rewrite app_nil_r | reflexivity | by rewrite app_nil_r].
Qed.

Lemma writeResponseToCache_erases now key v :
  erases (HandlerLog.writeResponseToCache now key v) (st_of (fun c => (tt, InMemory.writeResponseToCache now key v c))).
Proof.
  intros cache c. eexists. unfold HandlerLog.writeResponseToCache, st_bind, console_out, st_modify, st_of.
  rewrite !on_state_run. cbn. reflexivity.
Qed.

Lemma throttle_erases key : erases (zoom_log dd_of set_dd (HandlerLog.throttle key)) (on_dd (throttle key)).
Proof.
  change (on_dd (throttle key)) with (st_zoom dd_of set_dd (throttle key)). apply erases_zoom.
  unfold HandlerLog.throttle, throttle. erase_tac.
Qed.

#[local] Hint Resolve erases_on_env erases_with_cache getResponseFromCache_erases writeResponseToCache_erases throttle_erases : rpc.

Lemma forward_erases cfg rid body key :
  erases (HandlerLog.forwardToUpstream cfg rid body key) (HandlerAppJs.forwardToUpstream cfg rid body key).
Proof. unfold HandlerLog.forwardToUpstream, HandlerAppJs.forwardToUpstream. erase_tac. Qed.

Lemma appjs_handler_erases cfg rid body :
  erases (HandlerLog.handlePost cfg rid body) (HandlerAppJs.handlePost cfg rid body).
Proof.
  pose proof forward_erases as Hf. eapply erases_ext; [|apply date_now_read].
  unfold HandlerLog.handlePost, HandlerAppJs.handlePost. erase_tac.
Qed.

Lemma erases_with_store {A} (mL : ST (Store * Console) exn A) f :
  erases mL (st_of f) -> erases (zoom_log store_of set_store mL) (with_store f).
Proof.
  intros H. eapply erases_ext; [by apply erases_zoom|]. intros w.
  unfold st_zoom, st_of, with_store, store_of, set_store. cbn. by destruct (f _).
Qed.

Lemma readFromDb_fst parse now key ma cache db :
  (HandlerLog000.readFromDb parse now key ma cache db).1 = WithDb.readFromDb parse now key ma cache db.
Proof. unfold HandlerLog000.readFromDb, WithDb.readFromDb. by repeat case_match. Qed.

Lemma getResponseFromCache000_erases parse now key ma reqId :
  erases (HandlerLog000.getResponseFromCache parse now key ma reqId)
    (st_of (WithDb.getResponseFromCache parse now key ma reqId)).
Proof.
  intros [cache odb] c. unfold HandlerLog000.getResponseFromCache, WithDb.getResponseFromCache, st_of.
  unfold st_bind at 1. rewrite on_state_run. cbn [st_gets id fst snd st_cache st_db].
  destruct (cache !! key) as [e|]; [destruct (is_fresh _ _ _)|destruct odb as [db|]].
  3: { rewrite <- readFromDb_fst. destruct (HandlerLog000.readFromDb _ _ _ _ _ _) as [[v|err] [line|]]; eexists; cbn; first [reflexivity | rewrite app_nil_r; reflexivity]. }
  all: eexists; cbn; first [reflexivity | rewrite app_nil_r; reflexivity].
Qed.

Lemma writeResponseToCache000_erases now key v :
  erases (HandlerLog000.writeResponseToCache now key v)
    (st_of (fun s => (tt, WithDb.writeResponseToCache now key v s))).
Proof.
  intros [cache odb] c. unfold HandlerLog000.writeResponseToCache, WithDb.writeResponseToCache, st_of.
  unfold st_bind. rewrite on_state_run. cbn [st_gets id fst snd st_cache st_db].
  destruct odb as [db|]; [destruct (db_table db)|]; eexists; cbn; first [reflexivity | rewrite <- app_assoc; reflexivity].
Qed.

#[local] Hint Resolve upstream_log_erases erases_with_store getResponseFromCache000_erases
  writeResponseToCache000_erases throttle_erases erases_on_env : rpc.

Lemma forward000_erases cfg rid body key :
  erases (HandlerLog000.forwardToUpstream cfg rid body key) (HandlerPart000.forwardToUpstream cfg rid body key).
Proof. unfold HandlerLog000.forwardToUpstream, HandlerPart000.forwardToUpstream. erase_tac. Qed.

Lemma handler000_erases parse cfg rid body :
  erases (HandlerLog000.handlePost parse cfg rid body) (HandlerPart000.handlePost parse cfg rid body).
Proof.
  pose proof forward000_erases as Hf. eapply erases_ext; [|apply date_now_read].
  unfold HandlerLog000.handlePost, HandlerPart000.handlePost. erase_tac.
Qed.

(** ** Theorems *)

(** C40. The log calls a success a permanent failure: when app.js
    forwards a method it caches and the upstream answers with [null]
    data, the client gets the 200 reply with [null] and the response is
    counted as an upstream response, yet [rpcRes.data.result] throws,
    the [catch] writes "upstream request permanently failed: TypeError:
    ..." to stderr, and its [res.status(500).send] throws
    ERR_HTTP_HEADERS_SENT out of the handler. *)
Theorem appjs_null_result_logged_as_failure cfg rid body key w c :
  js_includes Policy.AppJs.CACHED_METHODS (js_prop body "method") = true ->
  fresh_rid rid w = true ->
  snd (env_net (w_env w) (length (env_posts (w_env w)))) = ROk JNull ->
  let '(r, (w', c')) := HandlerLog.forwardToUpstream cfg rid body key (w, c) in
  r = RErr HeadersSentError /\
  c' = c ++ [(Stdout, "RPC response: null");
             (Stderr, "upstream request permanently failed: TypeError: Cannot read properties of null (reading 'result')")]%string /\
  w_out w' = w_out w ++ [(rid, mkReply 200 JNull)] /\
  httpUpstreamResCnt (w_glob w') = S (httpUpstreamResCnt (w_glob w)).
Proof.
  intros Hm Hf Hnet. unfold HandlerLog.forwardToUpstream, st_catch, st_bind at 1.
  unfold zoom_log, st_zoom at 1. cbn [fst snd]. rewrite (log_ok_step _ _ _ _ _ _ _ Hnet). cbn.
  apply negb_true_iff in Hf. unfold st_bind, on_state, st_zoom, res_send, lift_res, AppJs.shouldCache.
  cbn [fst snd w_out]. rewrite Hf, Hm. cbn [fst snd w_out].
  replace (existsb _ (w_out w ++ _)) with true by (rewrite existsb_app; cbn; by rewrite Nat.eqb_refl, orb_true_r).
  cbn.
  split_and!; [done | by rewrite <- app_assoc | done | done].
Qed.

(** ** Witnesses *)

Definition nullWorld : World := sampleWorld (mkStore ∅ None) (fun _ => (5%nat, ROk JNull)).

Lemma appjs_null_result_logged_as_failure_witness :
  (js_includes Policy.AppJs.CACHED_METHODS (js_prop (sampleBody "eth_blockNumber" (JArr [])) "method") = true) /\
  (fresh_rid 1%nat nullWorld = true) /\
  (snd (env_net (w_env nullWorld) (length (env_posts (w_env nullWorld)))) = ROk JNull) /\
  (let '(r, (w', c')) := HandlerLog.forwardToUpstream sampleCfg 1%nat (sampleBody "eth_blockNumber" (JArr []))
                           "eth_blockNumber[]" (nullWorld, []) in
   r = RErr HeadersSentError /\
   c' = [(Stdout, "RPC response: null"%string);
         (Stderr, "upstream request permanently failed: TypeError: Cannot read properties of null (reading 'result')"%string)] /\
   w_out w' = [(1%nat, mkReply 200 JNull)] /\ httpUpstreamResCnt (w_glob w') = 1%nat).
Proof.
  split_and!; [reflexivity..|].
  exact (appjs_null_result_logged_as_failure sampleCfg 1 (sampleBody "eth_blockNumber" (JArr [])) "eth_blockNumber[]" nullWorld [] eq_refl eq_refl eq_refl).
Defined.
