(* ===== verification/Scenarios.v ===== *)
(** * End-to-end scenarios of the spec, run on the handlers

    Each theorem serves a list of requests, one after the other, with the
    [serve] driver of [Coordinator] and states what the clients receive and
    how many posts reach the upstream.  [JSON.parse] (part_000) is left
    universally quantified, and so are the random draws where no request
    is delayed; where one is, [Math.random()] returns 0.5 (u = 2^52), a
    delay of 1000 ms. *)

From Stdlib Require Import ZArith String.
From stdpp Require Import base gmap strings list.
From S2P Require Import Prelude JsValue Runtime Policy Upstream CacheStore DuplicateDetector Coordinator EventLoop Stats.

Local Open Scope Z_scope.

(** A JSON-RPC request and a successful answer. *)
Definition rpcRequest (m : string) (params : jsval) (id : Z) : jsval :=
  JObj [("jsonrpc", JStr "2.0"); ("method", JStr m); ("params", params); ("id", JNum id)]%string.

Definition rpcResult (id : Z) (r : jsval) : jsval :=
  JObj [("jsonrpc", JStr "2.0"); ("id", JNum id); ("result", r)]%string.

(** Start-up state: empty globals, clock at 0, every draw of
    [Math.random()] equal to u / 2^53, the upstream given by [net]. *)
Definition startWorld (u : Z) (net : nat -> nat * res exn jsval) (db : option Db) : World :=
  mkWorld (initGlobals db)
    {| env_now := 0; env_timers := []; env_random := fun _ => u; env_draws := 0;
       env_net := net; env_posts := [] |} [].

(** An upstream answering every call with [r] after 50 ms. *)
Definition upstreamAnswering (r : jsval) : nat -> nat * res exn jsval := fun _ => (50%nat, ROk r).

Definition config (maxAgeSeconds : Z) : Config := mkConfig "http://rpc" (JNum maxAgeSeconds) None.

(** Scenario 1: [eth_chainId] twice, 100 ms apart.  One post; the second
    request sleeps the randomized delay once (1000 ms) and is answered
    from the cache with its own id. *)
Lemma scenario_chainId_twice parse :
  let w := serve (HandlerPart000.handlePost parse (config 10))
             (startWorld (2 ^ 52) (upstreamAnswering (rpcResult 1 (JStr "0x1"))) None)
             [(0, 1%nat, rpcRequest "eth_chainId" (JArr []) 1);
              (100, 2%nat, rpcRequest "eth_chainId" (JArr []) 2)] in
  length (env_posts (w_env w)) = 1%nat /\
  w_out w = [(1%nat, mkReply 200 (rpcResult 1 (JStr "0x1")));
             (2%nat, mkReply 200 (cacheResponse (JNum 2) (JStr "0x1")))] /\
  env_timers (w_env w) = [1000] /\
  httpCacheResCnt (w_glob w) = 1%nat /\ httpUpstreamResCnt (w_glob w) = 1%nat /\ httpReqCnt (w_glob w) = 2%nat.
Proof. vm_compute. split_and!; reflexivity. Qed.

(** Scenario 2: [eth_blockNumber] with [CACHE_MAX_AGE=1], at t = 0 and
    t = 2000: the entry has expired, both requests are forwarded, and the
    second client receives the upstream's answer verbatim, with the id
    the upstream chose (here 1, not the request's 2: the open question of
    spec section 9). *)
Lemma scenario_blockNumber_expired parse u :
  let w := serve (HandlerPart000.handlePost parse (config 1))
             (startWorld u (upstreamAnswering (rpcResult 1 (JStr "0x10"))) None)
             [(0, 1%nat, rpcRequest "eth_blockNumber" (JArr []) 1);
              (2000, 2%nat, rpcRequest "eth_blockNumber" (JArr []) 2)] in
  length (env_posts (w_env w)) = 2%nat /\
  w_out w = [(1%nat, mkReply 200 (rpcResult 1 (JStr "0x10")));
             (2%nat, mkReply 200 (rpcResult 1 (JStr "0x10")))] /\
  httpCacheResCnt (w_glob w) = 0%nat.
Proof. vm_compute. split_and!; reflexivity. Qed.

Definition ethCallAt (blockHash : string) (id : Z) : jsval :=
  rpcRequest "eth_call"
    (JArr [JObj [("to", JStr "0xab"); ("data", JStr "0x01")]; JObj [("blockHash", JStr blockHash)]])%string id.

(** Scenario 4: [eth_call] pinned to a block hash.  Called twice 100 ms
    apart the second call is a hit; called again 20 s later (past the
    default [CACHE_MAX_AGE] of 10 s) it is forwarded again: the entry is
    written as immutable but read with the volatile maximum age, not the
    infinite one the spec gives conditionally-immutable calls. *)
Lemma scenario_eth_call_blockHash parse :
  let w := serve (HandlerPart000.handlePost parse (config 10))
             (startWorld (2 ^ 52) (upstreamAnswering (rpcResult 1 (JStr "0xff"))) None)
             [(0, 1%nat, ethCallAt "0x12" 1); (100, 2%nat, ethCallAt "0x12" 2);
              (20000, 3%nat, ethCallAt "0x12" 3)] in
  length (env_posts (w_env w)) = 2%nat /\
  w_out w = [(1%nat, mkReply 200 (rpcResult 1 (JStr "0xff")));
             (2%nat, mkReply 200 (cacheResponse (JNum 2) (JStr "0xff")));
             (3%nat, mkReply 200 (rpcResult 1 (JStr "0xff")))].
Proof. vm_compute. split_and!; reflexivity. Qed.

(** app.js caches an upstream JSON-RPC error for [eth_chainId] as the
    value [undefined], then answers every later [eth_chainId], however
    late, with an envelope that serializes to an answer with neither
    [result] nor [error]. *)
Lemma scenario_appjs_caches_error parse u :
  let w := serve (HandlerAppJs.handlePost (config 10))
             (startWorld u (fun i => (50%nat, if Nat.eqb i 0
                                              then ROk (JObj [("jsonrpc", JStr "2.0"); ("id", JNum 1);
                                                              ("error", JStr "rate limited")])%string
                                              else ROk (rpcResult 1 (JStr "0x1")))) None)
             [(0, 1%nat, rpcRequest "eth_chainId" (JArr []) 1);
              (1000000000, 2%nat, rpcRequest "eth_chainId" (JArr []) 2)] in
  length (env_posts (w_env w)) = 1%nat /\
  (json_stringify ∘ reply_body ∘ snd) <$> last (w_out w)
  = Some (Some ("{" ++ dquote ++ "jsonrpc" ++ dquote ++ ":" ++ dquote ++ "2.0" ++ dquote ++ ","
                ++ dquote ++ "id" ++ dquote ++ ":2}"))%string /\
  (* part_000 does not store it as an answer: the second call is forwarded *)
  length (env_posts (w_env
    (serve (HandlerPart000.handlePost parse (config 10))
       (startWorld u (fun i => (50%nat, if Nat.eqb i 0
                                        then ROk (JObj [("jsonrpc", JStr "2.0"); ("id", JNum 1);
                                                        ("error", JStr "rate limited")])%string
                                        else ROk (rpcResult 1 (JStr "0x1")))) None)
       [(0, 1%nat, rpcRequest "eth_chainId" (JArr []) 1);
        (1000000000, 2%nat, rpcRequest "eth_chainId" (JArr []) 2)]))) = 2%nat.
Proof. vm_compute. split_and!; reflexivity. Qed.

(** A pending transaction receipt ([result: null]): app.js caches it and
    answers the next call within the maximum age with [null] from the
    cache; part_000 never caches receipts (it reads them with an infinite
    maximum age but its write condition leaves them out), so the second
    call is forwarded. *)
Lemma scenario_null_receipt parse u :
  let reqs := [(0, 1%nat, rpcRequest "eth_getTransactionReceipt" (JArr [JStr "0xaa"]) 1);
               (3000, 2%nat, rpcRequest "eth_getTransactionReceipt" (JArr [JStr "0xaa"]) 2)] in
  let w1 := serve (HandlerAppJs.handlePost (config 10))
              (startWorld u (upstreamAnswering (rpcResult 1 JNull)) None) reqs in
  let w2 := serve (HandlerPart000.handlePost parse (config 10))
              (startWorld u (upstreamAnswering (rpcResult 1 JNull)) None) reqs in
  length (env_posts (w_env w1)) = 1%nat /\
  last (w_out w1) = Some (2%nat, mkReply 200 (cacheResponse (JNum 2) JNull)) /\
  length (env_posts (w_env w2)) = 2%nat /\
  st_cache (g_store (w_glob w2)) = ∅.
Proof. vm_compute. split_and!; reflexivity. Qed.

(** The statistics can count more upstream responses than requests: an
    [eth_call] without [params] is forwarded and answered, then its
    cache-write condition throws ([undefined.some]), the second
    [res.send] throws and the handler ends before [httpReqCnt++].  After
    one more, ordinary request the snapshot reports 1 request processed
    and 2 upstream responses. *)
Lemma scenario_stats_counter_skew parse u :
  let w := serve (HandlerPart000.handlePost parse (config 10))
             (startWorld u (upstreamAnswering (rpcResult 1 (JStr "0x1"))) None)
             [(0, 1%nat, JObj [("jsonrpc", JStr "2.0"); ("method", JStr "eth_call"); ("id", JNum 1)]);
              (5000, 2%nat, rpcRequest "eth_chainId" (JArr []) 2)]%string in
  length (w_out w) = 2%nat /\
  p_log (StatsPart000.printStats (w_glob w) (mkProc [] Running 0))
  = ["stats:"; "nr http requests processed: 1"; "nr http upstream responses: 2";
     "nr http cached responses: 0"; "in-memory cache stats:"; "key eth_chainId[]: 0 reads, 1 writes"]%string.
Proof. vm_compute. split_and!; reflexivity. Qed.

(** ** Interleaved requests (event loop of [EventLoop]) *)

Definition blockNumberBurst : list (Z * nat * jsval) :=
  [(0, 1%nat, rpcRequest "eth_blockNumber" (JArr []) 1);
   (10, 2%nat, rpcRequest "eth_blockNumber" (JArr []) 2);
   (20, 3%nat, rpcRequest "eth_blockNumber" (JArr []) 3)].

Definition runBurst (parse : string -> res exn jsval) (latency : nat) : Sys :=
  sched_run parse (config 10) true 72
    (mkSys (startWorld (2 ^ 52) (fun _ => (latency, ROk (rpcResult 1 (JStr "0x10")))) None)
       (arrivals blockNumberBurst) None).

(** Spec section 8, duplicate suppression, run on the event loop: three
    identical [eth_blockNumber] calls within 20 ms.  Each later call is
    delayed (1000 ms here), but when the upstream takes 2000 ms the
    delayed calls find the cache still empty and all three reach the
    upstream, where the spec promises exactly one; with an upstream
    answering in 100 ms only the first does, and the other two are
    cache hits. *)
Lemma scenario_duplicates_reach_upstream parse :
  length (env_posts (w_env (sys_world (runBurst parse 2000)))) = 3%nat /\
  env_timers (w_env (sys_world (runBurst parse 2000))) = [1000; 1000] /\
  fst <$> w_out (sys_world (runBurst parse 2000)) = [1; 2; 3]%nat /\
  length (env_posts (w_env (sys_world (runBurst parse 100)))) = 1%nat /\
  httpCacheResCnt (w_glob (sys_world (runBurst parse 100))) = 2%nat.
Proof. vm_compute. split_and!; reflexivity. Qed.

Definition runRejection (parse : string -> res exn jsval) (u : Z) (crash : bool) : Sys :=
  sched_run parse (config 10) crash 48
    (mkSys (startWorld u (upstreamAnswering (rpcResult 1 (JStr "0x1"))) None)
       (arrivals [(0, 1%nat, JObj [("jsonrpc", JStr "2.0"); ("method", JStr "eth_call"); ("id", JNum 1)]);
                  (10, 2%nat, rpcRequest "eth_chainId" (JArr []) 2)])%string None).

(** One malformed request stops the server: an [eth_call] without
    [params] is answered, then its handler rejects with
    [ERR_HTTP_HEADERS_SENT]; where an unhandled rejection ends the
    process (Node 15 and later, by default), the [eth_chainId] call that
    arrived meanwhile has been posted upstream but is never answered.
    Where it does not, both are answered. *)
Lemma scenario_rejection_stops_server parse u :
  sys_crash (runRejection parse u true) = Some HeadersSentError /\
  fst <$> w_out (sys_world (runRejection parse u true)) = [1%nat] /\
  length (env_posts (w_env (sys_world (runRejection parse u true)))) = 2%nat /\
  sys_crash (runRejection parse u false) = None /\
  fst <$> w_out (sys_world (runRejection parse u false)) = [1; 2]%nat.
Proof. vm_compute. split_and!; reflexivity. Qed.
